(** * Station resolution and waveform archiving of the earthquake detector

    A shallow embedding of the seismic fetchers of [backup/] :
    [production_seismic_fetcher.py] (class [ProductionSeismicFetcher]) and
    [fetch_seismic_data.py] (class [SeismicDataFetcher]).

    Conventions of the embedding.
    - Python floats (coordinates, distances, magnitudes) are real numbers:
      rounding, NaN and [math] domain errors are outside the model.
    - Instants (pandas [Timestamp], [datetime], [UTCDateTime]) are integers,
      seconds since the Unix epoch; a [timedelta] is a number of seconds.
    - Code that touches the outside world runs in the monad [M]: a state
      monad over [World] (file system, log of remote calls and sleeps) whose
      results are either a value or a raised Python [Exception].
    - What the remote FDSN services, the disk, the clock and the string
      formatting routines answer is given by the class [Environment].
    - [print] calls are not modelled. *)

From Stdlib Require Import Reals Machin Lra Psatz Lia ZArith String Ascii List.
From stdpp Require Import base option list sorting strings gmap.

(* ===================================================================== *)
(** * Part I: the embedding                                               *)
(* ===================================================================== *)

(** ** Python built-ins used by the fetchers *)

#[global] Instance Rle_decision (x y : R) : Decision (x <= y)%R := Rle_dec x y.
#[global] Instance Req_decision : EqDecision R := Req_dec_T.

(** [l[:n]] for a Python int [n]: a negative [n] counts from the end. *)
Definition slice_to {A} (l : list A) (n : Z) : list A :=
  if (0 <=? n)%Z then take (Z.to_nat n) l
  else take (Z.to_nat (Z.of_nat (length l) + n)) l.

(** Clamping of a slice bound, as CPython's [PySlice_AdjustIndices]. *)
Definition slice_index (len : nat) (i : Z) : nat :=
  if (i <? 0)%Z then Z.to_nat (Z.of_nat len + i)
  else Nat.min (Z.to_nat i) len.

(** [l[a:b]] and [l[a:]] *)
Definition slice {A} (l : list A) (a b : Z) : list A :=
  let a' := slice_index (length l) a in
  let b' := slice_index (length l) b in
  take (b' - a') (drop a' l).

Definition slice_from {A} (l : list A) (a : Z) : list A :=
  drop (slice_index (length l) a) l.

(** [list.sort(key=...)]: a stable sort; [le x y] is [key x <= key y]. *)
Fixpoint insert_by {A} (le : A -> A -> bool) (x : A) (l : list A) : list A :=
  match l with
  | [] => [x]
  | y :: l' => if le x y then x :: y :: l' else y :: insert_by le x l'
  end.

Definition sort_by {A} (le : A -> A -> bool) (l : list A) : list A :=
  foldr (insert_by le) [] l.

Definition sort_by_key {A} (key : A -> R) : list A -> list A :=
  sort_by (fun x y => bool_decide (key x <= key y)%R).

(** [str.isalnum] on one character, ASCII letters and digits. *)
Definition isalnum (c : ascii) : bool :=
  let n := nat_of_ascii c in
  ((48 <=? n) && (n <=? 57)) || ((65 <=? n) && (n <=? 90))
  || ((97 <=? n) && (n <=? 122)).

Fixpoint string_filter (p : ascii -> bool) (s : string) : string :=
  match s with
  | EmptyString => EmptyString
  | String c s' =>
      if p c then String c (string_filter p s') else string_filter p s'
  end.

Definition is_space (c : ascii) : bool :=
  let n := nat_of_ascii c in
  (n =? 32) || ((9 <=? n) && (n <=? 13)).

(** [str.rstrip()] *)
Fixpoint rstrip (s : string) : string :=
  match s with
  | EmptyString => EmptyString
  | String c s' =>
      match rstrip s' with
      | EmptyString => if is_space c then EmptyString else String c EmptyString
      | r => String c r
      end
  end.

(** [str.strip()] *)
Fixpoint lstrip (s : string) : string :=
  match s with
  | EmptyString => EmptyString
  | String c s' => if is_space c then lstrip s' else s
  end.

Definition strip (s : string) : string := lstrip (rstrip s).

(** [str.split(sep)] for a single character *)
Fixpoint split_on (sep : ascii) (s : string) : list string :=
  match s with
  | EmptyString => [EmptyString]
  | String c s' =>
      if Ascii.eqb c sep then EmptyString :: split_on sep s'
      else match split_on sep s' with
           | [] => [String c EmptyString]
           | first :: others => String c first :: others
           end
  end.

(** [str.startswith(c)] for a single character *)
Definition startswith (c : ascii) (s : string) : bool :=
  match s with
  | EmptyString => false
  | String c' _ => Ascii.eqb c' c
  end.

(** [str.replace(a, b)] for single characters *)
Fixpoint replace_char (a b : ascii) (s : string) : string :=
  match s with
  | EmptyString => EmptyString
  | String c s' =>
      String (if Ascii.eqb c a then b else c) (replace_char a b s')
  end.

(** [os.path.join] of two components, the second one relative. *)
Definition os_path_join (a b : string) : string := a +:+ "/" +:+ b.

(** [timedelta(days=d)], [timedelta(hours=h)] *)
Definition timedelta_days (d : Z) : Z := (d * 86400)%Z.
Definition timedelta_hours (h : Z) : Z := (h * 3600)%Z.

(** [datetime(y, m, d, hh, mm, ss)] in UTC, as seconds since the epoch
    (proleptic Gregorian calendar). *)
Definition days_from_civil (y m d : Z) : Z :=
  let y' := (if m <=? 2 then y - 1 else y)%Z in
  let era := (y' / 400)%Z in
  let yoe := (y' - era * 400)%Z in
  let mp := ((m + 9) mod 12)%Z in
  let doy := ((153 * mp + 2) / 5 + d - 1)%Z in
  let doe := (yoe * 365 + yoe / 4 - yoe / 100 + doy)%Z in
  (era * 146097 + doe - 719468)%Z.

Definition datetime (y m d hh mm ss : Z) : Z :=
  (days_from_civil y m d * 86400 + hh * 3600 + mm * 60 + ss)%Z.

(** ** JSON values: what [json.dump] is given *)

#[local] Unset Elimination Schemes.
Inductive json : Type :=
  | JNull
  | JBool (b : bool)
  | JInt (n : Z)
  | JFloat (x : R)
  | JStr (s : string)
  | JList (l : list json)
  | JObj (fields : list (string * json)).
#[local] Set Elimination Schemes.

(** [d[k]] on a dict literal *)
Fixpoint assoc (k : string) (fields : list (string * json)) : option json :=
  match fields with
  | [] => None
  | (k', v) :: rest => if String.eqb k k' then Some v else assoc k rest
  end.

Definition json_get (k : string) (j : json) : option json :=
  match j with JObj fields => assoc k fields | _ => None end.

(** [d[k1][k2]...] *)
Fixpoint json_path (keys : list string) (j : json) : option json :=
  match keys with
  | [] => Some j
  | k :: rest =>
      match json_get k j with
      | Some v => json_path rest v
      | None => None
      end
  end.

(** ** Waveforms *)

(** An ObsPy [Trace] with the [stats] the fetchers read. *)
Record Trace := {
  tr_network : string;
  tr_station : string;
  tr_location : string;
  tr_channel : string;
  tr_sampling_rate : R;
  tr_npts : Z;
  tr_starttime : Z;
  tr_endtime : Z
}.

(** An ObsPy [Stream]; it is falsy exactly when it has no trace. *)
Definition Stream := list Trace.

Definition stream_truthy (waveforms : Stream) : bool :=
  negb (length waveforms =? 0)%nat.

(** ** The world, exceptions and the monad *)

(** The exceptions that derive from [Exception], those an
    [except Exception] clause catches; [KeyboardInterrupt] and [SystemExit]
    are outside the model. *)
Inductive exn : Type :=
  | FDSNException (msg : string)
  | OSError (path : string)
  | ZeroDivisionError
  | OtherException (msg : string).

Inductive outcome (A : Type) : Type :=
  | Ok (a : A)
  | Raise (e : exn).
Arguments Ok {A} a.
Arguments Raise {A} e.

(** What a path of the file system holds *)
Inductive node : Type :=
  | Dir
  | MseedFile (waveforms : Stream)
  | JsonFile (content : json).

(** What a run does to the outside, in order *)
Inductive io_event : Type :=
  | CallGetStations (client : string) (latitude longitude maxradius : R)
  | CallGetWaveforms (client network station location channel : string)
                     (starttime endtime : Z)
  | Sleep (milliseconds : Z).

Record World := {
  fs : gmap string node;
  clock : nat;                  (* remote calls made so far *)
  trace : list io_event
}.

Definition M (A : Type) : Type := World -> outcome A * World.

Definition ret {A} (a : A) : M A := fun w => (Ok a, w).

Definition bind {A B} (m : M A) (k : A -> M B) : M B :=
  fun w =>
    match m w with
    | (Ok a, w') => k a w'
    | (Raise e, w') => (Raise e, w')
    end.

Definition raise {A} (e : exn) : M A := fun w => (Raise e, w).

(** [try: m  except Exception as e: h e] *)
Definition try_except {A} (m : M A) (h : exn -> M A) : M A :=
  fun w =>
    match m w with
    | (Ok a, w') => (Ok a, w')
    | (Raise e, w') => h e w'
    end.

Declare Scope io_scope.
Delimit Scope io_scope with io.
Notation "x <- m ;; k" := (bind m (fun x => k))
  (at level 100, m at next level, right associativity) : io_scope.
Notation "m ;;; k" := (bind m (fun _ => k))
  (at level 100, right associativity) : io_scope.
Open Scope io_scope.

(** ** The environment *)

(** An FDSN station inventory: networks, each with its stations. *)
Record InvStation := {
  inv_code : string;
  inv_latitude : R;
  inv_longitude : R;
  inv_site : option string;
  inv_elevation : R
}.

Record InvNetwork := {
  net_code : string;
  net_stations : list InvStation
}.

Definition Inventory := list InvNetwork.

Class Environment := {
  (** [Client(url)] raises *)
  client_init_fails : string -> bool;
  (** [client.get_stations(...)], at the n-th remote call *)
  fdsn_get_stations : nat -> string -> R -> R -> R -> outcome Inventory;
  (** [client.get_waveforms(...)], at the n-th remote call *)
  fdsn_get_waveforms :
    nat -> string -> string -> string -> string -> string -> Z -> Z ->
    outcome Stream;
  (** [os.makedirs(path, exist_ok=True)] raises *)
  makedirs_fails : string -> bool;
  (** opening or writing the file raises *)
  write_fails : string -> bool;
  (** [pd.to_datetime(s, format='%d-%m-%Y %H:%M')]; [None]: it raises *)
  to_datetime_format : string -> option Z;
  (** [pd.to_datetime(s)]; [None]: it raises *)
  to_datetime_infer : string -> option Z;
  (** [t.strftime('%Y%m%d_%H%M')] *)
  strftime_ymd_hm : Z -> string;
  (** [t.isoformat()] *)
  isoformat : Z -> string;
  (** the magnitude inside an f-string *)
  format_magnitude : R -> string;
  (** [datetime.now()], by the number of remote calls made so far *)
  datetime_now : nat -> Z;
  (** [float(s)]; [None]: it raises *)
  float_of_string : string -> option R;
  (** [os.path.abspath(path)] *)
  os_path_abspath : string -> string
}.

Section Primitives.
Context `{Environment}.

(** [os.path.exists(path)] *)
Definition os_path_exists (path : string) : M bool :=
  fun w => (Ok (bool_decide (is_Some (fs w !! path))), w).

(** [os.makedirs(path, exist_ok=True)]: it raises when the environment
    says so, and else leaves the path in place or makes the directory. *)
Definition os_makedirs (path : string) : M unit :=
  fun w =>
    if makedirs_fails path then (Raise (OSError path), w)
    else
      (Ok tt,
       {| fs := match fs w !! path with
                | Some _ => fs w
                | None => <[path := Dir]> (fs w)
                end;
          clock := clock w; trace := trace w |}).

(** [waveforms.write(path, format='MSEED')]; a write that raises leaves
    no file. *)
Definition stream_write (waveforms : Stream) (path : string) : M unit :=
  fun w =>
    if write_fails path then (Raise (OSError path), w)
    else
      (Ok tt,
       {| fs := <[path := MseedFile waveforms]> (fs w);
          clock := clock w; trace := trace w |}).

(** [with open(path, 'w') as f: json.dump(content, f, indent=2)] *)
Definition json_dump_to (content : json) (path : string) : M unit :=
  fun w =>
    if write_fails path then (Raise (OSError path), w)
    else
      (Ok tt,
       {| fs := <[path := JsonFile content]> (fs w);
          clock := clock w; trace := trace w |}).

(** [time.sleep(s)], in milliseconds *)
Definition time_sleep (milliseconds : Z) : M unit :=
  fun w =>
    (Ok tt,
     {| fs := fs w; clock := clock w;
        trace := trace w ++ [Sleep milliseconds] |}).

(** [datetime.now()] *)
Definition now : M Z := fun w => (Ok (datetime_now (clock w)), w).

(** [client.get_stations(latitude=..., longitude=..., maxradius=...,
    level="station", ...)]: the call is logged, the answer is the
    environment's. *)
Definition client_get_stations
    (client : string) (latitude longitude maxradius : R) : M Inventory :=
  fun w =>
    (fdsn_get_stations (clock w) client latitude longitude maxradius,
     {| fs := fs w; clock := S (clock w);
        trace := trace w
                 ++ [CallGetStations client latitude longitude maxradius] |}).

(** [client.get_waveforms(network=..., station=..., location=...,
    channel=..., starttime=..., endtime=...)] *)
Definition client_get_waveforms
    (client network station location channel : string)
    (starttime endtime : Z) : M Stream :=
  fun w =>
    (fdsn_get_waveforms (clock w) client network station location channel
                        starttime endtime,
     {| fs := fs w; clock := S (clock w);
        trace := trace w
                 ++ [CallGetWaveforms client network station location
                                      channel starttime endtime] |}).

(** [UTCDateTime(t)] of an instant *)
Definition UTCDateTime (t : Z) : Z := t.
End Primitives.

(** ** Observing a run *)

(** The fetch attempts of a trace, in order, without the sleeps and the
    station queries. *)
Definition is_waveform_call (e : io_event) : bool :=
  match e with
  | CallGetWaveforms _ _ _ _ _ _ _ => true
  | _ => false
  end.

Definition waveform_calls (tr : list io_event) : list io_event :=
  filter is_waveform_call tr.

(** [m] returns normally from every world: it raises no exception. *)
Definition never_raises {A} (m : M A) : Prop :=
  forall w, exists a w', m w = (Ok a, w').

(** Every step that a run of [m] adds to the trace satisfies [P]. *)
Definition steps_satisfy {A} (P : io_event -> Prop) (m : M A) : Prop :=
  forall w, exists steps,
    trace (m w).2 = trace w ++ steps /\ Forall P steps.

Section Attempts.
Context `{Environment}.

(** What the [n]-th remote call yields when it asks [source] for [channel]:
    a stream with at least one trace, or nothing usable (no data, an error
    or an empty stream). *)
Definition usable_stream (n : nat) (source network station channel : string)
    (starttime endtime : Z) : option Stream :=
  match fdsn_get_waveforms n source network station "*" channel
                           starttime endtime with
  | Ok waveforms => if stream_truthy waveforms then Some waveforms else None
  | Raise _ => None
  end.
End Attempts.

(** ** GeoDistance: the haversine formula *)

Definition radians (x : R) : R := (x * (PI / 180))%R.

(** The formula in the words of the specification, section 4.1: both points
    in radians, [h = sin²(Δlat/2) + cos(lat_a)·cos(lat_b)·sin²(Δlon/2)],
    [distance = 2·R·asin(√h)] with [R = 6371]; to be compared with the
    [calculate_distance] of the fetchers. *)
Definition haversine_formula (lat_a lon_a lat_b lon_b : R) : R :=
  let h := ((sin ((radians lat_b - radians lat_a) / 2))²
            + cos (radians lat_a) * cos (radians lat_b)
              * (sin ((radians lon_b - radians lon_a) / 2))²)%R in
  (2 * 6371 * asin (sqrt h))%R.

(** ** Catalog rows *)

(** A row of the CSV file as [pd.read_csv] returns it; a missing
    coordinate is [None]. *)
Record CsvRow := {
  csv_title : string;
  csv_magnitude : R;
  csv_date_time : string;
  csv_latitude : option R;
  csv_longitude : option R;
  csv_location : string
}.

(** A row after [dropna(subset=['latitude', 'longitude'])]. *)
Record Row := {
  row_title : string;
  row_magnitude : R;
  row_date_time : string;
  row_latitude : R;
  row_longitude : R;
  row_location : string
}.

(** A data frame: the rows with their index labels. *)
Definition dropna (df : list (Z * CsvRow)) : list (Z * Row) :=
  omap (fun '(index, r) =>
          match csv_latitude r, csv_longitude r with
          | Some la, Some lo =>
              Some (index,
                    {| row_title := csv_title r;
                       row_magnitude := csv_magnitude r;
                       row_date_time := csv_date_time r;
                       row_latitude := la; row_longitude := lo;
                       row_location := csv_location r |})
          | _, _ => None
          end) df.

(** The four bounds [process_earthquake] derives from the event time *)
Record DataPeriods := {
  before_start : Z;
  before_end : Z;
  after_start : Z;
  after_end : Z
}.

(** The windows of the specification, section 4.4: [before] runs from 30
    days before the event to [buffer] before it, [after] from [buffer]
    after it to 30 days after, and
    [before.start < before.end < occurred_at < after.start < after.end]. *)
Definition windows_around (occurred_at buffer : Z) (p : DataPeriods) : Prop :=
  before_start p = (occurred_at - 30 * 24 * 3600)%Z
  /\ before_end p = (occurred_at - buffer)%Z
  /\ after_start p = (occurred_at + buffer)%Z
  /\ after_end p = (occurred_at + 30 * 24 * 3600)%Z
  /\ (before_start p < before_end p)%Z
  /\ (before_end p < occurred_at)%Z
  /\ (occurred_at < after_start p)%Z
  /\ (after_start p < after_end p)%Z.

(** A fetch of one of the two windows; the other steps are not
    constrained. *)
Definition fetches_window (p : DataPeriods) (e : io_event) : Prop :=
  match e with
  | CallGetWaveforms _ _ _ _ _ starttime endtime =>
      (starttime = before_start p /\ endtime = before_end p)
      \/ (starttime = after_start p /\ endtime = after_end p)
  | _ => True
  end.

(** [if result:] on what [process_earthquake] returns, [None] or a path *)
Definition result_truthy (result : option string) : bool :=
  match result with
  | Some event_dir => negb (String.eqb event_dir "")
  | None => false
  end.

(** The title as a directory name component:
    ["".join(c for c in title if c.isalnum() or c in (' ', '-', '_')).rstrip()]
    then [.replace(' ', '_')[:limit]]. *)
Definition safe_title_of (title : string) (limit : nat) : string :=
  let kept :=
    rstrip (string_filter
              (fun c => isalnum c || Ascii.eqb c " " || Ascii.eqb c "-"
                        || Ascii.eqb c "_") title) in
  substring 0 limit (replace_char " " "_" kept).

Section ParseDate.
Context `{Environment}.

(** The nested [try] around [pd.to_datetime]: the given format first, then
    the general parser; [None] when both raise. *)
Definition parse_date (date_str : string) : option Z :=
  match to_datetime_format date_str with
  | Some t => Some t
  | None => to_datetime_infer date_str
  end.
End ParseDate.

(** ** [production_seismic_fetcher.py] *)

Module ProductionSeismicFetcher.

(** An entry of [self.global_stations] *)
Record GlobalStation := {
  network : string;
  station : string;
  latitude : R;
  longitude : R;
  name : string
}.

(** [station.copy()] with its ['distance_km'] *)
Record RankedStation := {
  entry : GlobalStation;
  distance_km : R
}.

(** The fetcher object *)
Record t := {
  data_dir : string;
  client : option string;
  global_stations : list GlobalStation
}.

Definition builtin_global_stations : list GlobalStation :=
  let st n s la lo nm :=
    {| network := n; station := s; latitude := la; longitude := lo;
       name := nm |} in
  [ (* Americas *)
    st "IU" "ANMO" 34.9459%R (-106.4572)%R "Albuquerque, NM";
    st "IU" "HRV" 42.5064%R (-71.5583)%R "Harvard, MA";
    st "IU" "COLA" 64.8738%R (-147.8616)%R "College, AK";
    st "IU" "CCM" 38.0557%R (-91.2446)%R "Cathedral Cave, MO";
    st "US" "WMOK" 34.7367%R (-98.7707)%R "Wichita Mountains, OK";
    st "CI" "PAS" 34.1484%R (-118.1717)%R "Pasadena, CA";
    st "BK" "BRK" 37.8735%R (-122.2609)%R "Berkeley, CA";
    st "IU" "SSPA" (-40.3084)%R (-70.8601)%R "San Martin, Argentina";
    st "GT" "PLCA" (-31.6729)%R (-63.8792)%R "Argentina";
    (* Europe & Middle East *)
    st "IU" "KONO" 59.6491%R 9.5982%R "Kongsberg, Norway";
    st "IU" "KEV" 69.7565%R 27.0035%R "Kevo, Finland";
    st "IU" "KIEV" 50.7012%R 29.2242%R "Kiev, Ukraine";
    st "IU" "PAB" 39.5446%R 4.3499%R "San Pablo, Spain";
    st "GE" "WLF" 49.6555%R 6.1508%R "Walferdange, Luxembourg";
    st "GE" "APE" 40.8204%R 14.4297%R "Ape, Italy";
    st "II" "ANTO" 39.8683%R 32.7934%R "Ankara, Turkey";
    st "HL" "JER" 31.7730%R 35.2045%R "Jerusalem, Israel";
    (* Asia & Pacific *)
    st "IU" "MAJO" 36.5457%R 138.2041%R "Matsushiro, Japan";
    st "IU" "TATO" 24.9735%R 121.4971%R "Taipei, Taiwan";
    st "IU" "ULN" 47.8651%R 107.0532%R "Ulaanbaatar, Mongolia";
    st "IU" "MAKZ" 46.8080%R 82.1283%R "Makanchi, Kazakhstan";
    st "IU" "TEIG" 20.2263%R 92.7936%R "Teigaga, Myanmar";
    st "II" "NIL" 33.6506%R 73.2686%R "Nilore, Pakistan";
    st "IU" "GUMO" 13.5893%R 144.8684%R "Guam, Mariana Is";
    st "IU" "FUNA" (-8.5259)%R 179.1966%R "Funafuti, Tuvalu";
    st "GE" "SUMG" (-0.5527)%R 100.2381%R "Sumatra, Indonesia";
    st "AU" "ARMA" (-30.6267)%R 151.9501%R "Armidale, Australia";
    st "AU" "EIDS" (-26.3912)%R 116.7975%R "Emu Heights, Australia";
    (* Polar regions *)
    st "IU" "PMSA" (-64.7744)%R (-64.0489)%R "Palmer Station, Antarctica";
    st "IU" "QSPA" (-89.9289)%R 144.4382%R "South Pole, Antarctica" ].

(** The identity key of the specification *)
Definition identity_key (s : GlobalStation) : string * string :=
  (network s, station s).

Definition calculate_distance (lat1 lon1 lat2 lon2 : R) : R :=
  let lat1 := radians lat1 in
  let lon1 := radians lon1 in
  let lat2 := radians lat2 in
  let lon2 := radians lon2 in
  let dlat := (lat2 - lat1)%R in
  let dlon := (lon2 - lon1)%R in
  let a := ((sin (dlat / 2))² + cos lat1 * cos lat2 * (sin (dlon / 2))²)%R in
  let c := (2 * asin (sqrt a))%R in
  let r := 6371%R in
  (c * r)%R.

Definition get_nearest_stations (self : t) (latitude longitude : R)
    (max_radius_km : R) (max_stations : Z) : list RankedStation :=
  let stations :=
    omap (fun station =>
            let distance :=
              calculate_distance latitude longitude
                (station.(ProductionSeismicFetcher.latitude))
                (station.(ProductionSeismicFetcher.longitude)) in
            if bool_decide (distance <= max_radius_km)%R
            then Some {| entry := station; distance_km := distance |}
            else None)
         (global_stations self) in
  slice_to (sort_by_key distance_km stations) max_stations.

Definition channel_sets : list string :=
  ["BH*"; "HH*"; "LH*"; "BHZ"; "HHZ"].

(** Define time periods (30 days before and after) *)
Definition data_periods (event_time : Z) : DataPeriods :=
  {| before_start := event_time - timedelta_days 30;
     before_end := event_time - timedelta_hours 2;
     after_start := event_time + timedelta_hours 2;
     after_end := event_time + timedelta_days 30 |}.

Section WithEnvironment.
Context `{Environment}.

(** [__init__] *)
Definition init (data_dir : string) : M t :=
  let client := if client_init_fails "IRIS" then None else Some "IRIS" in
  present <- os_path_exists data_dir ;;
  (if present then ret tt else os_makedirs data_dir) ;;;
  ret {| data_dir := data_dir; client := client;
         global_stations := builtin_global_stations |}.

(** The loop of [get_waveforms] over the channel sets still to try *)
Fixpoint get_waveforms_loop (client network station : string)
    (starttime endtime : Z) (channel_sets : list string)
    : M (option Stream * string) :=
  match channel_sets with
  | [] => ret (None, "No data found")
  | channels :: rest =>
      found <-
        try_except
          (waveforms <-
             client_get_waveforms client network station "*" channels
                                  starttime endtime ;;
           if stream_truthy waveforms && (0 <? length waveforms)%nat
           then ret (Some (Some (Some waveforms, "IRIS-" +:+ channels)))
           else ret (Some None))
          (fun _ => ret None) ;;
      match found with
      | Some (Some result) => ret result           (* return *)
      | Some None =>                               (* falls through *)
          time_sleep 200 ;;;
          get_waveforms_loop client network station starttime endtime rest
      | None =>                                    (* except: continue *)
          get_waveforms_loop client network station starttime endtime rest
      end
  end.

Definition get_waveforms (self : t) (network station : string)
    (start_time end_time : Z) : M (option Stream * string) :=
  match client self with
  | None => ret (None, "No client available")
  | Some client =>
      let starttime := UTCDateTime start_time in
      let endtime := UTCDateTime end_time in
      get_waveforms_loop client network station starttime endtime
                         channel_sets
  end.

(** [event_dir] of [process_earthquake] *)
Definition event_dir_of (self : t) (title : string) (magnitude : R)
    (event_time : Z) : string :=
  let safe_title := safe_title_of title 60 in
  os_path_join (data_dir self)
    (strftime_ymd_hm event_time +:+ "_M" +:+ format_magnitude magnitude
     +:+ "_" +:+ safe_title).

(** The station loop of [process_earthquake]; it returns
    [(station_results, successful_retrievals)]. *)
Fixpoint process_stations (self : t) (before_dir after_dir : string)
    (before_start before_end after_start after_end : Z)
    (stations : list RankedStation)
    (station_results : list json) (successful_retrievals : Z)
    : M (list json * Z) :=
  match stations with
  | [] => ret (station_results, successful_retrievals)
  | station :: rest =>
      let network := station.(entry).(ProductionSeismicFetcher.network) in
      let station_code :=
        station.(entry).(ProductionSeismicFetcher.station) in
      (* Fetch before-event data *)
      before <- get_waveforms self network station_code
                              before_start before_end ;;
      before_ok <-
        match before.1 with
        | Some before_waveforms =>
            if stream_truthy before_waveforms then
              let before_file :=
                os_path_join before_dir
                  (network +:+ "_" +:+ station_code +:+ "_before.mseed") in
              try_except
                (stream_write before_waveforms before_file ;;; ret true)
                (fun _ => ret false)
            else ret false
        | None => ret false
        end ;;
      time_sleep 1000 ;;;
      (* Fetch after-event data *)
      after <- get_waveforms self network station_code
                             after_start after_end ;;
      after_ok <-
        match after.1 with
        | Some after_waveforms =>
            if stream_truthy after_waveforms then
              let after_file :=
                os_path_join after_dir
                  (network +:+ "_" +:+ station_code +:+ "_after.mseed") in
              try_except
                (stream_write after_waveforms after_file ;;; ret true)
                (fun _ => ret false)
            else ret false
        | None => ret false
        end ;;
      let station_info :=
        JObj [("network", JStr network);
              ("station", JStr station_code);
              ("name", JStr (station.(entry).(name)));
              ("distance_km", JFloat (distance_km station));
              ("data_retrieved",
               JObj [("before", JBool before_ok);
                     ("after", JBool after_ok)])] in
      time_sleep 2000 ;;;
      process_stations self before_dir after_dir
        before_start before_end after_start after_end rest
        (station_results ++ [station_info])
        (successful_retrievals
         + (if before_ok then 1 else 0) + (if after_ok then 1 else 0))%Z
  end.

(** The body of the [try] of [process_earthquake] *)
Definition process_earthquake_body (self : t) (row : Row)
    (index : Z) (total : nat) : M (option string) :=
  let title := row_title row in
  let magnitude := row_magnitude row in
  let date_str := row_date_time row in
  let latitude := row_latitude row in
  let longitude := row_longitude row in
  let location := row_location row in
  match parse_date date_str with
  | None => ret None
  | Some event_time =>
      let event_dir := event_dir_of self title magnitude event_time in
      present <- os_path_exists event_dir ;;
      if present then ret (Some event_dir)
      else
        os_makedirs event_dir ;;;
        let before_dir := os_path_join event_dir "before_event" in
        let after_dir := os_path_join event_dir "after_event" in
        os_makedirs before_dir ;;;
        os_makedirs after_dir ;;;
        let periods := data_periods event_time in
        let before_start := periods.(before_start) in
        let before_end := periods.(before_end) in
        let after_start := periods.(after_start) in
        let after_end := periods.(after_end) in
        let stations :=
          get_nearest_stations self latitude longitude 4000 3 in
        match stations with
        | [] => ret None
        | _ =>
            results <- process_stations self before_dir after_dir
                         before_start before_end after_start after_end
                         stations [] 0 ;;
            let station_results := results.1 in
            let successful_retrievals := results.2 in
            processing_time <- now ;;
            let metadata :=
              JObj [("event_info",
                     JObj [("title", JStr title);
                           ("magnitude", JFloat magnitude);
                           ("datetime", JStr (isoformat event_time));
                           ("latitude", JFloat latitude);
                           ("longitude", JFloat longitude);
                           ("location", JStr location)]);
                    ("stations", JList station_results);
                    ("data_periods",
                     JObj [("before",
                            JObj [("start", JStr (isoformat before_start));
                                  ("end", JStr (isoformat before_end))]);
                           ("after",
                            JObj [("start", JStr (isoformat after_start));
                                  ("end", JStr (isoformat after_end))])]);
                    ("processing_time", JStr (isoformat processing_time));
                    ("successful_retrievals", JInt successful_retrievals);
                    ("total_possible",
                     JInt (Z.of_nat (length stations) * 2));
                    ("status", JStr "completed")] in
            json_dump_to metadata (os_path_join event_dir "metadata.json") ;;;
            ret (Some event_dir)
        end
  end.

Definition process_earthquake (self : t) (row : Row)
    (index : Z) (total : nat) : M (option string) :=
  try_except (process_earthquake_body self row index total)
             (fun _ => ret None).

(** The [for index, row in df.iterrows()] loop of
    [process_all_earthquakes]; it returns [(successful, failed)].  The
    progress report printed every 10 events is output only; it divides
    by the elapsed wall-clock time, which is taken to be non-zero. *)
Fixpoint process_rows (self : t) (start_from : Z) (total : nat)
    (rows : list (Z * Row)) (successful failed : Z) : M (Z * Z) :=
  match rows with
  | [] => ret (successful, failed)
  | (index, row) :: rest =>
      result <- process_earthquake self row (index - start_from + 1) total ;;
      let successful' :=
        if result_truthy result then (successful + 1)%Z else successful in
      let failed' :=
        if result_truthy result then failed else (failed + 1)%Z in
      time_sleep 5000 ;;;
      process_rows self start_from total rest successful' failed'
  end.

(** [process_all_earthquakes], from the data frame [pd.read_csv]
    returned; the result is the pair of counters it has reached, [None]
    when it stops at once for want of a client. *)
Definition process_all_earthquakes (self : t) (csv : list (Z * CsvRow))
    (max_events : option Z) (start_from : Z) : M (option (Z * Z)) :=
  match client self with
  | None => ret None
  | Some _ =>
      let df := dropna csv in
      let df :=
        match max_events with
        | Some n =>
            if (n =? 0)%Z then slice_from df start_from
            else slice df start_from (start_from + n)
        | None => slice_from df start_from
        end in
      start_time <- now ;;
      counts <- process_rows self start_from (length df) df 0 0 ;;
      let successful := counts.1 in
      let failed := counts.2 in
      end_time <- now ;;
      let total_time := (end_time - start_time)%Z in
      if (length df =? 0)%nat then raise ZeroDivisionError
      else
        processing_date <- now ;;
        let summary :=
          JObj [("processing_date", JStr (isoformat processing_date));
                ("total_events", JInt (Z.of_nat (length df)));
                ("successful", JInt successful);
                ("failed", JInt failed);
                ("success_rate",
                 JFloat (IZR successful / INR (length df) * 100));
                ("total_time_seconds", JFloat (IZR total_time));
                ("average_time_per_event",
                 JFloat (IZR total_time / INR (length df)));
                ("data_directory", JStr (os_path_abspath (data_dir self)))] in
        json_dump_to summary
          (os_path_join (data_dir self) "processing_summary.json") ;;;
        ret (Some (successful, failed))
  end.
End WithEnvironment.

End ProductionSeismicFetcher.

(** ** [fetch_seismic_data.py] *)

Module SeismicDataFetcher.

(** A station dict of [all_stations] *)
Record Station := {
  network : string;
  station : string;
  latitude : R;
  longitude : R;
  distance_km : R;
  client : string;
  site_name : string;
  elevation : R
}.

(** A station dict of [parse_station_text] *)
Record TextStation := {
  ts_network : string;
  ts_station : string;
  ts_latitude : R;
  ts_longitude : R;
  ts_distance_km : R
}.

(** The fetcher object; [clients] lists the names of [self.clients] in
    the order of the dict. *)
Record t := {
  data_dir : string;
  clients : list string
}.

Definition client_urls : list string :=
  ["IRIS"; "USGS"; "SCEDC"; "NCEDC"; "GEONET"; "BGR"; "INGV"; "EMSC";
   "KOERI"; "JMA"].

Definition calculate_distance (lat1 lon1 lat2 lon2 : R) : R :=
  (* Convert to radians *)
  let lat1 := radians lat1 in
  let lon1 := radians lon1 in
  let lat2 := radians lat2 in
  let lon2 := radians lon2 in
  (* Haversine formula *)
  let dlat := (lat2 - lat1)%R in
  let dlon := (lon2 - lon1)%R in
  let a := ((sin (dlat / 2))² + cos lat1 * cos lat2 * (sin (dlon / 2))²)%R in
  let c := (2 * asin (sqrt a))%R in
  let r := 6371%R in
  (c * r)%R.

(** The [global_stations] literal of [get_fallback_stations] *)
Definition fallback_global_stations : list (string * string * R * R) :=
  [ ("IU", "ANMO", 34.9459%R, (-106.4572)%R);
    ("IU", "COLA", 64.8738%R, (-147.8616)%R);
    ("IU", "HRV", 42.5064%R, (-71.5583)%R);
    ("IU", "KONO", 59.6491%R, 9.5982%R);
    ("IU", "MAJO", 36.5457%R, 138.2041%R);
    ("IU", "RAO", 46.0407%R, 14.5148%R);
    ("IU", "TATO", 24.9735%R, 121.4971%R);
    ("IU", "ULN", 47.8651%R, 107.0532%R);
    ("GT", "PLCA", (-31.6729)%R, (-63.8792)%R);
    ("GT", "DBIC", (-7.9333)%R, 115.2333%R);
    ("US", "ECSD", 44.0648%R, (-121.4058)%R);
    ("US", "LKWY", 44.5664%R, (-110.4016)%R);
    ("CI", "PAS", 34.1484%R, (-118.1717)%R);
    ("BK", "BRK", 37.8735%R, (-122.2609)%R);
    ("HV", "KIP", 21.4233%R, (-158.0095)%R);
    ("GE", "APE", 40.8204%R, 14.4297%R);
    ("GE", "SUMG", (-0.5527)%R, 100.2381%R);
    ("AU", "ARMA", (-30.6267)%R, 151.9501%R);
    ("AU", "EIDS", (-26.3912)%R, 116.7975%R) ].

Definition get_fallback_stations (latitude longitude max_radius_km : R)
    : list Station :=
  omap (fun '(net, sta, la, lo) =>
          let distance := calculate_distance latitude longitude la lo in
          if bool_decide (distance <= max_radius_km)%R
          then Some {| network := net; station := sta;
                       latitude := la; longitude := lo;
                       distance_km := distance;
                       client := "IRIS";
                       site_name := "Global Station";
                       elevation := 0 |}
          else None)
       fallback_global_stations.

(** The two nested loops over an inventory, with what they append *)
Definition stations_of_inventory (latitude longitude : R)
    (client_name : string) (inventory : Inventory) : list Station :=
  flat_map
    (fun network =>
       map (fun station =>
              let distance :=
                calculate_distance latitude longitude
                  (inv_latitude station) (inv_longitude station) in
              {| network := net_code network;
                 station := inv_code station;
                 latitude := inv_latitude station;
                 longitude := inv_longitude station;
                 distance_km := distance;
                 client := client_name;
                 site_name := default "Unknown" (inv_site station);
                 elevation := inv_elevation station |})
           (net_stations network))
    inventory.

Definition station_key (s : Station) : string :=
  network s +:+ "." +:+ station s.

(** The loop that fills [unique_stations], from the [seen] set so far *)
Fixpoint remove_duplicates (all_stations : list Station)
    (seen : gset string) : list Station :=
  match all_stations with
  | [] => []
  | station :: rest =>
      let key := station_key station in
      if bool_decide (key ∈ seen) then remove_duplicates rest seen
      else station :: remove_duplicates rest ({[key]} ∪ seen)
  end.

(** The identity key of the specification *)
Definition identity_key (s : Station) : string * string :=
  (network s, station s).

(** [s] is the first station of [l] with its key. *)
Definition first_occurrence (s : Station) (l : list Station) : Prop :=
  exists i, (l !! i = Some s)
    /\ (forall j s', (j < i)%nat -> l !! j = Some s' ->
                     station_key s' <> station_key s).

Definition default_channels : list string := ["BHZ"; "HHZ"; "BHN"; "BHE"].

(** Define time periods (1 month before and after) *)
Definition data_periods (event_time : Z) : DataPeriods :=
  {| before_start := event_time - timedelta_days 30;
     before_end := event_time - timedelta_hours 1;  (* Stop 1 hour before *)
     after_start := event_time + timedelta_hours 1; (* Start 1 hour after *)
     after_end := event_time + timedelta_days 30 |}.

Section WithEnvironment.
Context `{Environment}.

(** [__init__] with [init_clients] *)
Definition init (data_dir : string) : M t :=
  let clients :=
    filter (fun name => client_init_fails name = false) client_urls in
  present <- os_path_exists data_dir ;;
  (if present then ret tt else os_makedirs data_dir) ;;;
  ret {| data_dir := data_dir; clients := clients |}.

(** The loop of [get_nearest_stations] over the clients still to ask *)
Fixpoint query_clients (latitude longitude max_radius_km : R)
    (clients : list string) (all_stations : list Station)
    : M (list Station) :=
  match clients with
  | [] => ret all_stations
  | client_name :: rest =>
      all_stations' <-
        try_except
          (inventory <-
             client_get_stations client_name latitude longitude
               (max_radius_km / 111.32)%R ;;
           ret (all_stations
                ++ stations_of_inventory latitude longitude client_name
                                         inventory))
          (fun _ => ret all_stations) ;;
      query_clients latitude longitude max_radius_km rest all_stations'
  end.

(** The pool [all_stations] that [get_nearest_stations] de-duplicates:
    what the clients returned, in their order, or the fallback list. *)
Definition merged_stations (self : t) (latitude longitude : R)
    (max_radius_km : R) (w : World) : list Station :=
  match query_clients latitude longitude max_radius_km (clients self) [] w
  with
  | (Ok [], _) => get_fallback_stations latitude longitude max_radius_km
  | (Ok all_stations, _) => all_stations
  | (Raise _, _) => []
  end.

Definition get_nearest_stations (self : t) (latitude longitude : R)
    (max_radius_km : R) (max_stations : Z) : M (list Station) :=
  all_stations <-
    query_clients latitude longitude max_radius_km (clients self) [] ;;
  (* If no stations found from clients, use fallback *)
  let all_stations :=
    match all_stations with
    | [] => get_fallback_stations latitude longitude max_radius_km
    | _ => all_stations
    end in
  (* Remove duplicates and sort by distance *)
  let unique_stations := remove_duplicates all_stations ∅ in
  ret (slice_to (sort_by_key distance_km unique_stations) max_stations).

(** The inner loop of [get_seismic_waveforms], over the channels still
    to try with one client; [Some] is its [return]. *)
Fixpoint try_channels (client_name network station : string)
    (starttime endtime : Z) (channels : list string)
    : M (option (Stream * string)) :=
  match channels with
  | [] => ret None
  | channel :: rest =>
      found <-
        try_except
          (waveforms <-
             client_get_waveforms client_name network station "*" channel
                                  starttime endtime ;;
           if stream_truthy waveforms && (0 <? length waveforms)%nat
           then ret (Some (waveforms, client_name))
           else ret None)
          (fun e =>
             match e with
             | FDSNException _ => ret None
             | _ => ret None
             end) ;;
      match found with
      | Some result => ret (Some result)
      | None =>
          (* Small delay between requests *)
          time_sleep 500 ;;;
          try_channels client_name network station starttime endtime rest
      end
  end.

(** The outer loop, over the clients still to try *)
Fixpoint try_clients (network station : string) (starttime endtime : Z)
    (channels : list string) (clients : list string)
    : M (option Stream * option string) :=
  match clients with
  | [] => ret (None, None)
  | client_name :: rest =>
      found <- try_channels client_name network station starttime endtime
                            channels ;;
      match found with
      | Some (waveforms, name) => ret (Some waveforms, Some name)
      | None => try_clients network station starttime endtime channels rest
      end
  end.

Definition get_seismic_waveforms (self : t) (network station : string)
    (start_time end_time : Z) (channels : list string)
    : M (option Stream * option string) :=
  let starttime := UTCDateTime start_time in
  let endtime := UTCDateTime end_time in
  try_clients network station starttime endtime channels (clients self).

(** The loop of [parse_station_text] over the lines still to read; a
    [float] that raises ends the parsing, with the stations read so far. *)
Fixpoint parse_station_lines (event_lat event_lon : R) (lines : list string)
    (stations : list TextStation) : list TextStation :=
  match lines with
  | [] => stations
  | line :: rest =>
      if negb (String.eqb (strip line) "") && negb (startswith "#" line) then
        match split_on "|" line with
        | p0 :: p1 :: p2 :: p3 :: _ :: _ =>
            let network := strip p0 in
            let station := strip p1 in
            match float_of_string (strip p2), float_of_string (strip p3) with
            | Some lat, Some lon =>
                let distance :=
                  calculate_distance event_lat event_lon lat lon in
                parse_station_lines event_lat event_lon rest
                  (stations
                   ++ [{| ts_network := network; ts_station := station;
                          ts_latitude := lat; ts_longitude := lon;
                          ts_distance_km := distance |}])
            | _, _ => stations
            end
        | _ => parse_station_lines event_lat event_lon rest stations
        end
      else parse_station_lines event_lat event_lon rest stations
  end.

Definition parse_station_text (text_content : string)
    (event_lat event_lon : R) : list TextStation :=
  let lines := split_on "010" (strip text_content) in
  parse_station_lines event_lat event_lon (drop 1 lines) [].  (* Skip header *)

(** The fallback order of [get_seismic_waveforms]: every client in turn,
    and with each client every channel in turn. *)
Definition fallback_order (clients channels : list string)
    : list (string * string) :=
  flat_map (fun client_name => map (pair client_name) channels) clients.

(** The pipeline in the words of the specification, section 4.3: iterate
    the fallback order strictly in sequence; for each (source,
    channel_pattern) pair call fetch; on success with at least one trace
    return at once; on not-found or a transient error go on to the next
    pair after the pacing delay; when the order is exhausted return None.
    To be compared with [get_seismic_waveforms]. *)
Fixpoint retrieve (network station : string) (starttime endtime : Z)
    (order : list (string * string)) : M (option Stream * option string) :=
  match order with
  | [] => ret (None, None)
  | (source, channel_pattern) :: rest =>
      found <-
        try_except
          (waveforms <-
             client_get_waveforms source network station "*" channel_pattern
                                  starttime endtime ;;
           if stream_truthy waveforms then ret (Some waveforms) else ret None)
          (fun _ => ret None) ;;
      match found with
      | Some waveforms => ret (Some waveforms, Some source)
      | None =>
          time_sleep 500 ;;; retrieve network station starttime endtime rest
      end
  end.

Definition save_waveform_data (waveforms : Stream) (filepath : string)
    : M bool :=
  try_except (stream_write waveforms filepath ;;; ret true)
             (fun _ => ret false).

(** [create_waveform_summary]; a Python [set] turned into a list keeps
    here the order of first occurrence. *)
Definition create_waveform_summary (waveforms : Stream) : json :=
  let trace_info trace :=
    JObj [("network", JStr (tr_network trace));
          ("station", JStr (tr_station trace));
          ("location", JStr (tr_location trace));
          ("channel", JStr (tr_channel trace));
          ("sampling_rate", JFloat (tr_sampling_rate trace));
          ("npts", JInt (tr_npts trace));
          ("starttime", JStr (isoformat (tr_starttime trace)));
          ("endtime", JStr (isoformat (tr_endtime trace)));
          ("duration_hours",
           JFloat (IZR (tr_endtime trace - tr_starttime trace) / 3600))] in
  let sampling_rates := map tr_sampling_rate waveforms in
  JObj [("traces", JList (map trace_info waveforms));
        ("total_traces", JInt (Z.of_nat (length waveforms)));
        ("sampling_rates", JList (map JFloat sampling_rates));
        ("channels",
         JList (map JStr (remove_dups (map tr_channel waveforms))));
        ("start_times",
         JList (map (fun tr => JStr (isoformat (tr_starttime tr)))
                    waveforms));
        ("end_times",
         JList (map (fun tr => JStr (isoformat (tr_endtime tr)))
                    waveforms));
        ("unique_sampling_rates",
         JList (map JFloat (remove_dups sampling_rates)))].

(** [event_dir] of [process_earthquake] *)
Definition event_dir_of (self : t) (title : string) (magnitude : R)
    (event_time : Z) : string :=
  let safe_title := safe_title_of title 100 in
  os_path_join (data_dir self)
    (strftime_ymd_hm event_time +:+ "_M" +:+ format_magnitude magnitude
     +:+ "_" +:+ safe_title).

(** The station loop of [process_earthquake]; it returns
    [station_data]. *)
Fixpoint process_stations (self : t) (before_dir after_dir : string)
    (before_start before_end after_start after_end : Z)
    (stations : list Station) (station_data : list json)
    : M (list json) :=
  match stations with
  | [] => ret station_data
  | station :: rest =>
      let network := station.(SeismicDataFetcher.network) in
      let station_code := station.(SeismicDataFetcher.station) in
      let distance := distance_km station in
      let client_name := client station in
      (* Fetch before event waveform data *)
      before <- get_seismic_waveforms self network station_code
                  before_start before_end default_channels ;;
      before_saved <-
        match before.1 with
        | Some before_waveforms =>
            if stream_truthy before_waveforms then
              let before_file :=
                os_path_join before_dir
                  (network +:+ "_" +:+ station_code +:+ "_before.mseed") in
              saved <- save_waveform_data before_waveforms before_file ;;
              if saved : bool
              then ret (Some (create_waveform_summary before_waveforms))
              else ret None
            else ret None
        | None => ret None
        end ;;
      (* Small delay to be respectful to servers *)
      time_sleep 2000 ;;;
      (* Fetch after event waveform data *)
      after <- get_seismic_waveforms self network station_code
                 after_start after_end default_channels ;;
      after_saved <-
        match after.1 with
        | Some after_waveforms =>
            if stream_truthy after_waveforms then
              let after_file :=
                os_path_join after_dir
                  (network +:+ "_" +:+ station_code +:+ "_after.mseed") in
              saved <- save_waveform_data after_waveforms after_file ;;
              if saved : bool
              then ret (Some (create_waveform_summary after_waveforms))
              else ret None
            else ret None
        | None => ret None
        end ;;
      let station_info :=
        JObj [("network", JStr network);
              ("station", JStr station_code);
              ("latitude", JFloat (station.(SeismicDataFetcher.latitude)));
              ("longitude",
               JFloat (station.(SeismicDataFetcher.longitude)));
              ("distance_km", JFloat distance);
              ("client", JStr client_name);
              ("site_name", JStr (site_name station));
              ("elevation", JFloat (elevation station));
              ("data_available",
               JObj [("before", JBool (bool_decide (is_Some before_saved)));
                     ("after", JBool (bool_decide (is_Some after_saved)))]);
              ("waveform_summary",
               JObj [("before", default JNull before_saved);
                     ("after", default JNull after_saved)])] in
      (* Longer delay between stations *)
      time_sleep 3000 ;;;
      process_stations self before_dir after_dir
        before_start before_end after_start after_end rest
        (station_data ++ [station_info])
  end.

(** The body of the [try] of [process_earthquake] *)
Definition process_earthquake_body (self : t) (row : Row)
    (index : Z) (total : nat) : M (option string) :=
  let title := row_title row in
  let magnitude := row_magnitude row in
  let date_str := row_date_time row in
  let latitude := row_latitude row in
  let longitude := row_longitude row in
  let location := row_location row in
  match parse_date date_str with
  | None => ret None
  | Some event_time =>
      let event_dir := event_dir_of self title magnitude event_time in
      present <- os_path_exists event_dir ;;
      if present then ret (Some event_dir)
      else
        os_makedirs event_dir ;;;
        let periods := data_periods event_time in
        let before_start := periods.(before_start) in
        let before_end := periods.(before_end) in
        let after_start := periods.(after_start) in
        let after_end := periods.(after_end) in
        let event_info :=
          JObj [("title", JStr title);
                ("magnitude", JFloat magnitude);
                ("datetime", JStr (isoformat event_time));
                ("latitude", JFloat latitude);
                ("longitude", JFloat longitude);
                ("location", JStr location)] in
        stations <- get_nearest_stations self latitude longitude 500 5 ;;
        match stations with
        | [] =>
            (* Save metadata anyway *)
            processing_time <- now ;;
            let metadata :=
              JObj [("event_info", event_info);
                    ("stations", JList []);
                    ("data_periods",
                     JObj [("before",
                            JObj [("start", JStr (isoformat before_start));
                                  ("end", JStr (isoformat before_end))]);
                           ("after",
                            JObj [("start", JStr (isoformat after_start));
                                  ("end", JStr (isoformat after_end))])]);
                    ("processing_time", JStr (isoformat processing_time));
                    ("status", JStr "no_stations_found")] in
            json_dump_to metadata (os_path_join event_dir "metadata.json") ;;;
            ret (Some event_dir)
        | _ =>
            (* Create subdirectories *)
            let before_dir := os_path_join event_dir "before_event" in
            let after_dir := os_path_join event_dir "after_event" in
            os_makedirs before_dir ;;;
            os_makedirs after_dir ;;;
            station_data <-
              process_stations self before_dir after_dir
                before_start before_end after_start after_end
                (slice_to stations 3) [] ;;
            processing_time <- now ;;
            let metadata :=
              JObj [("event_info", event_info);
                    ("stations", JList station_data);
                    ("data_periods",
                     JObj [("before",
                            JObj [("start", JStr (isoformat before_start));
                                  ("end", JStr (isoformat before_end));
                                  ("duration_days", JInt 30)]);
                           ("after",
                            JObj [("start", JStr (isoformat after_start));
                                  ("end", JStr (isoformat after_end));
                                  ("duration_days", JInt 30)])]);
                    ("processing_time", JStr (isoformat processing_time));
                    ("status", JStr "completed")] in
            json_dump_to metadata (os_path_join event_dir "metadata.json") ;;;
            ret (Some event_dir)
        end
  end.

Definition process_earthquake (self : t) (row : Row)
    (index : Z) (total : nat) : M (option string) :=
  try_except (process_earthquake_body self row index total)
             (fun _ => ret None).

(** The [for index, row in df.iterrows()] loop of
    [fetch_all_earthquake_data]; it returns [(successful, failed)]. *)
Fixpoint process_rows (self : t) (start_from : Z) (total : nat)
    (rows : list (Z * Row)) (successful failed : Z) : M (Z * Z) :=
  match rows with
  | [] => ret (successful, failed)
  | (index, row) :: rest =>
      result <- process_earthquake self row (index - start_from + 1) total ;;
      let successful' :=
        if result_truthy result then (successful + 1)%Z else successful in
      let failed' :=
        if result_truthy result then failed else (failed + 1)%Z in
      (* Respectful delay between events *)
      time_sleep 3000 ;;;
      process_rows self start_from total rest successful' failed'
  end.

(** [fetch_all_earthquake_data], from the data frame [pd.read_csv]
    returned; the result is the pair of counters it has reached. *)
Definition fetch_all_earthquake_data (self : t) (csv : list (Z * CsvRow))
    (max_events : option Z) (start_from : Z) : M (Z * Z) :=
  let df := dropna csv in
  let df :=
    match max_events with
    | Some n =>
        if (n =? 0)%Z then slice_from df start_from
        else slice df start_from (start_from + n)
    | None => slice_from df start_from
    end in
  counts <- process_rows self start_from (length df) df 0 0 ;;
  let successful := counts.1 in
  let failed := counts.2 in
  processing_date <- now ;;
  let summary :=
    JObj [("processing_date", JStr (isoformat processing_date));
          ("total_events", JInt (Z.of_nat (length df)));
          ("successful", JInt successful);
          ("failed", JInt failed);
          ("data_directory", JStr (os_path_abspath (data_dir self)));
          ("data_period", JStr "30 days before and after each event");
          ("apis_used", JList [JStr "IRIS FDSN"; JStr "USGS FDSN"])] in
  json_dump_to summary
    (os_path_join (data_dir self) "processing_summary.json") ;;;
  ret (successful, failed).
End WithEnvironment.

End SeismicDataFetcher.


(** ** Scenarios: concrete environments and inputs *)

Definition empty_world : World := {| fs := ∅; clock := 0; trace := [] |}.

Definition no_data {A} : outcome A :=
  Raise (FDSNException "No data available for request.").

(** An environment where the IRIS and USGS clients can be set up, whose
    clients answer by their name (and by the channel asked for), whose disk
    fails on the paths [disk_fails] tells, and which knows one date. *)
Definition scenario (stations : string -> outcome Inventory)
    (waveforms : string -> string -> outcome Stream)
    (disk_fails : string -> bool) : Environment :=
  {| client_init_fails := fun name =>
       negb (String.eqb name "IRIS" || String.eqb name "USGS");
     fdsn_get_stations := fun _ client _ _ _ => stations client;
     fdsn_get_waveforms := fun _ client _ _ _ channel _ _ =>
                             waveforms client channel;
     makedirs_fails := disk_fails;
     write_fails := disk_fails;
     to_datetime_format := fun s =>
       if String.eqb s "06-02-2023 01:17" then Some (datetime 2023 2 6 1 17 0)
       else None;
     to_datetime_infer := fun _ => None;
     strftime_ymd_hm := fun _ => "20230206_0117";
     isoformat := fun _ => "2023-02-06T01:17:00";
     format_magnitude := fun _ => "7.8";
     datetime_now := fun _ => datetime 2024 1 1 0 0 0;
     float_of_string := fun s =>
       if String.eqb s "0" then Some 0%R
       else if String.eqb s "180" then Some 180%R
       else None;
     os_path_abspath := fun path => "/home/quake/" +:+ path |}.

Definition inventory_of (network code : string) (latitude longitude : R)
    : Inventory :=
  [{| net_code := network;
      net_stations := [{| inv_code := code; inv_latitude := latitude;
                          inv_longitude := longitude; inv_site := None;
                          inv_elevation := 0 |}] |}].

(** Two sources report the station IU.ANMO, the first one two degrees east
    of the origin, the second one a single degree. *)
Definition two_sources : Environment :=
  scenario
    (fun client =>
       if String.eqb client "IRIS" then Ok (inventory_of "IU" "ANMO" 0 2)
       else if String.eqb client "USGS" then Ok (inventory_of "IU" "ANMO" 0 1)
       else no_data)
    (fun _ _ => no_data)
    (fun _ => false).

(** One source reports a station at the antipode of the origin. *)
Definition far_source : Environment :=
  scenario
    (fun client =>
       if String.eqb client "IRIS" then Ok (inventory_of "XX" "FAR" 0 180)
       else no_data)
    (fun _ _ => no_data)
    (fun _ => false).

(** IRIS has data on the HH channels only. *)
Definition one_trace : Trace :=
  {| tr_network := "IU"; tr_station := "ANMO"; tr_location := "00";
     tr_channel := "HHZ"; tr_sampling_rate := 100; tr_npts := 360000;
     tr_starttime := datetime 2023 2 6 3 17 0;
     tr_endtime := datetime 2023 2 6 4 17 0 |}.

Definition hh_only : Environment :=
  scenario
    (fun client =>
       if String.eqb client "IRIS" then Ok (inventory_of "IU" "ANMO" 0 1)
       else no_data)
    (fun client channel =>
       if String.eqb client "IRIS"
          && (String.eqb channel "HH*" || String.eqb channel "HHZ")
       then Ok [one_trace] else no_data)
    (fun _ => false).

Definition production_fetcher : ProductionSeismicFetcher.t :=
  {| ProductionSeismicFetcher.data_dir := "seismic_station_data";
     ProductionSeismicFetcher.client := Some "IRIS";
     ProductionSeismicFetcher.global_stations :=
       ProductionSeismicFetcher.builtin_global_stations |}.

Definition two_clients : SeismicDataFetcher.t :=
  {| SeismicDataFetcher.data_dir := "seismic_station_data";
     SeismicDataFetcher.clients := ["IRIS"; "USGS"] |}.

(** The two occurrences of IU.ANMO the resolver builds from [two_sources]
    for an event at the origin *)
Definition anmo_of (client : string) (longitude : R)
    : SeismicDataFetcher.Station :=
  {| SeismicDataFetcher.network := "IU";
     SeismicDataFetcher.station := "ANMO";
     SeismicDataFetcher.latitude := 0;
     SeismicDataFetcher.longitude := longitude;
     SeismicDataFetcher.distance_km :=
       SeismicDataFetcher.calculate_distance 0 0 0 longitude;
     SeismicDataFetcher.client := client;
     SeismicDataFetcher.site_name := "Unknown";
     SeismicDataFetcher.elevation := 0 |}.

(** Of the stations of the pool sharing a key, the one returned is a
    nearest one. *)
Definition retains_nearest (pool result : list SeismicDataFetcher.Station)
    : Prop :=
  forall s s', s ∈ result -> s' ∈ pool ->
    SeismicDataFetcher.station_key s' = SeismicDataFetcher.station_key s ->
    (SeismicDataFetcher.distance_km s <= SeismicDataFetcher.distance_km s')%R.

(** The test event of [simple_seismic_fetcher.py], as a catalog row *)
Definition turkey_row : Row :=
  {| row_title := "M 7.8 - Central Turkey";
     row_magnitude := 7.8;
     row_date_time := "06-02-2023 01:17";
     row_latitude := 37.166;
     row_longitude := 37.042;
     row_location := "Central Turkey" |}.

Definition turkey_dir : string :=
  "seismic_station_data/20230206_0117_M7.8_M_78_-_Central_Turkey".

(** A world where the directory of the test event is already there *)
Definition archived_world : World :=
  {| fs := {[ turkey_dir := Dir ]}; clock := 0; trace := [] |}.

(** An event on the central Mid-Atlantic Ridge, on the equator at 25
    degrees west *)
Definition mid_atlantic_row : Row :=
  {| row_title := "M 7.8 - central Mid-Atlantic Ridge";
     row_magnitude := 7.8;
     row_date_time := "06-02-2023 01:17";
     row_latitude := 0;
     row_longitude := -25;
     row_location := "central Mid-Atlantic Ridge" |}.

Definition mid_atlantic_dir : string :=
  "seismic_station_data/20230206_0117_M7.8_M_78_-_central_Mid-Atlantic_Ridge".

(** No service has anything and no directory can be made. *)
Definition broken_disk : Environment :=
  scenario (fun _ => no_data) (fun _ _ => no_data) (fun _ => true).


(** ** Observing a run: pacing and the files touched *)

Section Pacing.
Context `{Environment}.

(** The steps of [SeismicDataFetcher.get_seismic_waveforms] for the pairs
    (client, channel) of [order] when none of them yields a stream: each
    fetch is followed by the delay of 0.5 s. *)
Definition paced_attempts (network station : string) (starttime endtime : Z)
    (order : list (string * string)) : list io_event :=
  flat_map (fun p => [CallGetWaveforms p.1 network station "*" p.2
                                       starttime endtime;
                      Sleep 500]) order.

(** The steps of [ProductionSeismicFetcher.get_waveforms] for the channel
    sets of [order] when none of them yields a stream, the first one being
    tried at the remote call [n]: a fetch that returns (an empty stream) is
    followed by the delay of 0.2 s, a fetch that raises is not
    ([except Exception: continue]). *)
Fixpoint unpaced_attempts (n : nat) (client network station : string)
    (starttime endtime : Z) (order : list string) : list io_event :=
  match order with
  | [] => []
  | channels :: rest =>
      CallGetWaveforms client network station "*" channels starttime endtime
      :: match fdsn_get_waveforms n client network station "*" channels
                                  starttime endtime with
         | Ok _ => [Sleep 200]
         | Raise _ => []
         end
      ++ unpaced_attempts (S n) client network station starttime endtime rest
  end.
End Pacing.

(** [path] is [dir] or lies below it. *)
Definition within (dir path : string) : Prop :=
  path = dir \/ exists rest, path = dir +:+ "/" +:+ rest.

(** A run of [m] leaves every path that does not satisfy [P] as it was,
    and removes no path at all. *)
Definition writes_only {A} (P : string -> Prop) (m : M A) : Prop :=
  forall w path,
    (~ P path -> fs (m w).2 !! path = fs w !! path)
    /\ (is_Some (fs w !! path) -> is_Some (fs (m w).2 !! path)).

(** ** Reading a station entry of [metadata.json] *)

(** The flag of a station entry: [info[flags][period]] is [True]. *)
Definition claims_data (flags period : string) (info : json) : bool :=
  match json_path [flags; period] info with
  | Some (JBool true) => true
  | _ => false
  end.

(** The waveform file of a station entry in [dir]:
    [f'{network}_{station_code}' + suffix]. *)
Definition station_file (dir suffix : string) (info : json) : option string :=
  match json_get "network" info, json_get "station" info with
  | Some (JStr network), Some (JStr station_code) =>
      Some (os_path_join dir (network +:+ "_" +:+ station_code +:+ suffix))
  | _, _ => None
  end.

(** The file that [info] stands for holds a stream with at least one
    trace. *)
Definition file_on_disk (files : gmap string node) (dir suffix : string)
    (info : json) : Prop :=
  exists path waveforms,
    station_file dir suffix info = Some path
    /\ files !! path = Some (MseedFile waveforms)
    /\ waveforms <> [].

(** The number of flags set in the station entries *)
Definition count_claims (flags : string) (stations : list json) : Z :=
  foldr (fun info n =>
           ((if claims_data flags "before" info then 1 else 0)
            + (if claims_data flags "after" info then 1 else 0) + n)%Z)
        0%Z stations.

(** Every path that held a stream with at least one trace in [files]
    still holds one in [files']. *)
Definition keeps_waveform_files (files files' : gmap string node) : Prop :=
  forall path waveforms,
    files !! path = Some (MseedFile waveforms) -> waveforms <> [] ->
    exists waveforms',
      files' !! path = Some (MseedFile waveforms') /\ waveforms' <> [].

(** What a station entry claims is on disk: the file of each period whose
    flag is set. *)
Definition claims_on_disk (files : gmap string node) (flags : string)
    (before_dir after_dir : string) (info : json) : Prop :=
  (claims_data flags "before" info = true ->
   file_on_disk files before_dir "_before.mseed" info)
  /\ (claims_data flags "after" info = true ->
      file_on_disk files after_dir "_after.mseed" info).

(** ** The rows of a batch *)

(** The rows a batch goes through: [df.dropna(subset=['latitude',
    'longitude'])], then [df.iloc[start_from:start_from + max_events]]
    when [max_events] is truthy (given and not 0) and
    [df.iloc[start_from:]] otherwise. *)
Definition selected_rows (csv : list (Z * CsvRow)) (max_events : option Z)
    (start_from : Z) : list (Z * Row) :=
  let df := dropna csv in
  match max_events with
  | Some n =>
      if (n =? 0)%Z then slice_from df start_from
      else slice df start_from (start_from + n)
  | None => slice_from df start_from
  end.

(** The rows whose date can be read *)
Definition dated_rows `{Environment} (rows : list (Z * Row))
    : list (Z * Row) :=
  filter (fun r => bool_decide (is_Some (parse_date (row_date_time r.2))))
         rows.

(** ** The methods of [SeismicDataFetcher] that go through [self.session] *)

Module SessionMethods.
Import SeismicDataFetcher.

(** The value of an instance attribute *)
Inductive attribute : Type :=
  | AttrStr (s : string)
  | AttrClients (names : list string).

(** The instance dictionary as [__init__] and [init_clients] leave it:
    they assign [self.data_dir] and [self.clients] and nothing else, and
    no other method assigns an attribute. *)
Definition instance_dict (self : t) : gmap string attribute :=
  {[ "data_dir" := AttrStr (data_dir self);
     "clients" := AttrClients (clients self) ]}.

(** [self.<name>] for a name that is no method of the class *)
Definition getattr (self : t) (name : string) : M attribute :=
  match instance_dict self !! name with
  | Some value => ret value
  | None =>
      raise (OtherException
               ("AttributeError: 'SeismicDataFetcher' object has no attribute "
                +:+ name))
  end.

(** [f"{value}"] *)
Definition format_attribute (value : attribute) : string :=
  match value with
  | AttrStr s => s
  | AttrClients _ => "{...}"
  end.

(** A [requests] response *)
Record Response := {
  status_code : Z;
  text : string;
  json_of : outcome json
}.

Section WithSession.
Context `{Environment}.
(** [session.get(url, params=..., timeout=30)] on whatever [self.session]
    holds, and the methods called on the answer *)
Variable session_get :
  attribute -> string -> list (string * json) -> M Response.
Variable extract_stations_from_events : json -> R -> R -> M (list TextStation).
(** [t.strftime('%Y-%m-%d')] *)
Variable strftime_ymd : Z -> string.

Definition get_stations_iris_text (self : t)
    (latitude longitude max_radius_km : R) : M (list TextStation) :=
  try_except
    (base_url_iris <- getattr self "base_url_iris" ;;
     let url := format_attribute base_url_iris
                +:+ "/fdsnws/station/1/query" in
     let params :=
       [("format", JStr "text"); ("level", JStr "station");
        ("latitude", JFloat latitude); ("longitude", JFloat longitude);
        ("maxradius", JFloat (max_radius_km / 111.32));
        ("starttime", JStr "1990-01-01"); ("endtime", JStr "2024-01-01")] in
     session <- getattr self "session" ;;
     response <- session_get session url params ;;
     if (status_code response =? 200)%Z
     then ret (parse_station_text (text response) latitude longitude)
     else ret [])
    (fun _ => ret []).

Definition get_stations_usgs (self : t)
    (latitude longitude max_radius_km : R) : M (list TextStation) :=
  try_except
    (let url := "https://earthquake.usgs.gov/fdsnws/event/1/query" in
     let params :=
       [("format", JStr "geojson");
        ("latitude", JFloat latitude); ("longitude", JFloat longitude);
        ("maxradius", JFloat (max_radius_km / 111.32));
        ("starttime", JStr "2020-01-01"); ("endtime", JStr "2024-01-01");
        ("minmagnitude", JFloat 5); ("limit", JInt 50)] in
     session <- getattr self "session" ;;
     response <- session_get session url params ;;
     if (status_code response =? 200)%Z
     then
       match json_of response with
       | Ok data => extract_stations_from_events data latitude longitude
       | Raise e => raise e
       end
     else ret [])
    (fun _ => ret []).

Definition get_earthquake_catalog_data (self : t)
    (latitude longitude : R) (start_time end_time : Z) (radius_km : R)
    : M (option json) :=
  try_except
    (base_url_usgs <- getattr self "base_url_usgs" ;;
     let url := format_attribute base_url_usgs +:+ "/event/1/query" in
     let params :=
       [("format", JStr "geojson");
        ("latitude", JFloat latitude); ("longitude", JFloat longitude);
        ("maxradius", JFloat (radius_km / 111.32));
        ("starttime", JStr (strftime_ymd start_time));
        ("endtime", JStr (strftime_ymd end_time));
        ("minmagnitude", JFloat 3); ("orderby", JStr "time")] in
     session <- getattr self "session" ;;
     response <- session_get session url params ;;
     if (status_code response =? 200)%Z
     then
       match json_of response with
       | Ok data => ret (Some data)
       | Raise e => raise e
       end
     else ret None)
    (fun _ => ret None).
End WithSession.

End SessionMethods.

(** ** Further scenarios *)

(** A fetcher whose station list holds a single station, at the epicentre
    of the test event *)
Definition epicentre_fetcher : ProductionSeismicFetcher.t :=
  {| ProductionSeismicFetcher.data_dir := "seismic_station_data";
     ProductionSeismicFetcher.client := Some "IRIS";
     ProductionSeismicFetcher.global_stations :=
       [{| ProductionSeismicFetcher.network := "KO";
           ProductionSeismicFetcher.station := "EPIC";
           ProductionSeismicFetcher.latitude := 37.166;
           ProductionSeismicFetcher.longitude := 37.042;
           ProductionSeismicFetcher.name := "Epicentre" |}] |}.

(** A catalog with the test event only *)
Definition turkey_csv : list (Z * CsvRow) :=
  [(0%Z, {| csv_title := "M 7.8 - Central Turkey";
            csv_magnitude := 7.8;
            csv_date_time := "06-02-2023 01:17";
            csv_latitude := Some 37.166%R;
            csv_longitude := Some 37.042%R;
            csv_location := "Central Turkey" |})].
(* ===================================================================== *)
(** * Part II: properties                                                 *)
(* ===================================================================== *)

(** ** GeoDistance *)

Section GeoDistance.
Local Open Scope R_scope.

Lemma asin_nonneg (x : R) : 0 <= x -> 0 <= asin x.
Proof.
  intros [Hpos | <-]; [| rewrite asin_0; lra].
  unfold asin. destruct (Rle_dec x (-1)); [lra |].
  destruct (Rle_dec 1 x); [left; apply PI2_RGT_0 |].
  rewrite <- atan_0. left. apply atan_increasing.
  apply Rdiv_lt_0_compat; [assumption |].
  apply sqrt_lt_R0. unfold Rsqr. nra.
Qed.

Lemma calculate_distance_formula (lat1 lon1 lat2 lon2 : R) :
  ProductionSeismicFetcher.calculate_distance lat1 lon1 lat2 lon2
  = haversine_formula lat1 lon1 lat2 lon2.
Proof.
  unfold ProductionSeismicFetcher.calculate_distance, haversine_formula.
  cbv zeta. ring.
Qed.

Lemma calculate_distance_same (lat1 lon1 lat2 lon2 : R) :
  SeismicDataFetcher.calculate_distance lat1 lon1 lat2 lon2
  = ProductionSeismicFetcher.calculate_distance lat1 lon1 lat2 lon2.
Proof. reflexivity. Qed.

Lemma haversine_formula_refl (lat lon : R) :
  haversine_formula lat lon lat lon = 0.
Proof.
  unfold haversine_formula. cbv zeta.
  replace ((radians lat - radians lat) / 2) with 0 by lra.
  replace ((radians lon - radians lon) / 2) with 0 by lra.
  rewrite sin_0. unfold Rsqr.
  replace (0 * 0 + cos (radians lat) * cos (radians lat) * (0 * 0))
    with 0 by ring.
  rewrite sqrt_0, asin_0. ring.
Qed.

Lemma haversine_formula_sym (lat_a lon_a lat_b lon_b : R) :
  haversine_formula lat_a lon_a lat_b lon_b
  = haversine_formula lat_b lon_b lat_a lon_a.
Proof.
  unfold haversine_formula. cbv zeta.
  replace ((radians lat_a - radians lat_b) / 2)
    with (- ((radians lat_b - radians lat_a) / 2)) by lra.
  replace ((radians lon_a - radians lon_b) / 2)
    with (- ((radians lon_b - radians lon_a) / 2)) by lra.
  rewrite !sin_neg, <- !Rsqr_neg.
  rewrite (Rmult_comm (cos (radians lat_b)) (cos (radians lat_a))).
  reflexivity.
Qed.

Lemma haversine_formula_nonneg (lat_a lon_a lat_b lon_b : R) :
  0 <= haversine_formula lat_a lon_a lat_b lon_b.
Proof.
  unfold haversine_formula. cbv zeta.
  apply Rmult_le_pos; [lra |]. apply asin_nonneg, sqrt_pos.
Qed.
End GeoDistance.

(** C9: [calculate_distance] is the haversine formula with Earth radius
    6371 km; the distance from a point to itself is 0, the distance is
    symmetric in its two points and never negative.  Both fetchers carry
    the same function. *)
Theorem calculate_distance_haversine :
  forall lat_a lon_a lat_b lon_b : R,
    (SeismicDataFetcher.calculate_distance lat_a lon_a lat_b lon_b
     = ProductionSeismicFetcher.calculate_distance lat_a lon_a lat_b lon_b)
    /\ (ProductionSeismicFetcher.calculate_distance lat_a lon_a lat_b lon_b
        = haversine_formula lat_a lon_a lat_b lon_b)
    /\ (ProductionSeismicFetcher.calculate_distance lat_a lon_a lat_a lon_a
        = 0)%R
    /\ (ProductionSeismicFetcher.calculate_distance lat_a lon_a lat_b lon_b
        = ProductionSeismicFetcher.calculate_distance lat_b lon_b lat_a lon_a)
    /\ (0 <= ProductionSeismicFetcher.calculate_distance
               lat_a lon_a lat_b lon_b)%R.
Proof.
  intros lat_a lon_a lat_b lon_b.
  split; [apply calculate_distance_same |].
  rewrite !calculate_distance_formula.
  split; [reflexivity |].
  split; [apply haversine_formula_refl |].
  split; [apply haversine_formula_sym | apply haversine_formula_nonneg].
Qed.

(** ** Sorting, slicing and de-duplication *)

Section SortBy.
Context {A : Type} (le : A -> A -> bool).

Lemma insert_by_perm (x : A) (l : list A) : insert_by le x l ≡ₚ x :: l.
Proof.
  induction l as [| y l IH]; simpl; [done |].
  destruct (le x y); [done |]. rewrite IH. apply Permutation_swap.
Qed.

Lemma sort_by_perm (l : list A) : sort_by le l ≡ₚ l.
Proof.
  induction l as [| x l IH]; simpl; [done |].
  rewrite insert_by_perm. by rewrite IH.
Qed.

Hypothesis le_total : forall x y, le x y = true \/ le y x = true.

Lemma insert_by_sorted (x : A) (l : list A) :
  Sorted (fun a b => le a b = true) l ->
  Sorted (fun a b => le a b = true) (insert_by le x l).
Proof.
  induction 1 as [| y l Hs IH Hhd]; simpl.
  - by repeat constructor.
  - destruct (le x y) eqn:Hxy.
    + constructor; [by constructor | by constructor].
    + constructor; [done |].
      destruct Hhd as [| z l Hyz]; simpl.
      * constructor. destruct (le_total x y); congruence.
      * destruct (le x z); constructor; [| done].
        destruct (le_total x y); congruence.
Qed.

Lemma sort_by_sorted (l : list A) :
  Sorted (fun a b => le a b = true) (sort_by le l).
Proof.
  induction l as [| x l IH]; simpl; [constructor |].
  by apply insert_by_sorted.
Qed.
End SortBy.

Lemma sort_by_key_perm {A} (key : A -> R) (l : list A) :
  sort_by_key key l ≡ₚ l.
Proof. apply sort_by_perm. Qed.

#[local] Instance Rle_transitive : Transitive Rle.
Proof. intros x y z ??. by eapply Rle_trans. Qed.

Lemma sort_by_key_sorted {A} (key : A -> R) (l : list A) :
  StronglySorted Rle (key <$> sort_by_key key l).
Proof.
  apply Sorted_StronglySorted; [apply _ |].
  eapply (Sorted_fmap key _ Rle); [| apply sort_by_sorted].
  - intros x y Hxy. by apply bool_decide_eq_true in Hxy.
  - intros x y. rewrite !bool_decide_eq_true.
    destruct (Rle_or_lt (key x) (key y)); [by left | right; lra].
Qed.

Lemma slice_to_take {A} (l : list A) (n : Z) :
  exists k, slice_to l n = take k l /\ ((0 <= n)%Z -> k = Z.to_nat n).
Proof.
  unfold slice_to. destruct (Z.leb_spec 0 n).
  - by eexists.
  - eexists. split; [done | lia].
Qed.

Lemma slice_to_length {A} (l : list A) (n : Z) :
  (0 <= n)%Z -> (Z.of_nat (length (slice_to l n)) <= n)%Z.
Proof.
  intros Hn. destruct (slice_to_take l n) as (k & -> & Hk).
  rewrite length_take, (Hk Hn). lia.
Qed.

Lemma slice_to_elem_of {A} (l : list A) (n : Z) (x : A) :
  x ∈ slice_to l n -> x ∈ l.
Proof.
  destruct (slice_to_take l n) as (k & -> & _). rewrite elem_of_take.
  intros (i & Hi & _). by eapply list_elem_of_lookup_2.
Qed.

Lemma slice_to_sorted {A} (key : A -> R) (l : list A) (n : Z) :
  StronglySorted Rle (key <$> l) ->
  StronglySorted Rle (key <$> slice_to l n).
Proof.
  destruct (slice_to_take l n) as (k & -> & _). intros Hs.
  rewrite <- (take_drop k l), fmap_app in Hs.
  by apply StronglySorted_app_1_l in Hs.
Qed.

Lemma slice_to_NoDup {A B} (f : A -> B) (l : list A) (n : Z) :
  NoDup (f <$> l) -> NoDup (f <$> slice_to l n).
Proof.
  destruct (slice_to_take l n) as (k & -> & _). rewrite fmap_take.
  intros Hnd. by eapply sublist_NoDup; [| apply sublist_take].
Qed.

(** ** Running the monad *)

Lemma bind_ok {A B} (m : M A) (k : A -> M B) (w w' : World) (a : A) :
  m w = (Ok a, w') -> bind m k w = k a w'.
Proof. unfold bind. by intros ->. Qed.

Lemma try_except_ok {A} (m : M A) (h : exn -> M A) (w w' : World) (a : A) :
  m w = (Ok a, w') -> try_except m h w = (Ok a, w').
Proof. unfold try_except. by intros ->. Qed.

(** ** StationResolver of [ProductionSeismicFetcher] *)

Module ProductionResolver.
Import ProductionSeismicFetcher.

Lemma in_radius (self : t) (lat lon r : R) (m : Z) (s : RankedStation) :
  s ∈ get_nearest_stations self lat lon r m ->
  entry s ∈ global_stations self
  /\ distance_km s
     = calculate_distance lat lon (latitude (entry s)) (longitude (entry s))
  /\ (distance_km s <= r)%R.
Proof.
  unfold get_nearest_stations. intros Hs.
  apply slice_to_elem_of in Hs. rewrite sort_by_key_perm in Hs.
  apply list_elem_of_omap in Hs as (g & Hg & Hs).
  case_bool_decide; [| done]. by simplify_eq/=.
Qed.

Lemma sorted (self : t) (lat lon r : R) (m : Z) :
  StronglySorted Rle (distance_km <$> get_nearest_stations self lat lon r m).
Proof. apply slice_to_sorted, sort_by_key_sorted. Qed.

Lemma at_most (self : t) (lat lon r : R) (m : Z) :
  (0 <= m)%Z ->
  (Z.of_nat (length (get_nearest_stations self lat lon r m)) <= m)%Z.
Proof. apply slice_to_length. Qed.

Lemma omap_entries (lat lon r : R) (l : list GlobalStation) :
  (entry <$> omap (fun station =>
     let distance :=
       calculate_distance lat lon (latitude station) (longitude station) in
     if bool_decide (distance <= r)%R
     then Some {| entry := station; distance_km := distance |}
     else None) l) `sublist_of` l.
Proof.
  induction l as [| g l IH]; simpl; [done |].
  case_bool_decide; simpl; by constructor.
Qed.

Lemma no_duplicates (self : t) (lat lon r : R) (m : Z) :
  NoDup (identity_key <$> global_stations self) ->
  NoDup ((identity_key ∘ entry) <$> get_nearest_stations self lat lon r m).
Proof.
  intros Hnd. unfold get_nearest_stations.
  apply slice_to_NoDup. rewrite sort_by_key_perm.
  rewrite list_fmap_compose.
  eapply sublist_NoDup; [exact Hnd |]. apply fmap_sublist.
  apply omap_entries.
Qed.

Lemma builtin_no_duplicates :
  NoDup (identity_key <$> builtin_global_stations).
Proof. apply (bool_decide_unpack _). by vm_compute. Qed.
End ProductionResolver.

(** ** StationResolver of [SeismicDataFetcher] *)

Module FetcherResolver.
Import SeismicDataFetcher.

Lemma remove_duplicates_first (l : list Station) (seen : gset string)
    (s : Station) :
  s ∈ remove_duplicates l seen ->
  (station_key s ∉ seen) /\ first_occurrence s l.
Proof.
  revert seen. induction l as [| x l IH]; intros seen; simpl.
  { by intros ?%elem_of_nil. }
  case_bool_decide as Hseen.
  - intros Hin. apply IH in Hin as [Hns (i & Hi & Hfirst)]. split; [done |].
    exists (S i). split; [done |].
    intros [| j] s' Hj Hs'; simplify_eq/=; [congruence |].
    apply (Hfirst j); [lia | done].
  - intros [-> | Hin]%elem_of_cons.
    + split; [done |]. exists 0%nat. split; [done | lia].
    + apply IH in Hin as [Hns (i & Hi & Hfirst)].
      apply not_elem_of_union in Hns as [Hne Hns].
      rewrite elem_of_singleton in Hne.
      split; [done |].
      exists (S i). split; [done |].
      intros [| j] s' Hj Hs'; simplify_eq/=; [congruence |].
      apply (Hfirst j); [lia | done].
Qed.

Lemma remove_duplicates_NoDup (l : list Station) (seen : gset string) :
  NoDup (station_key <$> remove_duplicates l seen).
Proof.
  revert seen. induction l as [| x l IH]; intros seen; simpl.
  { constructor. }
  case_bool_decide as Hseen; [apply IH |].
  csimpl. constructor; [| apply IH].
  intros (s & Hkey & Hs)%list_elem_of_fmap.
  apply remove_duplicates_first in Hs as [Hns _].
  apply Hns, elem_of_union_l, elem_of_singleton. done.
Qed.

Lemma NoDup_identity_key (l : list Station) :
  NoDup (station_key <$> l) -> NoDup (identity_key <$> l).
Proof.
  induction l as [| x l IH]; csimpl; [constructor |].
  intros [Hx Hl]%NoDup_cons. constructor; [| by apply IH].
  intros (y & Hxy & Hy)%list_elem_of_fmap. apply Hx.
  apply list_elem_of_fmap. exists y. split; [| done].
  unfold identity_key in Hxy. unfold station_key.
  injection Hxy as Hn Hs. by rewrite Hn, Hs.
Qed.

Section WithEnvironment.
Context `{Environment}.

Lemma query_clients_returns (lat lon r : R) (cs : list string)
    (acc : list Station) (w : World) :
  exists pool w',
    query_clients lat lon r cs acc w = (Ok pool, w') /\ fs w' = fs w.
Proof.
  revert acc w. induction cs as [| c cs IH]; intros acc w; simpl.
  { by eexists _, _. }
  unfold bind at 1, try_except, bind, client_get_stations.
  destruct (fdsn_get_stations _ _ _ _ _) as [inventory | e]; simpl.
  - destruct (IH (acc ++ stations_of_inventory lat lon c inventory)
                 {| fs := fs w; clock := S (clock w);
                    trace := trace w
                      ++ [CallGetStations c lat lon (r / 111.32)] |})
      as (pool & w' & -> & Hfs).
    by eexists _, _.
  - destruct (IH acc
                 {| fs := fs w; clock := S (clock w);
                    trace := trace w
                      ++ [CallGetStations c lat lon (r / 111.32)] |})
      as (pool & w' & -> & Hfs).
    by eexists _, _.
Qed.

Lemma get_nearest_stations_run (self : t) (lat lon r : R) (m : Z)
    (w : World) :
  exists w',
    get_nearest_stations self lat lon r m w
    = (Ok (slice_to
             (sort_by_key distance_km
                (remove_duplicates (merged_stations self lat lon r w) ∅))
             m), w')
    /\ fs w' = fs w.
Proof.
  unfold get_nearest_stations, merged_stations.
  destruct (query_clients_returns lat lon r (clients self) [] w)
    as (pool & w' & Hq & Hfs).
  exists w'. unfold bind. rewrite Hq. split; [| done].
  by destruct pool.
Qed.
End WithEnvironment.
End FetcherResolver.

(** ** Distances along the equator *)

Lemma radians_0 : radians 0 = 0%R.
Proof. unfold radians. lra. Qed.

Lemma distance_on_equator (lon : R) :
  (0 <= lon <= 180)%R ->
  SeismicDataFetcher.calculate_distance 0 0 0 lon = (6371 * radians lon)%R.
Proof.
  intros Hlon. unfold SeismicDataFetcher.calculate_distance. cbv zeta.
  rewrite radians_0.
  replace ((0 - 0) / 2)%R with 0%R by lra.
  replace ((radians lon - 0) / 2)%R with (radians lon / 2)%R by lra.
  rewrite sin_0, cos_0.
  assert (Hr : (0 <= radians lon / 2 <= PI / 2)%R).
  { unfold radians. pose proof PI_RGT_0. split; nra. }
  assert (Hs : (0 <= sin (radians lon / 2))%R).
  { apply sin_ge_0; lra. }
  replace (0² + 1 * 1 * (sin (radians lon / 2))²)%R
    with ((sin (radians lon / 2))²)%R by (unfold Rsqr; ring).
  rewrite sqrt_Rsqr by done.
  rewrite asin_sin by lra. lra.
Qed.

Lemma PI_gt_3 : (3 < PI)%R.
Proof. pose proof PI2_3_2. lra. Qed.

(** ** StationResolver: what it returns *)

Section ResolverProperties.
Context `{Environment}.
Import SeismicDataFetcher.

(** C3, as the code has it: of the stations that share a key, the
    resolver keeps the one met first, in the order the clients were
    asked; every station it returns is the first of the merged pool with
    its key, whatever the distances. *)
Theorem get_nearest_stations_keeps_first_seen :
  forall (self : t) (latitude longitude max_radius_km : R)
         (max_stations : Z) (w : World),
  exists result w',
    get_nearest_stations self latitude longitude max_radius_km
                         max_stations w = (Ok result, w')
    /\ forall s, s ∈ result ->
         first_occurrence s
           (merged_stations self latitude longitude max_radius_km w).
Proof.
  intros self lat lon r m w.
  destruct (FetcherResolver.get_nearest_stations_run self lat lon r m w)
    as (w' & Hrun & _).
  eexists _, w'. split; [exact Hrun |].
  intros s Hs. apply slice_to_elem_of in Hs.
  rewrite sort_by_key_perm in Hs.
  by apply FetcherResolver.remove_duplicates_first in Hs as [_ Hfirst].
Qed.

(** C5: the resolver's result has no two entries with the same identity
    key, is sorted by non-decreasing distance and has at most
    [max_stations] entries, a count that is not negative.  For
    [ProductionSeismicFetcher] the catalog is the list of the fetcher,
    which is not de-duplicated: its result has distinct keys when the
    list has, as the built-in one. *)
Theorem get_nearest_stations_unique_sorted_bounded :
  forall (self : t) (production : ProductionSeismicFetcher.t)
         (latitude longitude max_radius_km : R) (max_stations : Z)
         (w : World),
    (0 <= max_stations)%Z ->
    (exists result w',
       get_nearest_stations self latitude longitude max_radius_km
                            max_stations w = (Ok result, w')
       /\ NoDup (identity_key <$> result)
       /\ StronglySorted Rle (distance_km <$> result)
       /\ (Z.of_nat (length result) <= max_stations)%Z)
    /\ (let result :=
          ProductionSeismicFetcher.get_nearest_stations
            production latitude longitude max_radius_km max_stations in
        StronglySorted Rle (ProductionSeismicFetcher.distance_km <$> result)
        /\ (Z.of_nat (length result) <= max_stations)%Z
        /\ (NoDup (ProductionSeismicFetcher.identity_key
                   <$> ProductionSeismicFetcher.global_stations production)
            -> NoDup ((ProductionSeismicFetcher.identity_key
                       ∘ ProductionSeismicFetcher.entry) <$> result)))
    /\ NoDup (ProductionSeismicFetcher.identity_key
              <$> ProductionSeismicFetcher.builtin_global_stations).
Proof.
  intros self production lat lon r m w Hm. split; [| split].
  - destruct (FetcherResolver.get_nearest_stations_run self lat lon r m w)
      as (w' & Hrun & _).
    eexists _, w'. split; [exact Hrun |]. split; [| split].
    + apply slice_to_NoDup, FetcherResolver.NoDup_identity_key.
      rewrite sort_by_key_perm.
      apply FetcherResolver.remove_duplicates_NoDup.
    + apply slice_to_sorted, sort_by_key_sorted.
    + by apply slice_to_length.
  - cbv zeta. split; [apply ProductionResolver.sorted |].
    split; [by apply ProductionResolver.at_most |].
    apply ProductionResolver.no_duplicates.
  - apply ProductionResolver.builtin_no_duplicates.
Qed.

(** What holds of the radius: [ProductionSeismicFetcher] and the
    fallback list of [SeismicDataFetcher] keep a station only when its
    distance is within [max_radius_km]. *)
Lemma get_fallback_stations_in_radius (lat lon r : R) (s : Station) :
  s ∈ get_fallback_stations lat lon r ->
  distance_km s = calculate_distance lat lon (latitude s) (longitude s)
  /\ (distance_km s <= r)%R.
Proof.
  unfold get_fallback_stations.
  intros ([[[net sta] la] lo] & _ & Hs)%list_elem_of_omap.
  case_bool_decide; [| done]. by simplify_eq/=.
Qed.
End ResolverProperties.

(** C3, as stated, fails: IRIS reports IU.ANMO at 2 degrees from the
    event and USGS reports it at 1 degree; both have the same key and the
    second is nearer, yet the resolver returns the occurrence of IRIS. *)
Lemma get_nearest_stations_not_nearest :
  exists w',
    SeismicDataFetcher.get_nearest_stations (H := two_sources)
      two_clients 0 0 500 5 empty_world = (Ok [anmo_of "IRIS" 2], w')
    /\ SeismicDataFetcher.merged_stations (H := two_sources)
         two_clients 0 0 500 empty_world
       = [anmo_of "IRIS" 2; anmo_of "USGS" 1]
    /\ (SeismicDataFetcher.distance_km (anmo_of "USGS" 1)
        < SeismicDataFetcher.distance_km (anmo_of "IRIS" 2))%R
    /\ ~ retains_nearest
           (SeismicDataFetcher.merged_stations (H := two_sources)
              two_clients 0 0 500 empty_world)
           [anmo_of "IRIS" 2].
Proof.
  assert (Hlt : (SeismicDataFetcher.distance_km (anmo_of "USGS" 1)
                 < SeismicDataFetcher.distance_km (anmo_of "IRIS" 2))%R).
  { simpl. rewrite !distance_on_equator by lra.
    unfold radians. pose proof PI_RGT_0. lra. }
  eexists. split; [reflexivity |]. split; [reflexivity |].
  split; [exact Hlt |].
  intros Hnearest.
  specialize (Hnearest (anmo_of "IRIS" 2) (anmo_of "USGS" 1)).
  apply Rlt_not_le in Hlt. apply Hlt, Hnearest; [| | done].
  - apply list_elem_of_here.
  - apply list_elem_of_further, list_elem_of_here.
Qed.

(** C4 at a failing input: IRIS reports a station at the antipode of the
    event, some 20015 km away; asked for the stations within 500 km, the
    resolver returns it. *)
Theorem get_nearest_stations_beyond_radius :
  exists s result w',
    SeismicDataFetcher.get_nearest_stations (H := far_source)
      two_clients 0 0 500 5 empty_world = (Ok result, w')
    /\ s ∈ result
    /\ SeismicDataFetcher.distance_km s
       = SeismicDataFetcher.calculate_distance 0 0
           (SeismicDataFetcher.latitude s) (SeismicDataFetcher.longitude s)
    /\ (500 < SeismicDataFetcher.distance_km s)%R.
Proof.
  eexists _, _, _. split; [reflexivity |].
  split; [apply list_elem_of_here |]. simpl. split; [reflexivity |].
  rewrite distance_on_equator by lra.
  unfold radians. pose proof PI_gt_3. lra.
Qed.

(** A run of C5 with five stations asked for. *)
Lemma get_nearest_stations_unique_sorted_bounded_witness :
  (exists result w',
     SeismicDataFetcher.get_nearest_stations (H := two_sources)
       two_clients 0 0 500 5 empty_world = (Ok result, w')
     /\ NoDup (SeismicDataFetcher.identity_key <$> result)
     /\ StronglySorted Rle (SeismicDataFetcher.distance_km <$> result)
     /\ (Z.of_nat (length result) <= 5)%Z)
  /\ (let result :=
        ProductionSeismicFetcher.get_nearest_stations
          production_fetcher 0 0 500 5 in
      StronglySorted Rle (ProductionSeismicFetcher.distance_km <$> result)
      /\ (Z.of_nat (length result) <= 5)%Z
      /\ (NoDup (ProductionSeismicFetcher.identity_key
                 <$> ProductionSeismicFetcher.global_stations
                       production_fetcher)
          -> NoDup ((ProductionSeismicFetcher.identity_key
                     ∘ ProductionSeismicFetcher.entry) <$> result)))
  /\ NoDup (ProductionSeismicFetcher.identity_key
            <$> ProductionSeismicFetcher.builtin_global_stations).
Proof.
  apply (get_nearest_stations_unique_sorted_bounded (H := two_sources)
           two_clients production_fetcher 0%R 0%R 500%R 5%Z empty_world).
  lia.
Defined.

(** ** The text parser of the station service *)

(** [parse_station_text] has no radius to compare with: it keeps every
    station of the text, here one at the antipode of the event. *)
Example parse_station_text_keeps_any_distance :
  let text :=
    "#Network|Station|Latitude|Longitude|Elevation|SiteName"
    +:+ String "010" "XX | FAR | 0 | 180 | 0.0 | Antipode"
    +:+ String "010" "" in
  SeismicDataFetcher.parse_station_text (H := far_source) text 0 0
  = [{| SeismicDataFetcher.ts_network := "XX";
        SeismicDataFetcher.ts_station := "FAR";
        SeismicDataFetcher.ts_latitude := 0;
        SeismicDataFetcher.ts_longitude := 180;
        SeismicDataFetcher.ts_distance_km :=
          SeismicDataFetcher.calculate_distance 0 0 0 180 |}]
  /\ (19000 < SeismicDataFetcher.calculate_distance 0 0 0 180)%R.
Proof.
  split; [reflexivity |].
  rewrite distance_on_equator by lra.
  unfold radians. pose proof PI_gt_3. lra.
Qed.

Example split_on_bar :
  split_on "|" "IU|ANMO||x" = ["IU"; "ANMO"; ""; "x"].
Proof. reflexivity. Qed.

Example strip_both_sides : strip "  IU ANMO  " = "IU ANMO".
Proof. reflexivity. Qed.

(** ** RetrievalPipeline *)

Lemma waveform_calls_app (tr1 tr2 : list io_event) :
  waveform_calls (tr1 ++ tr2) = waveform_calls tr1 ++ waveform_calls tr2.
Proof. apply filter_app. Qed.

Lemma stream_truthy_length (waveforms : Stream) :
  stream_truthy waveforms && (0 <? length waveforms)%nat
  = stream_truthy waveforms.
Proof. by destruct waveforms. Qed.

Lemma stream_truthy_nonempty (waveforms : Stream) :
  stream_truthy waveforms = true <-> waveforms <> [].
Proof. by destruct waveforms. Qed.

Section ProductionPipeline.
Context `{Environment}.

(** One attempt of [ProductionSeismicFetcher.get_waveforms] that yields
    nothing usable leaves the loop to go on with the rest. *)
Lemma production_loop_step (client network station : string)
    (t0 t1 : Z) (channels : string) (rest : list string) (w : World) :
  usable_stream (clock w) client network station channels t0 t1 = None ->
  exists w1,
    ProductionSeismicFetcher.get_waveforms_loop
      client network station t0 t1 (channels :: rest) w
    = ProductionSeismicFetcher.get_waveforms_loop
        client network station t0 t1 rest w1
    /\ fs w1 = fs w /\ clock w1 = S (clock w)
    /\ waveform_calls (trace w1)
       = waveform_calls (trace w)
         ++ [CallGetWaveforms client network station "*" channels t0 t1].
Proof.
  unfold usable_stream. intros Hfail. simpl.
  unfold bind at 1, try_except, bind, client_get_waveforms.
  destruct (fdsn_get_waveforms _ _ _ _ _ _ _ _) as [wf | e]; simpl.
  - rewrite stream_truthy_length.
    destruct (stream_truthy wf); [done |]. simpl.
    unfold bind, time_sleep. simpl. eexists. split; [reflexivity |]. simpl.
    split; [done |]. split; [done |].
    by rewrite !waveform_calls_app, app_nil_r.
  - eexists. split; [reflexivity |]. simpl.
    split; [done |]. split; [done |]. by rewrite waveform_calls_app.
Qed.

Lemma production_loop_hit (client network station : string)
    (t0 t1 : Z) (channels : string) (rest : list string) (w : World)
    (waveforms : Stream) :
  usable_stream (clock w) client network station channels t0 t1
  = Some waveforms ->
  exists w1,
    ProductionSeismicFetcher.get_waveforms_loop
      client network station t0 t1 (channels :: rest) w
    = (Ok (Some waveforms, "IRIS-" +:+ channels), w1)
    /\ fs w1 = fs w /\ clock w1 = S (clock w)
    /\ trace w1
       = trace w
         ++ [CallGetWaveforms client network station "*" channels t0 t1].
Proof.
  unfold usable_stream. intros Hhit. simpl.
  unfold bind at 1, try_except, bind, client_get_waveforms.
  destruct (fdsn_get_waveforms _ _ _ _ _ _ _ _) as [wf | e]; simpl; [| done].
  rewrite stream_truthy_length.
  destruct (stream_truthy wf); [| done]. simplify_eq/=.
  eexists. split; [reflexivity |]. done.
Qed.

Lemma production_loop_first_success (client network station : string)
    (t0 t1 : Z) (pre : list string) (channels : string)
    (post : list string) (waveforms : Stream) (w : World) :
  (forall i c, pre !! i = Some c ->
     usable_stream (clock w + i) client network station c t0 t1 = None) ->
  usable_stream (clock w + length pre) client network station channels t0 t1
  = Some waveforms ->
  exists w',
    ProductionSeismicFetcher.get_waveforms_loop
      client network station t0 t1 (pre ++ channels :: post) w
    = (Ok (Some waveforms, "IRIS-" +:+ channels), w')
    /\ fs w' = fs w /\ clock w' = (clock w + length pre + 1)%nat
    /\ waveform_calls (trace w')
       = waveform_calls (trace w)
         ++ ((fun c => CallGetWaveforms client network station "*" c t0 t1)
             <$> pre ++ [channels])
    /\ last (trace w')
       = Some (CallGetWaveforms client network station "*" channels t0 t1).
Proof.
  revert w. induction pre as [| c pre IH]; intros w Hpre Hhit.
  - rewrite Nat.add_0_r in Hhit.
    destruct (production_loop_hit _ _ _ _ _ _ post _ _ Hhit)
      as (w1 & Hrun & Hfs & Hclock & Htrace).
    exists w1. simpl.
    split; [done |]. split; [done |]. split; [lia |].
    rewrite Htrace, waveform_calls_app, last_snoc. done.
  - destruct (production_loop_step client network station t0 t1 c
                (pre ++ channels :: post) w) as (w1 & Hrun & Hfs & Hclock & Htr).
    { specialize (Hpre 0%nat c). rewrite Nat.add_0_r in Hpre. by apply Hpre. }
    destruct (IH w1) as (w' & Hrun' & Hfs' & Hclock' & Htr' & Hlast).
    { intros i c' Hi. rewrite Hclock.
      replace (S (clock w) + i)%nat with (clock w + S i)%nat by lia.
      by apply Hpre. }
    { rewrite Hclock.
      by replace (S (clock w) + length pre)%nat
        with (clock w + length (c :: pre))%nat by (simpl; lia). }
    exists w'. simpl app. rewrite Hrun, Hrun'.
    split; [done |]. split; [congruence |].
    split; [simpl; lia |]. split; [| exact Hlast].
    rewrite Htr', Htr. csimpl. by rewrite <- app_assoc.
Qed.

Lemma production_loop_exhausted (client network station : string)
    (t0 t1 : Z) (order : list string) (w : World) :
  (forall i c, order !! i = Some c ->
     usable_stream (clock w + i) client network station c t0 t1 = None) ->
  exists w',
    ProductionSeismicFetcher.get_waveforms_loop
      client network station t0 t1 order w
    = (Ok (None, "No data found"), w')
    /\ fs w' = fs w /\ clock w' = (clock w + length order)%nat
    /\ waveform_calls (trace w')
       = waveform_calls (trace w)
         ++ ((fun c => CallGetWaveforms client network station "*" c t0 t1)
             <$> order).
Proof.
  revert w. induction order as [| c order IH]; intros w Hall.
  - exists w. simpl. rewrite app_nil_r.
    split; [done |]. split; [done |]. split; [lia | done].
  - destruct (production_loop_step client network station t0 t1 c order w)
      as (w1 & Hrun & Hfs & Hclock & Htr).
    { specialize (Hall 0%nat c). rewrite Nat.add_0_r in Hall. by apply Hall. }
    destruct (IH w1) as (w' & Hrun' & Hfs' & Hclock' & Htr').
    { intros i c' Hi. rewrite Hclock.
      replace (S (clock w) + i)%nat with (clock w + S i)%nat by lia.
      by apply Hall. }
    exists w'. rewrite Hrun, Hrun'.
    split; [done |]. split; [congruence |].
    split; [simpl; lia |].
    rewrite Htr', Htr. csimpl. by rewrite <- app_assoc.
Qed.
End ProductionPipeline.

Section FetcherPipeline.
Context `{Environment}.
(** The nested loops of [get_seismic_waveforms] are one loop over the
    fallback order. *)
Lemma try_channels_retrieve (client_name network station : string)
    (t0 t1 : Z) (channels : list string) (rest : list (string * string))
    (w : World) :
  SeismicDataFetcher.retrieve network station t0 t1
    (map (pair client_name) channels ++ rest) w
  = bind (SeismicDataFetcher.try_channels client_name network station t0 t1
            channels)
         (fun found =>
            match found with
            | Some (waveforms, name) => ret (Some waveforms, Some name)
            | None => SeismicDataFetcher.retrieve network station t0 t1 rest
            end) w.
Proof.
  revert w. induction channels as [| channel channels IH]; intros w.
  { simpl. unfold bind. done. }
  simpl. unfold bind, try_except, client_get_waveforms, time_sleep. simpl.
  destruct (fdsn_get_waveforms _ _ _ _ _ _ _ _) as [wf | e]; simpl.
  - rewrite stream_truthy_length. destruct (stream_truthy wf); [done |].
    simpl. rewrite IH. done.
  - destruct e; simpl; rewrite IH; done.
Qed.

Lemma try_clients_retrieve (network station : string) (t0 t1 : Z)
    (channels clients : list string) (w : World) :
  SeismicDataFetcher.try_clients network station t0 t1 channels clients w
  = SeismicDataFetcher.retrieve network station t0 t1
      (SeismicDataFetcher.fallback_order clients channels) w.
Proof.
  revert w. induction clients as [| c clients IH]; intros w; [done |].
  simpl. rewrite try_channels_retrieve. unfold bind.
  destruct (SeismicDataFetcher.try_channels _ _ _ _ _ _ _)
    as [[[[wf name] |] | e] w1]; [done | apply IH | done].
Qed.

Lemma retrieve_step (network station : string) (t0 t1 : Z)
    (source channel : string) (rest : list (string * string)) (w : World) :
  usable_stream (clock w) source network station channel t0 t1 = None ->
  exists w1,
    SeismicDataFetcher.retrieve network station t0 t1
      ((source, channel) :: rest) w
    = SeismicDataFetcher.retrieve network station t0 t1 rest w1
    /\ fs w1 = fs w /\ clock w1 = S (clock w)
    /\ waveform_calls (trace w1)
       = waveform_calls (trace w)
         ++ [CallGetWaveforms source network station "*" channel t0 t1].
Proof.
  unfold usable_stream. intros Hfail. simpl.
  unfold bind at 1, try_except, bind, client_get_waveforms.
  destruct (fdsn_get_waveforms _ _ _ _ _ _ _ _) as [wf | e]; simpl.
  - destruct (stream_truthy wf); [done |]. simpl.
    unfold bind, time_sleep. simpl. eexists. split; [reflexivity |]. simpl.
    split; [done |]. split; [done |].
    by rewrite !waveform_calls_app, app_nil_r.
  - unfold bind, time_sleep. simpl. eexists. split; [reflexivity |]. simpl.
    split; [done |]. split; [done |].
    by rewrite !waveform_calls_app, app_nil_r.
Qed.

Lemma retrieve_hit (network station : string) (t0 t1 : Z)
    (source channel : string) (rest : list (string * string)) (w : World)
    (waveforms : Stream) :
  usable_stream (clock w) source network station channel t0 t1
  = Some waveforms ->
  exists w1,
    SeismicDataFetcher.retrieve network station t0 t1
      ((source, channel) :: rest) w
    = (Ok (Some waveforms, Some source), w1)
    /\ fs w1 = fs w /\ clock w1 = S (clock w)
    /\ trace w1
       = trace w
         ++ [CallGetWaveforms source network station "*" channel t0 t1].
Proof.
  unfold usable_stream. intros Hhit. simpl.
  unfold bind at 1, try_except, bind, client_get_waveforms.
  destruct (fdsn_get_waveforms _ _ _ _ _ _ _ _) as [wf | e]; simpl; [| done].
  destruct (stream_truthy wf); [| done]. simplify_eq/=.
  eexists. split; [reflexivity |]. done.
Qed.

Lemma retrieve_first_success (network station : string) (t0 t1 : Z)
    (pre : list (string * string)) (source channel : string)
    (post : list (string * string)) (waveforms : Stream) (w : World) :
  (forall i p, pre !! i = Some p ->
     usable_stream (clock w + i) p.1 network station p.2 t0 t1 = None) ->
  usable_stream (clock w + length pre) source network station channel t0 t1
  = Some waveforms ->
  exists w',
    SeismicDataFetcher.retrieve network station t0 t1
      (pre ++ (source, channel) :: post) w
    = (Ok (Some waveforms, Some source), w')
    /\ fs w' = fs w /\ clock w' = (clock w + length pre + 1)%nat
    /\ waveform_calls (trace w')
       = waveform_calls (trace w)
         ++ ((fun p => CallGetWaveforms p.1 network station "*" p.2 t0 t1)
             <$> pre ++ [(source, channel)])
    /\ last (trace w')
       = Some (CallGetWaveforms source network station "*" channel t0 t1).
Proof.
  revert w. induction pre as [| [c ch] pre IH]; intros w Hpre Hhit.
  - rewrite Nat.add_0_r in Hhit.
    destruct (retrieve_hit _ _ _ _ _ _ post _ _ Hhit)
      as (w1 & Hrun & Hfs & Hclock & Htrace).
    exists w1. simpl.
    split; [done |]. split; [done |]. split; [lia |].
    rewrite Htrace, waveform_calls_app, last_snoc. done.
  - destruct (retrieve_step network station t0 t1 c ch
                (pre ++ (source, channel) :: post) w)
      as (w1 & Hrun & Hfs & Hclock & Htr).
    { specialize (Hpre 0%nat (c, ch)). rewrite Nat.add_0_r in Hpre.
      by apply Hpre. }
    destruct (IH w1) as (w' & Hrun' & Hfs' & Hclock' & Htr' & Hlast).
    { intros i c' Hi. rewrite Hclock.
      replace (S (clock w) + i)%nat with (clock w + S i)%nat by lia.
      by apply Hpre. }
    { rewrite Hclock.
      by replace (S (clock w) + length pre)%nat
        with (clock w + length ((c, ch) :: pre))%nat by (simpl; lia). }
    exists w'. simpl app. rewrite Hrun, Hrun'.
    split; [done |]. split; [congruence |].
    split; [simpl; lia |]. split; [| exact Hlast].
    rewrite Htr', Htr. csimpl. by rewrite <- app_assoc.
Qed.

Lemma retrieve_exhausted (network station : string) (t0 t1 : Z)
    (order : list (string * string)) (w : World) :
  (forall i p, order !! i = Some p ->
     usable_stream (clock w + i) p.1 network station p.2 t0 t1 = None) ->
  exists w',
    SeismicDataFetcher.retrieve network station t0 t1 order w
    = (Ok (None, None), w')
    /\ fs w' = fs w /\ clock w' = (clock w + length order)%nat
    /\ waveform_calls (trace w')
       = waveform_calls (trace w)
         ++ ((fun p => CallGetWaveforms p.1 network station "*" p.2 t0 t1)
             <$> order).
Proof.
  revert w. induction order as [| [c ch] order IH]; intros w Hall.
  - exists w. simpl. rewrite app_nil_r.
    split; [done |]. split; [done |]. split; [lia | done].
  - destruct (retrieve_step network station t0 t1 c ch order w)
      as (w1 & Hrun & Hfs & Hclock & Htr).
    { specialize (Hall 0%nat (c, ch)). rewrite Nat.add_0_r in Hall.
      by apply Hall. }
    destruct (IH w1) as (w' & Hrun' & Hfs' & Hclock' & Htr').
    { intros i c' Hi. rewrite Hclock.
      replace (S (clock w) + i)%nat with (clock w + S i)%nat by lia.
      by apply Hall. }
    exists w'. rewrite Hrun, Hrun'.
    split; [done |]. split; [congruence |].
    split; [simpl; lia |].
    rewrite Htr', Htr. csimpl. by rewrite <- app_assoc.
Qed.
End FetcherPipeline.

(** ** RetrievalPipeline: first success and exhaustion *)

Section PipelineProperties.
Context `{Environment}.

Lemma get_seismic_waveforms_retrieve (self : SeismicDataFetcher.t)
    (network station : string) (t0 t1 : Z) (channels : list string)
    (w : World) :
  SeismicDataFetcher.get_seismic_waveforms self network station t0 t1
    channels w
  = SeismicDataFetcher.retrieve network station t0 t1
      (SeismicDataFetcher.fallback_order
         (SeismicDataFetcher.clients self) channels) w.
Proof. apply try_clients_retrieve. Qed.

Lemma usable_stream_nonempty (n : nat) (source network station channel : string)
    (t0 t1 : Z) (waveforms : Stream) :
  usable_stream n source network station channel t0 t1 = Some waveforms ->
  fdsn_get_waveforms n source network station "*" channel t0 t1
  = Ok waveforms /\ waveforms <> [].
Proof.
  unfold usable_stream.
  destruct (fdsn_get_waveforms _ _ _ _ _ _ _ _) as [wf | e]; [| done].
  destruct (stream_truthy wf) eqn:Hwf; [| done].
  intros [= <-]. split; [done |]. by apply stream_truthy_nonempty.
Qed.

Lemma retrieve_returns (network station : string) (t0 t1 : Z)
    (order : list (string * string)) (w : World) :
  exists result w',
    SeismicDataFetcher.retrieve network station t0 t1 order w
    = (Ok result, w').
Proof.
  revert w.
  induction order as [| [c ch] order IH]; intros w; [by eexists _, _ |].
  destruct (usable_stream (clock w) c network station ch t0 t1)
    as [wf |] eqn:Hu.
  - destruct (retrieve_hit network station t0 t1 c ch order w wf Hu)
      as (w1 & -> & _). by eexists _, _.
  - destruct (retrieve_step network station t0 t1 c ch order w Hu)
      as (w1 & -> & _). apply IH.
Qed.

Lemma get_seismic_waveforms_returns (self : SeismicDataFetcher.t)
    (network station : string) (t0 t1 : Z) (channels : list string)
    (w : World) :
  exists result w',
    SeismicDataFetcher.get_seismic_waveforms
      self network station t0 t1 channels w = (Ok result, w').
Proof. rewrite get_seismic_waveforms_retrieve. apply retrieve_returns. Qed.

Lemma production_loop_returns (client network station : string)
    (t0 t1 : Z) (order : list string) (w : World) :
  exists result w',
    ProductionSeismicFetcher.get_waveforms_loop
      client network station t0 t1 order w = (Ok result, w').
Proof.
  revert w.
  induction order as [| ch order IH]; intros w; [by eexists _, _ |].
  destruct (usable_stream (clock w) client network station ch t0 t1)
    as [wf |] eqn:Hu.
  - destruct (production_loop_hit client network station t0 t1 ch order w
                wf Hu) as (w1 & -> & _). by eexists _, _.
  - destruct (production_loop_step client network station t0 t1 ch order w
                Hu) as (w1 & -> & _). apply IH.
Qed.

Lemma get_waveforms_returns (self : ProductionSeismicFetcher.t)
    (network station : string) (t0 t1 : Z) (w : World) :
  exists result w',
    ProductionSeismicFetcher.get_waveforms self network station t0 t1 w
    = (Ok result, w').
Proof.
  unfold ProductionSeismicFetcher.get_waveforms.
  destruct (ProductionSeismicFetcher.client self); [| by eexists _, _].
  apply production_loop_returns.
Qed.
(** C6: the pipeline goes through the (source, channel) pairs of its
    fallback order in sequence; at the first pair whose fetch yields a
    stream with at least one trace it returns that stream at once: the
    fetch attempts it has made are those of the pairs before it and of
    that pair, none of the pairs after it, and the successful fetch is the
    last thing it did. *)
Theorem pipeline_first_success_wins :
  (forall (self : SeismicDataFetcher.t) (network station : string)
          (start_time end_time : Z) (channels : list string)
          (pre : list (string * string)) (source channel : string)
          (post : list (string * string)) (waveforms : Stream) (w : World),
     SeismicDataFetcher.fallback_order
       (SeismicDataFetcher.clients self) channels
     = pre ++ (source, channel) :: post ->
     (forall i p, pre !! i = Some p ->
        usable_stream (clock w + i) p.1 network station p.2
                      start_time end_time = None) ->
     usable_stream (clock w + length pre) source network station channel
                   start_time end_time = Some waveforms ->
     exists w',
       SeismicDataFetcher.get_seismic_waveforms
         self network station start_time end_time channels w
       = (Ok (Some waveforms, Some source), w')
       /\ waveforms <> []
       /\ waveform_calls (trace w')
          = waveform_calls (trace w)
            ++ ((fun p => CallGetWaveforms p.1 network station "*" p.2
                            start_time end_time)
                <$> pre ++ [(source, channel)])
       /\ last (trace w')
          = Some (CallGetWaveforms source network station "*" channel
                                   start_time end_time))
  /\ (forall (self : ProductionSeismicFetcher.t)
             (client network station : string) (start_time end_time : Z)
             (pre : list string) (channel : string) (post : list string)
             (waveforms : Stream) (w : World),
        ProductionSeismicFetcher.client self = Some client ->
        ProductionSeismicFetcher.channel_sets = pre ++ channel :: post ->
        (forall i c, pre !! i = Some c ->
           usable_stream (clock w + i) client network station c
                         start_time end_time = None) ->
        usable_stream (clock w + length pre) client network station channel
                      start_time end_time = Some waveforms ->
        exists w',
          ProductionSeismicFetcher.get_waveforms
            self network station start_time end_time w
          = (Ok (Some waveforms, "IRIS-" +:+ channel), w')
          /\ waveforms <> []
          /\ waveform_calls (trace w')
             = waveform_calls (trace w)
               ++ ((fun c => CallGetWaveforms client network station "*" c
                               start_time end_time)
                   <$> pre ++ [channel])
          /\ last (trace w')
             = Some (CallGetWaveforms client network station "*" channel
                                      start_time end_time)).
Proof.
  split.
  - intros self network station t0 t1 channels pre source channel post wf w
           Horder Hpre Hhit.
    rewrite get_seismic_waveforms_retrieve, Horder.
    destruct (retrieve_first_success network station t0 t1 pre source channel
                post wf w Hpre Hhit) as (w' & Hrun & _ & _ & Htr & Hlast).
    exists w'. split; [exact Hrun |]. split; [| by split].
    by apply usable_stream_nonempty in Hhit as [_ ?].
  - intros self client network station t0 t1 pre channel post wf w
           Hclient Horder Hpre Hhit.
    unfold ProductionSeismicFetcher.get_waveforms. rewrite Hclient, Horder.
    destruct (production_loop_first_success client network station t0 t1 pre
                channel post wf w Hpre Hhit)
      as (w' & Hrun & _ & _ & Htr & Hlast).
    exists w'. split; [exact Hrun |]. split; [| by split].
    by apply usable_stream_nonempty in Hhit as [_ ?].
Qed.

(** C7: when no (source, channel) pair of the fallback order yields a
    usable stream (each fetch reports not-found or an error, or comes back
    empty) the pipeline returns a None result, after one attempt per pair;
    it returns normally, and not by an exception, whatever the services
    answer. *)
Theorem pipeline_exhausted_returns_none :
  (forall (self : SeismicDataFetcher.t) (network station : string)
          (start_time end_time : Z) (channels : list string) (w : World),
     (forall i p,
        SeismicDataFetcher.fallback_order
          (SeismicDataFetcher.clients self) channels !! i = Some p ->
        usable_stream (clock w + i) p.1 network station p.2
                      start_time end_time = None) ->
     exists w',
       SeismicDataFetcher.get_seismic_waveforms
         self network station start_time end_time channels w
       = (Ok (None, None), w')
       /\ waveform_calls (trace w')
          = waveform_calls (trace w)
            ++ ((fun p => CallGetWaveforms p.1 network station "*" p.2
                            start_time end_time)
                <$> SeismicDataFetcher.fallback_order
                      (SeismicDataFetcher.clients self) channels))
  /\ (forall (self : ProductionSeismicFetcher.t) (network station : string)
             (start_time end_time : Z) (w : World),
        (forall client i c,
           ProductionSeismicFetcher.client self = Some client ->
           ProductionSeismicFetcher.channel_sets !! i = Some c ->
           usable_stream (clock w + i) client network station c
                         start_time end_time = None) ->
        exists message w',
          ProductionSeismicFetcher.get_waveforms
            self network station start_time end_time w
          = (Ok (None, message), w'))
  /\ (forall (self : SeismicDataFetcher.t) (network station : string)
             (start_time end_time : Z) (channels : list string) (w : World),
        exists result w',
          SeismicDataFetcher.get_seismic_waveforms
            self network station start_time end_time channels w
          = (Ok result, w'))
  /\ (forall (self : ProductionSeismicFetcher.t) (network station : string)
             (start_time end_time : Z) (w : World),
        exists result w',
          ProductionSeismicFetcher.get_waveforms
            self network station start_time end_time w
          = (Ok result, w')).
Proof.
  split; [| split; [| split]].
  - intros self network station t0 t1 channels w Hall.
    rewrite get_seismic_waveforms_retrieve.
    destruct (retrieve_exhausted network station t0 t1 _ w Hall)
      as (w' & Hrun & _ & _ & Htr).
    by exists w'.
  - intros self network station t0 t1 w Hall.
    unfold ProductionSeismicFetcher.get_waveforms.
    destruct (ProductionSeismicFetcher.client self) as [client |];
      [| by eexists _, _].
    destruct (production_loop_exhausted client network station t0 t1
                ProductionSeismicFetcher.channel_sets w)
      as (w' & Hrun & _).
    { intros i c Hc. by apply Hall. }
    by eexists _, w'.
  - intros self network station t0 t1 channels w.
    apply get_seismic_waveforms_returns.
  - intros self network station t0 t1 w. apply get_waveforms_returns.
Qed.
End PipelineProperties.

(** A run of C6: IRIS has nothing on the BH channels and a trace on the HH
    channels; the second attempt wins and is the last one. *)
Lemma pipeline_first_success_wins_witness :
  (exists w',
     SeismicDataFetcher.get_seismic_waveforms (H := hh_only) two_clients
       "IU" "ANMO" 0 3600 SeismicDataFetcher.default_channels empty_world
     = (Ok (Some [one_trace], Some "IRIS"), w')
     /\ [one_trace] <> []
     /\ waveform_calls (trace w')
        = waveform_calls (trace empty_world)
          ++ ((fun p => CallGetWaveforms p.1 "IU" "ANMO" "*" p.2 0 3600)
              <$> [("IRIS", "BHZ")] ++ [("IRIS", "HHZ")])
     /\ last (trace w')
        = Some (CallGetWaveforms "IRIS" "IU" "ANMO" "*" "HHZ" 0 3600))
  /\ (exists w',
        ProductionSeismicFetcher.get_waveforms (H := hh_only)
          production_fetcher "IU" "ANMO" 0 3600 empty_world
        = (Ok (Some [one_trace], "IRIS-" +:+ "HH*"), w')
        /\ [one_trace] <> []
        /\ waveform_calls (trace w')
           = waveform_calls (trace empty_world)
             ++ ((fun c => CallGetWaveforms "IRIS" "IU" "ANMO" "*" c 0 3600)
                 <$> ["BH*"] ++ ["HH*"])
        /\ last (trace w')
           = Some (CallGetWaveforms "IRIS" "IU" "ANMO" "*" "HH*" 0 3600)).
Proof.
  split.
  - apply (proj1 (pipeline_first_success_wins (H := hh_only)) two_clients
             "IU" "ANMO" 0%Z 3600%Z SeismicDataFetcher.default_channels
             [("IRIS", "BHZ")] "IRIS" "HHZ"
             [("IRIS", "BHN"); ("IRIS", "BHE"); ("USGS", "BHZ");
              ("USGS", "HHZ"); ("USGS", "BHN"); ("USGS", "BHE")]
             [one_trace] empty_world).
    + reflexivity.
    + intros [| i] p Hp; [| destruct i; discriminate Hp].
      injection Hp as <-. reflexivity.
    + reflexivity.
  - apply (proj2 (pipeline_first_success_wins (H := hh_only))
             production_fetcher "IRIS" "IU" "ANMO" 0%Z 3600%Z
             ["BH*"] "HH*" ["LH*"; "BHZ"; "HHZ"] [one_trace] empty_world).
    + reflexivity.
    + reflexivity.
    + intros [| i] c Hc; [| destruct i; discriminate Hc].
      injection Hc as <-. reflexivity.
    + reflexivity.
Defined.

(** A run of C7: no client has any data. *)
Lemma pipeline_exhausted_returns_none_witness :
  (exists w',
     SeismicDataFetcher.get_seismic_waveforms (H := two_sources) two_clients
       "IU" "ANMO" 0 3600 ["BHZ"; "HHZ"] empty_world
     = (Ok (None, None), w')
     /\ waveform_calls (trace w')
        = waveform_calls (trace empty_world)
          ++ ((fun p => CallGetWaveforms p.1 "IU" "ANMO" "*" p.2 0 3600)
              <$> SeismicDataFetcher.fallback_order
                    (SeismicDataFetcher.clients two_clients)
                    ["BHZ"; "HHZ"]))
  /\ (exists message w',
        ProductionSeismicFetcher.get_waveforms (H := two_sources)
          production_fetcher "IU" "ANMO" 0 3600 empty_world
        = (Ok (None, message), w')).
Proof.
  split.
  - apply (proj1 (pipeline_exhausted_returns_none (H := two_sources))
             two_clients "IU" "ANMO" 0%Z 3600%Z ["BHZ"; "HHZ"] empty_world).
    intros i p _. reflexivity.
  - apply (proj1 (proj2 (pipeline_exhausted_returns_none (H := two_sources)))
             production_fetcher "IU" "ANMO" 0%Z 3600%Z empty_world).
    intros client i c _ _. reflexivity.
Defined.

(** ** Directory names and the file system *)

Example safe_title_of_turkey :
  safe_title_of "M 7.8 - Central Turkey" 60 = "M_78_-_Central_Turkey".
Proof. reflexivity. Qed.

Example safe_title_of_strips_and_cuts :
  safe_title_of "Quake: 12km/N of (Town)  " 10 = "Quake_12km".
Proof. reflexivity. Qed.

Section FileSystem.
Context `{Environment}.

Lemma os_path_exists_true (path : string) (w : World) :
  is_Some (fs w !! path) -> os_path_exists path w = (Ok true, w).
Proof. intros Hp. unfold os_path_exists. by rewrite bool_decide_eq_true_2. Qed.

Lemma os_path_exists_false (path : string) (w : World) :
  fs w !! path = None -> os_path_exists path w = (Ok false, w).
Proof.
  intros Hp. unfold os_path_exists. rewrite bool_decide_eq_false_2; [done |].
  rewrite Hp. by intros [? ?].
Qed.

End FileSystem.

(** ** EventArchiver: a run that archives *)

Lemma append_eq_self (s t : string) : s +:+ t = s -> t = "".
Proof.
  induction s as [| c s IH]; simpl; [done |]. intros [= Heq]. by apply IH.
Qed.

Lemma append_inj (s t1 t2 : string) : s +:+ t1 = s +:+ t2 -> t1 = t2.
Proof.
  induction s as [| c s IH]; simpl; [done |]. intros [= Heq]. by apply IH.
Qed.

Lemma os_path_join_ne_self (a b : string) : os_path_join a b <> a.
Proof. unfold os_path_join. by intros ?%append_eq_self. Qed.

Lemma os_path_join_inj (a b1 b2 : string) :
  os_path_join a b1 = os_path_join a b2 -> b1 = b2.
Proof.
  unfold os_path_join. intros Heq%append_inj. by apply (append_inj "/").
Qed.

Section Archiving.
Context `{Environment}.

Lemma os_makedirs_ok (path : string) (w : World) :
  makedirs_fails path = false ->
  exists w',
    os_makedirs path w = (Ok tt, w')
    /\ clock w' = clock w /\ trace w' = trace w
    /\ is_Some (fs w' !! path)
    /\ (fs w !! path = None -> fs w' !! path = Some Dir)
    /\ (forall q, q <> path -> fs w' !! q = fs w !! q).
Proof.
  intros Hok. unfold os_makedirs. rewrite Hok. eexists. split; [done |].
  simpl. split; [done |]. split; [done |].
  destruct (fs w !! path) as [n |] eqn:Hp.
  - rewrite Hp. split; [by eexists |]. split; [done | done].
  - rewrite lookup_insert_eq. split; [by eexists |]. split; [done |].
    intros q Hq. by rewrite lookup_insert_ne.
Qed.

Lemma json_dump_to_ok (content : json) (path : string) (w : World) :
  write_fails path = false ->
  exists w',
    json_dump_to content path w = (Ok tt, w')
    /\ fs w' !! path = Some (JsonFile content)
    /\ clock w' = clock w /\ trace w' = trace w.
Proof.
  intros Hok. unfold json_dump_to. rewrite Hok. eexists. split; [done |].
  simpl. by rewrite lookup_insert_eq.
Qed.

Lemma save_waveform_data_returns (waveforms : Stream) (path : string)
    (w : World) :
  exists saved w',
    SeismicDataFetcher.save_waveform_data waveforms path w = (Ok saved, w').
Proof.
  unfold SeismicDataFetcher.save_waveform_data, try_except, bind, stream_write.
  destruct (write_fails path); by eexists _, _.
Qed.

End Archiving.

(** ** Code that never raises *)

Lemma never_raises_ret {A} (a : A) : never_raises (ret a).
Proof. intros w. by eexists _, _. Qed.

Lemma never_raises_bind {A B} (m : M A) (k : A -> M B) :
  never_raises m -> (forall a, never_raises (k a)) -> never_raises (bind m k).
Proof.
  intros Hm Hk w. destruct (Hm w) as (a & w1 & Hrun).
  rewrite (bind_ok _ _ _ _ _ Hrun). apply Hk.
Qed.

Lemma never_raises_try_except {A} (m : M A) (h : exn -> M A) :
  (forall e, never_raises (h e)) -> never_raises (try_except m h).
Proof.
  intros Hh w. unfold try_except.
  destruct (m w) as [[a | e] w1]; [by eexists _, _ | apply Hh].
Qed.

Section NeverRaises.
Context `{Environment}.

Lemma never_raises_time_sleep (ms : Z) : never_raises (time_sleep ms).
Proof. intros w. by eexists _, _. Qed.

Lemma never_raises_now : never_raises now.
Proof. intros w. by eexists _, _. Qed.

Lemma never_raises_get_seismic_waveforms (self : SeismicDataFetcher.t)
    (network station : string) (t0 t1 : Z) (channels : list string) :
  never_raises (SeismicDataFetcher.get_seismic_waveforms
                  self network station t0 t1 channels).
Proof. intros w. apply get_seismic_waveforms_returns. Qed.

Lemma never_raises_get_waveforms (self : ProductionSeismicFetcher.t)
    (network station : string) (t0 t1 : Z) :
  never_raises (ProductionSeismicFetcher.get_waveforms
                  self network station t0 t1).
Proof. intros w. apply get_waveforms_returns. Qed.

Lemma never_raises_save_waveform_data (waveforms : Stream) (path : string) :
  never_raises (SeismicDataFetcher.save_waveform_data waveforms path).
Proof. intros w. apply save_waveform_data_returns. Qed.

Lemma never_raises_get_nearest_stations (self : SeismicDataFetcher.t)
    (lat lon r : R) (m : Z) :
  never_raises (SeismicDataFetcher.get_nearest_stations self lat lon r m).
Proof.
  intros w.
  destruct (FetcherResolver.get_nearest_stations_run self lat lon r m w)
    as (w' & Hrun & _).
  by eexists _, _.
Qed.

Lemma fetcher_process_stations_never_raises (self : SeismicDataFetcher.t)
    (before_dir after_dir : string) (bs be a_s ae : Z)
    (stations : list SeismicDataFetcher.Station) (station_data : list json) :
  never_raises (SeismicDataFetcher.process_stations self before_dir after_dir
                  bs be a_s ae stations station_data).
Proof.
  revert station_data.
  induction stations as [| station stations IH]; intros station_data; simpl.
  { apply never_raises_ret. }
  apply never_raises_bind; [apply never_raises_get_seismic_waveforms |].
  intros before. apply never_raises_bind.
  { destruct before.1 as [wf |]; [| apply never_raises_ret].
    destruct (stream_truthy wf); [| apply never_raises_ret].
    apply never_raises_bind; [apply never_raises_save_waveform_data |].
    intros []; apply never_raises_ret. }
  intros before_saved.
  apply never_raises_bind; [apply never_raises_time_sleep |]. intros _.
  apply never_raises_bind; [apply never_raises_get_seismic_waveforms |].
  intros after. apply never_raises_bind.
  { destruct after.1 as [wf |]; [| apply never_raises_ret].
    destruct (stream_truthy wf); [| apply never_raises_ret].
    apply never_raises_bind; [apply never_raises_save_waveform_data |].
    intros []; apply never_raises_ret. }
  intros after_saved.
  apply never_raises_bind; [apply never_raises_time_sleep |]. intros _.
  apply IH.
Qed.

Lemma production_process_stations_never_raises
    (self : ProductionSeismicFetcher.t)
    (before_dir after_dir : string) (bs be a_s ae : Z)
    (stations : list ProductionSeismicFetcher.RankedStation)
    (station_results : list json) (successful_retrievals : Z) :
  never_raises (ProductionSeismicFetcher.process_stations self
                  before_dir after_dir bs be a_s ae stations
                  station_results successful_retrievals).
Proof.
  revert station_results successful_retrievals.
  induction stations as [| station stations IH];
    intros station_results successful_retrievals; simpl.
  { apply never_raises_ret. }
  apply never_raises_bind; [apply never_raises_get_waveforms |].
  intros before. apply never_raises_bind.
  { destruct before.1 as [wf |]; [| apply never_raises_ret].
    destruct (stream_truthy wf); [| apply never_raises_ret].
    apply never_raises_try_except. intros e. apply never_raises_ret. }
  intros before_ok.
  apply never_raises_bind; [apply never_raises_time_sleep |]. intros _.
  apply never_raises_bind; [apply never_raises_get_waveforms |].
  intros after. apply never_raises_bind.
  { destruct after.1 as [wf |]; [| apply never_raises_ret].
    destruct (stream_truthy wf); [| apply never_raises_ret].
    apply never_raises_try_except. intros e. apply never_raises_ret. }
  intros after_ok.
  apply never_raises_bind; [apply never_raises_time_sleep |]. intros _.
  apply IH.
Qed.

Lemma production_process_earthquake_never_raises
    (self : ProductionSeismicFetcher.t) (row : Row) (index : Z) (total : nat) :
  never_raises (ProductionSeismicFetcher.process_earthquake
                  self row index total).
Proof. apply never_raises_try_except. intros e. apply never_raises_ret. Qed.

Lemma fetcher_process_earthquake_never_raises
    (self : SeismicDataFetcher.t) (row : Row) (index : Z) (total : nat) :
  never_raises (SeismicDataFetcher.process_earthquake self row index total).
Proof. apply never_raises_try_except. intros e. apply never_raises_ret. Qed.

(** The loop over the rows counts every row, as a success or as a
    failure, and goes through all of them. *)
Lemma production_process_rows_counts (self : ProductionSeismicFetcher.t)
    (start_from : Z) (total : nat) (rows : list (Z * Row))
    (successful failed : Z) (w : World) :
  exists successful' failed' w',
    ProductionSeismicFetcher.process_rows self start_from total rows
      successful failed w = (Ok (successful', failed'), w')
    /\ (successful' + failed' = successful + failed + Z.of_nat (length rows))%Z
    /\ (successful <= successful')%Z /\ (failed <= failed')%Z.
Proof.
  revert successful failed w.
  induction rows as [| [index row] rows IH]; intros successful failed w.
  { eexists _, _, _. split; [reflexivity |]. simpl. lia. }
  simpl.
  destruct (production_process_earthquake_never_raises self row
              (index - start_from + 1) total w) as (result & w1 & Hrun).
  rewrite (bind_ok _ _ _ _ _ Hrun). unfold bind at 1, time_sleep.
  match goal with
  | |- context [ProductionSeismicFetcher.process_rows _ _ _ _ ?s ?f ?w2] =>
      destruct (IH s f w2) as (s' & f' & w' & Hrest & Hsum & Hs & Hf)
  end.
  exists s', f', w'. split; [exact Hrest |].
  destruct (result_truthy result); lia.
Qed.

Lemma fetcher_process_rows_counts (self : SeismicDataFetcher.t)
    (start_from : Z) (total : nat) (rows : list (Z * Row))
    (successful failed : Z) (w : World) :
  exists successful' failed' w',
    SeismicDataFetcher.process_rows self start_from total rows
      successful failed w = (Ok (successful', failed'), w')
    /\ (successful' + failed' = successful + failed + Z.of_nat (length rows))%Z
    /\ (successful <= successful')%Z /\ (failed <= failed')%Z.
Proof.
  revert successful failed w.
  induction rows as [| [index row] rows IH]; intros successful failed w.
  { eexists _, _, _. split; [reflexivity |]. simpl. lia. }
  simpl.
  destruct (fetcher_process_earthquake_never_raises self row
              (index - start_from + 1) total w) as (result & w1 & Hrun).
  rewrite (bind_ok _ _ _ _ _ Hrun). unfold bind at 1, time_sleep.
  match goal with
  | |- context [SeismicDataFetcher.process_rows _ _ _ _ ?s ?f ?w2] =>
      destruct (IH s f w2) as (s' & f' & w' & Hrest & Hsum & Hs & Hf)
  end.
  exists s', f', w'. split; [exact Hrest |].
  destruct (result_truthy result); lia.
Qed.
End NeverRaises.

(** ** What a run adds to the trace *)

Lemma steps_ret {A} (P : io_event -> Prop) (a : A) : steps_satisfy P (ret a).
Proof. intros w. exists []. simpl. by rewrite app_nil_r. Qed.

Lemma steps_bind {A B} (P : io_event -> Prop) (m : M A) (k : A -> M B) :
  steps_satisfy P m -> (forall a, steps_satisfy P (k a)) ->
  steps_satisfy P (bind m k).
Proof.
  intros Hm Hk w. destruct (Hm w) as (s1 & Ht1 & HP1). unfold bind.
  destruct (m w) as [[a | e] w1]; simpl in *.
  - destruct (Hk a w1) as (s2 & Ht2 & HP2).
    exists (s1 ++ s2). rewrite Ht2, Ht1, app_assoc.
    split; [done |]. by apply Forall_app.
  - by exists s1.
Qed.

Lemma steps_try_except {A} (P : io_event -> Prop) (m : M A)
    (h : exn -> M A) :
  steps_satisfy P m -> (forall e, steps_satisfy P (h e)) ->
  steps_satisfy P (try_except m h).
Proof.
  intros Hm Hh w. destruct (Hm w) as (s1 & Ht1 & HP1). unfold try_except.
  destruct (m w) as [[a | e] w1]; simpl in *.
  - by exists s1.
  - destruct (Hh e w1) as (s2 & Ht2 & HP2).
    exists (s1 ++ s2). rewrite Ht2, Ht1, app_assoc.
    split; [done |]. by apply Forall_app.
Qed.

Lemma steps_silent {A} (P : io_event -> Prop) (m : M A) :
  (forall w, trace (m w).2 = trace w) -> steps_satisfy P m.
Proof. intros Hm w. exists []. by rewrite Hm, app_nil_r. Qed.

Section Steps.
Context `{Environment}.
Variable P : io_event -> Prop.

Lemma steps_os_path_exists (path : string) :
  steps_satisfy P (os_path_exists path).
Proof. by apply steps_silent. Qed.

Lemma steps_os_makedirs (path : string) : steps_satisfy P (os_makedirs path).
Proof.
  apply steps_silent. intros w. unfold os_makedirs.
  by destruct (makedirs_fails path).
Qed.

Lemma steps_stream_write (waveforms : Stream) (path : string) :
  steps_satisfy P (stream_write waveforms path).
Proof.
  apply steps_silent. intros w. unfold stream_write.
  by destruct (write_fails path).
Qed.

Lemma steps_json_dump_to (content : json) (path : string) :
  steps_satisfy P (json_dump_to content path).
Proof.
  apply steps_silent. intros w. unfold json_dump_to.
  by destruct (write_fails path).
Qed.

Lemma steps_now : steps_satisfy P now.
Proof. by apply steps_silent. Qed.

Lemma steps_time_sleep (ms : Z) :
  P (Sleep ms) -> steps_satisfy P (time_sleep ms).
Proof. intros HP w. exists [Sleep ms]. split; [done |]. by constructor. Qed.

Lemma steps_client_get_waveforms (client network station location channel
    : string) (t0 t1 : Z) :
  P (CallGetWaveforms client network station location channel t0 t1) ->
  steps_satisfy P (client_get_waveforms client network station location
                     channel t0 t1).
Proof. intros HP w. eexists [_]. split; [done |]. by constructor. Qed.

Lemma steps_client_get_stations (client : string) (lat lon r : R) :
  P (CallGetStations client lat lon r) ->
  steps_satisfy P (client_get_stations client lat lon r).
Proof. intros HP w. eexists [_]. split; [done |]. by constructor. Qed.
End Steps.

Section FetchedWindows.
Context `{Environment}.

Lemma steps_get_waveforms (self : ProductionSeismicFetcher.t)
    (p : DataPeriods) (network station : string) (t0 t1 : Z) :
  (t0 = before_start p /\ t1 = before_end p)
  \/ (t0 = after_start p /\ t1 = after_end p) ->
  steps_satisfy (fetches_window p)
    (ProductionSeismicFetcher.get_waveforms self network station t0 t1).
Proof.
  intros Hwin. unfold ProductionSeismicFetcher.get_waveforms.
  destruct (ProductionSeismicFetcher.client self) as [client |];
    [| apply steps_ret].
  unfold UTCDateTime. cbv zeta.
  induction ProductionSeismicFetcher.channel_sets as [| ch order IH]; simpl.
  { apply steps_ret. }
  apply steps_bind.
  - apply steps_try_except; [| intros e; apply steps_ret].
    apply steps_bind; [by apply steps_client_get_waveforms |].
    intros wf. destruct (_ && _); apply steps_ret.
  - intros [[result |] |]; [apply steps_ret | | exact IH].
    apply steps_bind; [by apply steps_time_sleep | intros _; exact IH].
Qed.

Lemma steps_get_seismic_waveforms (self : SeismicDataFetcher.t)
    (p : DataPeriods) (network station : string) (t0 t1 : Z)
    (channels : list string) :
  (t0 = before_start p /\ t1 = before_end p)
  \/ (t0 = after_start p /\ t1 = after_end p) ->
  steps_satisfy (fetches_window p)
    (SeismicDataFetcher.get_seismic_waveforms self network station t0 t1
       channels).
Proof.
  intros Hwin. unfold SeismicDataFetcher.get_seismic_waveforms, UTCDateTime.
  cbv zeta.
  assert (Hch : forall c,
            steps_satisfy (fetches_window p)
              (SeismicDataFetcher.try_channels c network station t0 t1
                 channels)).
  { intros c. induction channels as [| ch chs IHch]; simpl; [apply steps_ret |].
    apply steps_bind.
    - apply steps_try_except.
      + apply steps_bind; [by apply steps_client_get_waveforms |].
        intros wf. destruct (_ && _); apply steps_ret.
      + intros e. destruct e; apply steps_ret.
    - intros [result |]; [apply steps_ret |].
      apply steps_bind; [by apply steps_time_sleep | intros _; exact IHch]. }
  induction (SeismicDataFetcher.clients self) as [| c cs IHc]; simpl.
  { apply steps_ret. }
  apply steps_bind; [apply Hch |].
  intros [[wf name] |]; [apply steps_ret | exact IHc].
Qed.

(** The fetches of [ProductionSeismicFetcher.process_earthquake] are for
    the two windows of the event. *)
Lemma production_fetches_the_windows (self : ProductionSeismicFetcher.t)
    (row : Row) (index : Z) (total : nat) (event_time : Z) :
  parse_date (row_date_time row) = Some event_time ->
  steps_satisfy
    (fetches_window (ProductionSeismicFetcher.data_periods event_time))
    (ProductionSeismicFetcher.process_earthquake self row index total).
Proof.
  intros Hdate. set (p := ProductionSeismicFetcher.data_periods event_time).
  unfold ProductionSeismicFetcher.process_earthquake.
  apply steps_try_except; [| intros e; apply steps_ret].
  unfold ProductionSeismicFetcher.process_earthquake_body. cbv zeta.
  rewrite Hdate. fold p.
  apply steps_bind; [apply steps_os_path_exists |].
  intros [|]; [apply steps_ret |].
  do 3 (apply steps_bind; [apply steps_os_makedirs | intros _]).
  destruct (ProductionSeismicFetcher.get_nearest_stations _ _ _ _ _)
    as [| s stations]; [apply steps_ret |].
  apply steps_bind.
  - generalize (@nil json) 0%Z (s :: stations). intros acc n l. revert acc n.
    induction l as [| st l IH]; intros acc n; simpl; [apply steps_ret |].
    apply steps_bind; [apply steps_get_waveforms; by left |]. intros before.
    apply steps_bind.
    { destruct before.1 as [wf |]; [| apply steps_ret].
      destruct (stream_truthy wf); [| apply steps_ret].
      apply steps_try_except; [| intros e; apply steps_ret].
      apply steps_bind; [apply steps_stream_write | intros _; apply steps_ret]. }
    intros before_ok.
    apply steps_bind; [by apply steps_time_sleep | intros _].
    apply steps_bind; [apply steps_get_waveforms; by right |]. intros after.
    apply steps_bind.
    { destruct after.1 as [wf |]; [| apply steps_ret].
      destruct (stream_truthy wf); [| apply steps_ret].
      apply steps_try_except; [| intros e; apply steps_ret].
      apply steps_bind; [apply steps_stream_write | intros _; apply steps_ret]. }
    intros after_ok.
    apply steps_bind; [by apply steps_time_sleep | intros _]. apply IH.
  - intros results. apply steps_bind; [apply steps_now | intros t].
    apply steps_bind; [apply steps_json_dump_to | intros _; apply steps_ret].
Qed.

(** The fetches of [SeismicDataFetcher.process_earthquake] are for the two
    windows of the event. *)
Lemma fetcher_fetches_the_windows (self : SeismicDataFetcher.t)
    (row : Row) (index : Z) (total : nat) (event_time : Z) :
  parse_date (row_date_time row) = Some event_time ->
  steps_satisfy
    (fetches_window (SeismicDataFetcher.data_periods event_time))
    (SeismicDataFetcher.process_earthquake self row index total).
Proof.
  intros Hdate. set (p := SeismicDataFetcher.data_periods event_time).
  unfold SeismicDataFetcher.process_earthquake.
  apply steps_try_except; [| intros e; apply steps_ret].
  unfold SeismicDataFetcher.process_earthquake_body. cbv zeta.
  rewrite Hdate. fold p.
  apply steps_bind; [apply steps_os_path_exists |].
  intros [|]; [apply steps_ret |].
  apply steps_bind; [apply steps_os_makedirs | intros _].
  apply steps_bind.
  { unfold SeismicDataFetcher.get_nearest_stations.
    apply steps_bind; [| intros pool; apply steps_ret].
    generalize (@nil SeismicDataFetcher.Station).
    induction (SeismicDataFetcher.clients self) as [| c cs IH];
      intros acc; simpl; [apply steps_ret |].
    apply steps_bind; [| intros acc'; apply IH].
    apply steps_try_except; [| intros e; apply steps_ret].
    apply steps_bind; [by apply steps_client_get_stations |].
    intros inventory. apply steps_ret. }
  intros [| s stations].
  { apply steps_bind; [apply steps_now | intros t].
    apply steps_bind; [apply steps_json_dump_to | intros _; apply steps_ret]. }
  do 2 (apply steps_bind; [apply steps_os_makedirs | intros _]).
  apply steps_bind.
  - generalize (@nil json) (slice_to (s :: stations) 3). intros acc l.
    revert acc.
    induction l as [| st l IH]; intros acc; simpl; [apply steps_ret |].
    apply steps_bind; [apply steps_get_seismic_waveforms; by left |].
    intros before. apply steps_bind.
    { destruct before.1 as [wf |]; [| apply steps_ret].
      destruct (stream_truthy wf); [| apply steps_ret].
      apply steps_bind; [| intros []; apply steps_ret].
      apply steps_try_except; [| intros e; apply steps_ret].
      apply steps_bind; [apply steps_stream_write | intros _; apply steps_ret]. }
    intros before_saved.
    apply steps_bind; [by apply steps_time_sleep | intros _].
    apply steps_bind; [apply steps_get_seismic_waveforms; by right |].
    intros after. apply steps_bind.
    { destruct after.1 as [wf |]; [| apply steps_ret].
      destruct (stream_truthy wf); [| apply steps_ret].
      apply steps_bind; [| intros []; apply steps_ret].
      apply steps_try_except; [| intros e; apply steps_ret].
      apply steps_bind; [apply steps_stream_write | intros _; apply steps_ret]. }
    intros after_saved.
    apply steps_bind; [by apply steps_time_sleep | intros _]. apply IH.
  - intros station_data. apply steps_bind; [apply steps_now | intros t].
    apply steps_bind; [apply steps_json_dump_to | intros _; apply steps_ret].
Qed.
End FetchedWindows.

(** ** EventArchiver: the time windows *)

(** C8: from the event time the archiver derives a window before the
    event, from 30 days before to the buffer before, and a window after it,
    from the buffer after to 30 days after; the buffer is 2 hours in
    [ProductionSeismicFetcher] and 1 hour in [SeismicDataFetcher].  The
    bounds and the event time are in strict order, and every waveform
    fetch of [process_earthquake] asks for one of the two windows.  For the
    event of 2023-02-06 01:17:35 UTC and the 2-hour buffer the windows are
    2023-01-07 01:17:35 to 2023-02-05 23:17:35 and 2023-02-06 03:17:35 to
    2023-03-08 01:17:35. *)
Theorem data_periods_around_event `{Environment} :
  forall occurred_at : Z,
    windows_around occurred_at (timedelta_hours 2)
      (ProductionSeismicFetcher.data_periods occurred_at)
    /\ windows_around occurred_at (timedelta_hours 1)
         (SeismicDataFetcher.data_periods occurred_at)
    /\ (forall (self : ProductionSeismicFetcher.t) (row : Row) (index : Z)
               (total : nat),
          parse_date (row_date_time row) = Some occurred_at ->
          steps_satisfy
            (fetches_window (ProductionSeismicFetcher.data_periods occurred_at))
            (ProductionSeismicFetcher.process_earthquake self row index total))
    /\ (forall (self : SeismicDataFetcher.t) (row : Row) (index : Z)
               (total : nat),
          parse_date (row_date_time row) = Some occurred_at ->
          steps_satisfy
            (fetches_window (SeismicDataFetcher.data_periods occurred_at))
            (SeismicDataFetcher.process_earthquake self row index total))
    /\ ProductionSeismicFetcher.data_periods (datetime 2023 2 6 1 17 35)
       = {| before_start := datetime 2023 1 7 1 17 35;
            before_end := datetime 2023 2 5 23 17 35;
            after_start := datetime 2023 2 6 3 17 35;
            after_end := datetime 2023 3 8 1 17 35 |}.
Proof.
  intros t.
  split; [| split; [| split; [| split; [| reflexivity]]]].
  - unfold windows_around, ProductionSeismicFetcher.data_periods,
      timedelta_days, timedelta_hours. simpl. repeat split; lia.
  - unfold windows_around, SeismicDataFetcher.data_periods,
      timedelta_days, timedelta_hours. simpl. repeat split; lia.
  - intros self row index total Hdate.
    by apply production_fetches_the_windows.
  - intros self row index total Hdate.
    by apply fetcher_fetches_the_windows.
Qed.

(** A run of C8 on the test event, whose date the environment reads as
    2023-02-06 01:17 *)
Lemma data_periods_around_event_witness :
  windows_around (datetime 2023 2 6 1 17 0) (timedelta_hours 2)
    (ProductionSeismicFetcher.data_periods (datetime 2023 2 6 1 17 0))
  /\ steps_satisfy
       (fetches_window
          (ProductionSeismicFetcher.data_periods (datetime 2023 2 6 1 17 0)))
       (ProductionSeismicFetcher.process_earthquake (H := hh_only)
          production_fetcher turkey_row 1 1)
  /\ steps_satisfy
       (fetches_window
          (SeismicDataFetcher.data_periods (datetime 2023 2 6 1 17 0)))
       (SeismicDataFetcher.process_earthquake (H := hh_only)
          two_clients turkey_row 1 1).
Proof.
  destruct (data_periods_around_event (H := hh_only)
              (datetime 2023 2 6 1 17 0))
    as (Hwindows & _ & Hproduction & Hfetcher & _).
  split; [exact Hwindows |]. split.
  - apply Hproduction. reflexivity.
  - apply Hfetcher. reflexivity.
Defined.

Example datetime_of_the_fixture :
  datetime 2023 2 6 1 17 35 = 1675646255%Z.
Proof. reflexivity. Qed.

(** ** Events far from every station of the built-in list *)

Section FarAway.
Local Open Scope R_scope.

Lemma PI_gt_31393 : 3.1393 < PI.
Proof.
  pose proof (PI_2_3_7_ineq 1) as [Hlow _].
  unfold sum_f_R0, tg_alt, PI_2_3_7_tg, Ratan_seq in Hlow.
  simpl in Hlow. lra.
Qed.

Lemma sin_half_sqr (x : R) : (sin (x / 2))² = (1 - cos x) / 2.
Proof.
  pose proof (cos_2a_sin (x / 2)) as Hc.
  replace (2 * (x / 2)) with x in Hc by lra. unfold Rsqr. lra.
Qed.

(** Beyond a fifth of a half turn the cosine is below [cos (PI / 5)]. *)
Lemma cos_le_cos_PI5 (x : R) :
  PI / 5 <= x <= 2 * PI - PI / 5 -> cos x <= cos (PI / 5).
Proof.
  intros [Hlo Hhi]. pose proof PI_RGT_0.
  destruct (Rle_dec x PI) as [Hle | Hgt].
  - apply cos_decr_1; lra.
  - rewrite <- (cos_neg x), <- (cos_period (- x) 1). simpl INR.
    apply cos_decr_1; lra.
Qed.

Lemma cos_PI5_lt : cos (PI / 5) < cos (4000 / 6371).
Proof.
  pose proof PI_gt_31393. pose proof PI_RGT_0.
  apply cos_decreasing_1; lra.
Qed.

Lemma cos_PI5_pos : 0 < cos (PI / 5).
Proof. pose proof PI_RGT_0. apply cos_gt_0; lra. Qed.

(** From a point of the equator, a station whose latitude is at least 36
    degrees off, or whose longitude differs by 36 to 324 degrees, is more
    than 4000 km away. *)
Lemma far_from_equator_point (lon1 lat2 lon2 : R) :
  -90 <= lat2 <= 90 ->
  (36 <= lat2 \/ lat2 <= -36
   \/ 36 <= lon2 - lon1 <= 324 \/ -324 <= lon2 - lon1 <= -36) ->
  4000 < ProductionSeismicFetcher.calculate_distance 0 lon1 lat2 lon2.
Proof.
  intros Hlat Hfar.
  unfold ProductionSeismicFetcher.calculate_distance. cbv zeta.
  rewrite radians_0.
  set (phi := radians lat2). set (delta := radians lon2 - radians lon1).
  replace (phi - 0) with phi by lra.
  rewrite !sin_half_sqr, cos_0.
  set (a := (1 - cos phi) / 2 + 1 * cos phi * ((1 - cos delta) / 2)).
  pose proof PI_RGT_0 as Hpi. pose proof cos_PI5_lt as Hlt.
  pose proof cos_PI5_pos as Hpos.
  pose proof (COS_bound phi) as [Hp1 Hp2].
  pose proof (COS_bound delta) as [Hd1 Hd2].
  assert (Hphi : - (PI / 2) <= phi <= PI / 2).
  { unfold phi, radians. split; nra. }
  assert (Hcphi : 0 <= cos phi) by (apply cos_ge_0; lra).
  assert (Hprod : cos phi * cos delta <= cos (PI / 5)).
  { destruct Hfar as [Hn | [Hs | [He | Hw]]].
    - assert (cos phi <= cos (PI / 5)).
      { apply cos_le_cos_PI5. unfold phi, radians. split; nra. }
      nra.
    - assert (cos phi <= cos (PI / 5)).
      { rewrite <- (cos_neg phi). apply cos_le_cos_PI5.
        unfold phi, radians. split; nra. }
      nra.
    - assert (cos delta <= cos (PI / 5)).
      { apply cos_le_cos_PI5. unfold delta, radians. split; nra. }
      nra.
    - assert (cos delta <= cos (PI / 5)).
      { rewrite <- (cos_neg delta). apply cos_le_cos_PI5.
        unfold delta, radians. split; nra. }
      nra. }
  assert (Ha : a = (1 - cos phi * cos delta) / 2) by (unfold a; lra).
  assert (Ha0 : 0 <= a) by nra.
  assert (Ha1 : a <= 1) by nra.
  assert (Hs0 : 0 <= sqrt a) by apply sqrt_pos.
  assert (Hs1 : sqrt a <= 1).
  { rewrite <- sqrt_1. by apply sqrt_le_1_alt. }
  destruct (Rlt_le_dec (2000 / 6371) (asin (sqrt a))) as [Hgt | Hle]; [lra |].
  exfalso.
  assert (Hasin : 0 <= asin (sqrt a)) by (by apply asin_nonneg).
  assert (Hsin : sqrt a <= sin (2000 / 6371)).
  { pose proof PI_gt_31393.
    assert (Hi : sin (asin (sqrt a)) <= sin (2000 / 6371))
      by (apply sin_incr_1; lra).
    by rewrite sin_asin in Hi by lra. }
  assert (Hsq : a <= (sin (2000 / 6371))²).
  { rewrite <- (sqrt_sqrt a) by done. unfold Rsqr.
    apply Rmult_le_compat; lra. }
  pose proof (sin_half_sqr (4000 / 6371)) as Hhalf.
  replace (4000 / 6371 / 2) with (2000 / 6371) in Hhalf by lra.
  lra.
Qed.
End FarAway.

Lemma production_no_station_in_radius (self : ProductionSeismicFetcher.t)
    (lat lon r : R) (m : Z) :
  Forall (fun s =>
            (r < ProductionSeismicFetcher.calculate_distance lat lon
                   (ProductionSeismicFetcher.latitude s)
                   (ProductionSeismicFetcher.longitude s))%R)
         (ProductionSeismicFetcher.global_stations self) ->
  ProductionSeismicFetcher.get_nearest_stations self lat lon r m = [].
Proof.
  intros Hfar. unfold ProductionSeismicFetcher.get_nearest_stations.
  replace (omap _ (ProductionSeismicFetcher.global_stations self))
    with (@nil ProductionSeismicFetcher.RankedStation).
  { unfold sort_by_key, sort_by, slice_to. simpl.
    destruct (0 <=? m)%Z; apply take_nil. }
  induction Hfar as [| s l Hs Hl IH]; [done |]. simpl.
  rewrite bool_decide_eq_false_2 by lra. exact IH.
Qed.

(** No station of the built-in list is within 4000 km of the equator at 25
    degrees west. *)
Lemma mid_atlantic_has_no_station :
  ProductionSeismicFetcher.get_nearest_stations
    production_fetcher 0 (-25) 4000 3 = [].
Proof.
  apply production_no_station_in_radius.
  unfold production_fetcher, ProductionSeismicFetcher.global_stations,
    ProductionSeismicFetcher.builtin_global_stations.
  repeat (apply Forall_cons; split;
          [apply far_from_equator_point;
           unfold ProductionSeismicFetcher.latitude,
             ProductionSeismicFetcher.longitude; lra |]).
  apply Forall_nil_2.
Qed.

(** ** EventArchiver: the metadata record *)

Section Metadata.
Context `{Environment}.

(** [ProductionSeismicFetcher]: an event without a station in range gets
    its directories and nothing else; [process_earthquake] returns None. *)
Lemma production_no_stations_returns_none
    (self : ProductionSeismicFetcher.t) (row : Row) (index : Z) (total : nat)
    (event_time : Z) (w : World) :
  let event_dir :=
    ProductionSeismicFetcher.event_dir_of self (row_title row)
      (row_magnitude row) event_time in
  parse_date (row_date_time row) = Some event_time ->
  fs w !! event_dir = None ->
  makedirs_fails event_dir = false ->
  makedirs_fails (os_path_join event_dir "before_event") = false ->
  makedirs_fails (os_path_join event_dir "after_event") = false ->
  ProductionSeismicFetcher.get_nearest_stations self
    (row_latitude row) (row_longitude row) 4000 3 = [] ->
  exists w',
    ProductionSeismicFetcher.process_earthquake self row index total w
    = (Ok None, w')
    /\ fs w' !! event_dir = Some Dir
    /\ fs w' !! os_path_join event_dir "metadata.json"
       = fs w !! os_path_join event_dir "metadata.json"
    /\ trace w' = trace w.
Proof.
  intros event_dir Hdate Hdir Hm1 Hm2 Hm3 Hnone.
  unfold ProductionSeismicFetcher.process_earthquake,
    ProductionSeismicFetcher.process_earthquake_body.
  cbv zeta. rewrite Hdate. fold event_dir.
  destruct (os_makedirs_ok _ w Hm1) as (w1 & Hr1 & Hc1 & Ht1 & _ & Hd1 & Ho1).
  destruct (os_makedirs_ok _ w1 Hm2) as (w2 & Hr2 & Hc2 & Ht2 & _ & _ & Ho2).
  destruct (os_makedirs_ok _ w2 Hm3) as (w3 & Hr3 & Hc3 & Ht3 & _ & _ & Ho3).
  exists w3. split.
  - apply try_except_ok.
    rewrite (bind_ok _ _ _ _ _ (os_path_exists_false _ _ Hdir)).
    rewrite (bind_ok _ _ _ _ _ Hr1), (bind_ok _ _ _ _ _ Hr2),
      (bind_ok _ _ _ _ _ Hr3).
    by rewrite Hnone.
  - split; [| split; [| congruence]].
    + rewrite Ho3, Ho2 by (symmetry; apply os_path_join_ne_self).
      by apply Hd1.
    + rewrite Ho3, Ho2, Ho1; [done | apply os_path_join_ne_self | |];
        by intros ?%os_path_join_inj.
Qed.

Lemma production_skips_existing (self : ProductionSeismicFetcher.t)
    (row : Row) (index : Z) (total : nat) (event_time : Z) (w : World) :
  parse_date (row_date_time row) = Some event_time ->
  is_Some (fs w !! ProductionSeismicFetcher.event_dir_of self
                     (row_title row) (row_magnitude row) event_time) ->
  ProductionSeismicFetcher.process_earthquake self row index total w
  = (Ok (Some (ProductionSeismicFetcher.event_dir_of self
                 (row_title row) (row_magnitude row) event_time)), w).
Proof.
  intros Hdate Hdir.
  unfold ProductionSeismicFetcher.process_earthquake,
    ProductionSeismicFetcher.process_earthquake_body.
  cbv zeta. rewrite Hdate. apply try_except_ok.
  by rewrite (bind_ok _ _ _ _ _ (os_path_exists_true _ _ Hdir)).
Qed.

Lemma fetcher_skips_existing (self : SeismicDataFetcher.t)
    (row : Row) (index : Z) (total : nat) (event_time : Z) (w : World) :
  parse_date (row_date_time row) = Some event_time ->
  is_Some (fs w !! SeismicDataFetcher.event_dir_of self
                     (row_title row) (row_magnitude row) event_time) ->
  SeismicDataFetcher.process_earthquake self row index total w
  = (Ok (Some (SeismicDataFetcher.event_dir_of self
                 (row_title row) (row_magnitude row) event_time)), w).
Proof.
  intros Hdate Hdir.
  unfold SeismicDataFetcher.process_earthquake,
    SeismicDataFetcher.process_earthquake_body.
  cbv zeta. rewrite Hdate. apply try_except_ok.
  by rewrite (bind_ok _ _ _ _ _ (os_path_exists_true _ _ Hdir)).
Qed.

(** [SeismicDataFetcher]: for an event whose directory is not there yet,
    on a disk that takes the writes, the metadata file is written whatever
    the stations yield; its status is "no_stations_found" when the
    resolver returned no station and "completed" otherwise. *)
Lemma fetcher_writes_metadata (self : SeismicDataFetcher.t) (row : Row)
    (index : Z) (total : nat) (event_time : Z) (w : World) :
  let event_dir :=
    SeismicDataFetcher.event_dir_of self (row_title row)
      (row_magnitude row) event_time in
  let periods := SeismicDataFetcher.data_periods event_time in
  parse_date (row_date_time row) = Some event_time ->
  fs w !! event_dir = None ->
  (forall path, makedirs_fails path = false) ->
  write_fails (os_path_join event_dir "metadata.json") = false ->
  exists stations w1 w2 metadata w',
    os_makedirs event_dir w = (Ok tt, w1)
    /\ SeismicDataFetcher.get_nearest_stations self
         (row_latitude row) (row_longitude row) 500 5 w1 = (Ok stations, w2)
    /\ SeismicDataFetcher.process_earthquake self row index total w
       = (Ok (Some event_dir), w')
    /\ fs w' !! os_path_join event_dir "metadata.json"
       = Some (JsonFile metadata)
    /\ json_get "status" metadata
       = Some (JStr (match stations with
                     | [] => "no_stations_found"
                     | _ => "completed"
                     end))
    /\ json_path ["data_periods"; "before"; "start"] metadata
       = Some (JStr (isoformat (before_start periods)))
    /\ json_path ["data_periods"; "before"; "end"] metadata
       = Some (JStr (isoformat (before_end periods)))
    /\ json_path ["data_periods"; "after"; "start"] metadata
       = Some (JStr (isoformat (after_start periods)))
    /\ json_path ["data_periods"; "after"; "end"] metadata
       = Some (JStr (isoformat (after_end periods))).
Proof.
  intros event_dir periods Hdate Hdir Hmk Hwr.
  unfold SeismicDataFetcher.process_earthquake,
    SeismicDataFetcher.process_earthquake_body.
  cbv zeta. rewrite Hdate. fold event_dir.
  destruct (os_makedirs_ok _ w (Hmk event_dir)) as (w1 & Hr1 & _).
  destruct (never_raises_get_nearest_stations self
              (row_latitude row) (row_longitude row) 500 5 w1)
    as (stations & w2 & Hr2).
  exists stations, w1, w2.
  destruct stations as [| s stations].
  - destruct (never_raises_now w2) as (t & w3 & Hr3).
    eexists _, _. split; [done |]. split; [done |]. split; [| split].
    + apply try_except_ok.
      rewrite (bind_ok _ _ _ _ _ (os_path_exists_false _ _ Hdir)).
      rewrite (bind_ok _ _ _ _ _ Hr1), (bind_ok _ _ _ _ _ Hr2).
      rewrite (bind_ok _ _ _ _ _ Hr3).
      unfold bind, json_dump_to. rewrite Hwr. reflexivity.
    + simpl. apply lookup_insert_eq.
    + repeat split; reflexivity.
  - destruct (os_makedirs_ok _ w2 (Hmk (os_path_join event_dir "before_event")))
      as (w3 & Hr3 & _).
    destruct (os_makedirs_ok _ w3 (Hmk (os_path_join event_dir "after_event")))
      as (w4 & Hr4 & _).
    destruct (fetcher_process_stations_never_raises self
                (os_path_join event_dir "before_event")
                (os_path_join event_dir "after_event")
                (before_start (SeismicDataFetcher.data_periods event_time))
                (before_end (SeismicDataFetcher.data_periods event_time))
                (after_start (SeismicDataFetcher.data_periods event_time))
                (after_end (SeismicDataFetcher.data_periods event_time))
                (slice_to (s :: stations) 3) [] w4)
      as (station_data & w5 & Hr5).
    destruct (never_raises_now w5) as (t & w6 & Hr6).
    eexists _, _. split; [done |]. split; [done |]. split; [| split].
    + apply try_except_ok.
      rewrite (bind_ok _ _ _ _ _ (os_path_exists_false _ _ Hdir)).
      rewrite (bind_ok _ _ _ _ _ Hr1), (bind_ok _ _ _ _ _ Hr2).
      rewrite (bind_ok _ _ _ _ _ Hr3), (bind_ok _ _ _ _ _ Hr4).
      rewrite (bind_ok _ _ _ _ _ Hr5), (bind_ok _ _ _ _ _ Hr6).
      unfold bind, json_dump_to. rewrite Hwr. reflexivity.
    + simpl. apply lookup_insert_eq.
    + repeat split; reflexivity.
Qed.
(** [ProductionSeismicFetcher]: with at least one station in range, on a
    disk that takes the writes, the metadata file is written with the
    status "completed" and the bounds of the two windows. *)
Lemma production_writes_metadata (self : ProductionSeismicFetcher.t)
    (row : Row) (index : Z) (total : nat) (event_time : Z) (w : World) :
  let event_dir :=
    ProductionSeismicFetcher.event_dir_of self (row_title row)
      (row_magnitude row) event_time in
  let periods := ProductionSeismicFetcher.data_periods event_time in
  parse_date (row_date_time row) = Some event_time ->
  fs w !! event_dir = None ->
  (forall path, makedirs_fails path = false) ->
  write_fails (os_path_join event_dir "metadata.json") = false ->
  ProductionSeismicFetcher.get_nearest_stations self
    (row_latitude row) (row_longitude row) 4000 3 <> [] ->
  exists metadata w',
    ProductionSeismicFetcher.process_earthquake self row index total w
    = (Ok (Some event_dir), w')
    /\ fs w' !! os_path_join event_dir "metadata.json"
       = Some (JsonFile metadata)
    /\ json_get "status" metadata = Some (JStr "completed")
    /\ json_get "data_periods" metadata
       = Some (JObj [("before",
                      JObj [("start", JStr (isoformat (before_start periods)));
                            ("end", JStr (isoformat (before_end periods)))]);
                     ("after",
                      JObj [("start", JStr (isoformat (after_start periods)));
                            ("end", JStr (isoformat (after_end periods)))])]).
Proof.
  intros event_dir periods Hdate Hdir Hmk Hwr Hsome.
  unfold ProductionSeismicFetcher.process_earthquake,
    ProductionSeismicFetcher.process_earthquake_body.
  cbv zeta. rewrite Hdate. fold event_dir.
  destruct (os_makedirs_ok _ w (Hmk event_dir)) as (w1 & Hr1 & _).
  destruct (os_makedirs_ok _ w1 (Hmk (os_path_join event_dir "before_event")))
    as (w2 & Hr2 & _).
  destruct (os_makedirs_ok _ w2 (Hmk (os_path_join event_dir "after_event")))
    as (w3 & Hr3 & _).
  destruct (ProductionSeismicFetcher.get_nearest_stations self
              (row_latitude row) (row_longitude row) 4000 3)
    as [| s stations] eqn:Hstations; [done |].
  destruct (production_process_stations_never_raises self
              (os_path_join event_dir "before_event")
              (os_path_join event_dir "after_event")
              (before_start (ProductionSeismicFetcher.data_periods event_time))
              (before_end (ProductionSeismicFetcher.data_periods event_time))
              (after_start (ProductionSeismicFetcher.data_periods event_time))
              (after_end (ProductionSeismicFetcher.data_periods event_time))
              (s :: stations) [] 0 w3)
    as (results & w4 & Hr4).
  destruct (never_raises_now w4) as (t & w5 & Hr5).
  eexists _, _. split; [| split; [| split]].
  - apply try_except_ok.
    rewrite (bind_ok _ _ _ _ _ (os_path_exists_false _ _ Hdir)).
    rewrite (bind_ok _ _ _ _ _ Hr1), (bind_ok _ _ _ _ _ Hr2).
    rewrite (bind_ok _ _ _ _ _ Hr3), (bind_ok _ _ _ _ _ Hr4).
    rewrite (bind_ok _ _ _ _ _ Hr5).
    unfold bind, json_dump_to. rewrite Hwr. reflexivity.
  - simpl. apply lookup_insert_eq.
  - reflexivity.
  - reflexivity.
Qed.
End Metadata.

(** ** EventArchiver: events already archived *)

(** C1: when the directory of the event is already there,
    [process_earthquake] returns its path at once: the world it leaves is
    the world it found, with the same files, no station query, no waveform
    fetch and no sleep. *)
Theorem process_earthquake_skips_existing `{Environment} :
  forall (production : ProductionSeismicFetcher.t) (self : SeismicDataFetcher.t)
         (row : Row) (index : Z) (total : nat) (event_time : Z) (w : World),
    parse_date (row_date_time row) = Some event_time ->
    (is_Some (fs w !! ProductionSeismicFetcher.event_dir_of production
                        (row_title row) (row_magnitude row) event_time) ->
     ProductionSeismicFetcher.process_earthquake production row index total w
     = (Ok (Some (ProductionSeismicFetcher.event_dir_of production
                    (row_title row) (row_magnitude row) event_time)), w))
    /\ (is_Some (fs w !! SeismicDataFetcher.event_dir_of self
                           (row_title row) (row_magnitude row) event_time) ->
        SeismicDataFetcher.process_earthquake self row index total w
        = (Ok (Some (SeismicDataFetcher.event_dir_of self
                       (row_title row) (row_magnitude row) event_time)), w)).
Proof.
  intros production self row index total t w Hdate. split; intros Hdir.
  - by apply production_skips_existing.
  - by apply fetcher_skips_existing.
Qed.

(** A run of C1 on the test event, its directory being there *)
Lemma process_earthquake_skips_existing_witness :
  ProductionSeismicFetcher.process_earthquake (H := hh_only)
    production_fetcher turkey_row 1 1 archived_world
  = (Ok (Some turkey_dir), archived_world)
  /\ SeismicDataFetcher.process_earthquake (H := hh_only)
       two_clients turkey_row 1 1 archived_world
     = (Ok (Some turkey_dir), archived_world).
Proof.
  destruct (process_earthquake_skips_existing (H := hh_only)
              production_fetcher two_clients turkey_row 1%Z 1%nat
              (datetime 2023 2 6 1 17 0) archived_world eq_refl)
    as [Hproduction Hfetcher].
  split.
  - apply Hproduction. exists Dir. apply lookup_singleton_eq.
  - apply Hfetcher. exists Dir. apply lookup_singleton_eq.
Defined.

(** ** EventArchiver: an event without a station *)

(** C2 at a failing input: an event on the equator at 25 degrees west is
    more than 4000 km from every station of the built-in list.  On it
    [ProductionSeismicFetcher.process_earthquake] finds the directory
    missing, makes it, gets no station from the resolver and returns None:
    no metadata file is written, with no status at all.  A second run then
    takes the bare directory for an archived event. *)
Theorem production_event_without_station_has_no_metadata :
  exists w',
    ProductionSeismicFetcher.get_nearest_stations production_fetcher
      (row_latitude mid_atlantic_row) (row_longitude mid_atlantic_row)
      4000 3 = []
    /\ fs empty_world !! mid_atlantic_dir = None
    /\ ProductionSeismicFetcher.process_earthquake (H := hh_only)
         production_fetcher mid_atlantic_row 1 1 empty_world = (Ok None, w')
    /\ fs w' !! mid_atlantic_dir = Some Dir
    /\ fs w' !! os_path_join mid_atlantic_dir "metadata.json" = None
    /\ ProductionSeismicFetcher.process_earthquake (H := hh_only)
         production_fetcher mid_atlantic_row 1 1 w'
       = (Ok (Some mid_atlantic_dir), w').
Proof.
  pose proof mid_atlantic_has_no_station as Hnone.
  destruct (production_no_stations_returns_none (H := hh_only)
              production_fetcher mid_atlantic_row 1 1
              (datetime 2023 2 6 1 17 0) empty_world)
    as (w' & Hrun & Hdir & Hmeta & _); try done.
  exists w'. split; [exact Hnone |]. split; [done |].
  split; [exact Hrun |]. split; [exact Hdir |]. split; [exact Hmeta |].
  apply (production_skips_existing (H := hh_only) production_fetcher
           mid_atlantic_row 1 1 (datetime 2023 2 6 1 17 0) w'); [done |].
  by eexists.
Qed.

(** ** BatchRunner *)

(** C10: whatever is raised in the body of [process_earthquake] is caught
    there, and [process_earthquake] then returns None from the world the
    exception left; it never raises.  So the loop over the events runs to
    its end and counts every event, as a success or as a failure. *)
Theorem process_earthquake_absorbs_exceptions `{Environment} :
  (forall (self : ProductionSeismicFetcher.t) (row : Row) (index : Z)
          (total : nat) (w : World),
     exists result w',
       ProductionSeismicFetcher.process_earthquake self row index total w
       = (Ok result, w')
       /\ forall e w1,
            ProductionSeismicFetcher.process_earthquake_body
              self row index total w = (Raise e, w1) ->
            result = None /\ w' = w1)
  /\ (forall (self : SeismicDataFetcher.t) (row : Row) (index : Z)
             (total : nat) (w : World),
        exists result w',
          SeismicDataFetcher.process_earthquake self row index total w
          = (Ok result, w')
          /\ forall e w1,
               SeismicDataFetcher.process_earthquake_body
                 self row index total w = (Raise e, w1) ->
               result = None /\ w' = w1)
  /\ (forall (self : ProductionSeismicFetcher.t) (start_from : Z)
             (rows : list (Z * Row)) (w : World),
        exists successful failed w',
          ProductionSeismicFetcher.process_rows self start_from (length rows)
            rows 0 0 w = (Ok (successful, failed), w')
          /\ (successful + failed = Z.of_nat (length rows))%Z
          /\ (0 <= successful)%Z /\ (0 <= failed)%Z)
  /\ (forall (self : SeismicDataFetcher.t) (start_from : Z)
             (rows : list (Z * Row)) (w : World),
        exists successful failed w',
          SeismicDataFetcher.process_rows self start_from (length rows)
            rows 0 0 w = (Ok (successful, failed), w')
          /\ (successful + failed = Z.of_nat (length rows))%Z
          /\ (0 <= successful)%Z /\ (0 <= failed)%Z).
Proof.
  split; [| split; [| split]].
  - intros self row index total w.
    unfold ProductionSeismicFetcher.process_earthquake, try_except.
    destruct (ProductionSeismicFetcher.process_earthquake_body _ _ _ _ w)
      as [[result | e] w1]; eexists _, _; (split; [reflexivity |]).
    + intros e w2 [=].
    + by intros e' w2 [= <- <-].
  - intros self row index total w.
    unfold SeismicDataFetcher.process_earthquake, try_except.
    destruct (SeismicDataFetcher.process_earthquake_body _ _ _ _ w)
      as [[result | e] w1]; eexists _, _; (split; [reflexivity |]).
    + intros e w2 [=].
    + by intros e' w2 [= <- <-].
  - intros self start_from rows w.
    destruct (production_process_rows_counts self start_from (length rows)
                rows 0 0 w) as (s & f & w' & Hrun & Hsum & Hs & Hf).
    exists s, f, w'. split; [exact Hrun |]. lia.
  - intros self start_from rows w.
    destruct (fetcher_process_rows_counts self start_from (length rows)
                rows 0 0 w) as (s & f & w' & Hrun & Hsum & Hs & Hf).
    exists s, f, w'. split; [exact Hrun |]. lia.
Qed.

(** With a disk that refuses every directory the body of
    [process_earthquake] raises, and [process_earthquake] returns None. *)
Example body_raises_and_is_absorbed :
  ProductionSeismicFetcher.process_earthquake_body (H := broken_disk)
    production_fetcher turkey_row 1 1 empty_world
  = (Raise (OSError turkey_dir), empty_world)
  /\ ProductionSeismicFetcher.process_earthquake (H := broken_disk)
       production_fetcher turkey_row 1 1 empty_world
     = (Ok None, empty_world).
Proof. split; reflexivity. Qed.

(** A batch of two events on that disk: the first one fails, the second
    one, archived before, is still reached and counted. *)
Example batch_goes_on_after_a_failure :
  exists w',
    ProductionSeismicFetcher.process_rows (H := broken_disk)
      production_fetcher 0 2 [(0%Z, mid_atlantic_row); (1%Z, turkey_row)]
      0 0 archived_world
    = (Ok (1%Z, 1%Z), w')
    /\ trace w' = [Sleep 5000; Sleep 5000].
Proof. eexists. split; [vm_compute; reflexivity | reflexivity]. Qed.

(** ** BatchRunner: the summary *)

Section Summary.
Context `{Environment}.

(** [process_all_earthquakes] on an empty batch: the success rate
    divides by zero events. *)
Lemma process_all_earthquakes_empty (self : ProductionSeismicFetcher.t)
    (client : string) (max_events : option Z) (start_from : Z) (w : World) :
  ProductionSeismicFetcher.client self = Some client ->
  ProductionSeismicFetcher.process_all_earthquakes self [] max_events
    start_from w = (Raise ZeroDivisionError, w).
Proof.
  intros Hclient. unfold ProductionSeismicFetcher.process_all_earthquakes.
  rewrite Hclient. cbv zeta.
  assert (Hfrom : slice_from (dropna []) start_from = []).
  { unfold slice_from. apply drop_nil. }
  assert (Hslice : forall b, slice (dropna []) start_from b = []).
  { intros b. unfold slice. simpl dropna. by rewrite drop_nil, take_nil. }
  destruct max_events as [n |]; [destruct (n =? 0)%Z |];
    rewrite ?Hfrom, ?Hslice; reflexivity.
Qed.

(** [process_all_earthquakes] on all the rows of a catalog that has some:
    every row is counted and the summary is written. *)
Lemma process_all_earthquakes_summary (self : ProductionSeismicFetcher.t)
    (client : string) (csv : list (Z * CsvRow)) (w : World) :
  ProductionSeismicFetcher.client self = Some client ->
  dropna csv <> [] ->
  write_fails (os_path_join (ProductionSeismicFetcher.data_dir self)
                            "processing_summary.json") = false ->
  exists successful failed summary w',
    ProductionSeismicFetcher.process_all_earthquakes self csv None 0 w
    = (Ok (Some (successful, failed)), w')
    /\ (successful + failed = Z.of_nat (length (dropna csv)))%Z
    /\ fs w' !! os_path_join (ProductionSeismicFetcher.data_dir self)
                             "processing_summary.json"
       = Some (JsonFile summary)
    /\ json_get "total_events" summary
       = Some (JInt (Z.of_nat (length (dropna csv))))
    /\ json_get "successful" summary = Some (JInt successful)
    /\ json_get "failed" summary = Some (JInt failed).
Proof.
  intros Hclient Hrows Hwr.
  unfold ProductionSeismicFetcher.process_all_earthquakes.
  rewrite Hclient. cbv zeta.
  assert (Hall : slice_from (dropna csv) 0 = dropna csv).
  { unfold slice_from, slice_index. simpl Z.ltb. cbv iota.
    change (Z.to_nat 0) with 0%nat. by rewrite Nat.min_0_l. }
  rewrite Hall.
  destruct (never_raises_now w) as (t0 & w0 & Hr0).
  destruct (production_process_rows_counts self 0 (length (dropna csv))
              (dropna csv) 0 0 w0) as (s & f & w1 & Hr1 & Hsum & _).
  destruct (never_raises_now w1) as (t1 & w2 & Hr2).
  destruct (never_raises_now w2) as (t2 & w3 & Hr3).
  exists s, f. eexists _, _. split; [| split; [lia |]].
  - rewrite (bind_ok _ _ _ _ _ Hr0), (bind_ok _ _ _ _ _ Hr1).
    rewrite (bind_ok _ _ _ _ _ Hr2).
    destruct (Nat.eqb_spec (length (dropna csv)) 0) as [Hz | Hnz].
    { by destruct (dropna csv). }
    rewrite (bind_ok _ _ _ _ _ Hr3).
    unfold bind, json_dump_to. rewrite Hwr. reflexivity.
  - split; [simpl; apply lookup_insert_eq |].
    split; [reflexivity |]. split; reflexivity.
Qed.
End Summary.

(** ** The fetchers of the scenarios are those the constructors build *)

Example production_init_builds_the_fetcher :
  exists w',
    ProductionSeismicFetcher.init (H := hh_only) "seismic_station_data"
      empty_world = (Ok production_fetcher, w')
    /\ fs w' !! "seismic_station_data" = Some Dir.
Proof. eexists. split; [reflexivity |]. apply lookup_insert_eq. Qed.

Example fetcher_init_keeps_the_clients_set_up :
  exists w',
    SeismicDataFetcher.init (H := two_sources) "seismic_station_data"
      empty_world = (Ok two_clients, w').
Proof. eexists. reflexivity. Qed.

(* ===================================================================== *)
(** * Part III: further properties of the fetchers                        *)
(* ===================================================================== *)

(** ** StationResolver: radius, rank and the queries sent *)

Lemma take_sorted_nearest {A} (key : A -> R) (l : list A) (k : nat) (x : A) :
  StronglySorted Rle (key <$> l) -> x ∈ l ->
  x ∈ take k l
  \/ (length (take k l) = k /\ Forall (fun y => (key y <= key x)%R) (take k l)).
Proof.
  intros Hs Hx. rewrite <- (take_drop k l) in Hx, Hs.
  apply elem_of_app in Hx as [Hx | Hx]; [by left | right].
  split.
  - rewrite length_take. apply Nat.min_l.
    destruct (decide (k <= length l)%nat) as [| Hgt]; [done |].
    rewrite drop_ge in Hx by lia. by apply elem_of_nil in Hx.
  - rewrite fmap_app in Hs. apply Forall_forall. intros y Hy.
    eapply (StronglySorted_app_1_elem_of Rle _ _ (key y) (key x) Hs);
      by apply list_elem_of_fmap_2.
Qed.

Section ResolverExtras.
Import ProductionSeismicFetcher.

(** X1: every station that [ProductionSeismicFetcher.get_nearest_stations]
    returns is an entry of the fetcher's station list, carries as
    [distance_km] its haversine distance from the query point, and lies
    within [max_radius_km]. *)
Theorem production_stations_within_radius :
  forall (self : t) (latitude longitude max_radius_km : R) (max_stations : Z),
    Forall (fun s =>
              entry s ∈ global_stations self
              /\ distance_km s
                 = calculate_distance latitude longitude
                     (ProductionSeismicFetcher.latitude (entry s))
                     (ProductionSeismicFetcher.longitude (entry s))
              /\ (distance_km s <= max_radius_km)%R)
           (get_nearest_stations self latitude longitude max_radius_km
                                 max_stations).
Proof.
  intros self lat lon r m. apply Forall_forall. intros s Hs.
  by apply ProductionResolver.in_radius in Hs.
Qed.

(** X2: the stations that [ProductionSeismicFetcher.get_nearest_stations]
    returns are the nearest ones: a station of the list that is within the
    radius and is not returned is at least as far as every station
    returned, and then the result is full ([max_stations] entries). *)
Theorem production_stations_are_nearest :
  forall (self : t) (latitude longitude max_radius_km : R) (max_stations : Z),
    (0 <= max_stations)%Z ->
    let result :=
      get_nearest_stations self latitude longitude max_radius_km
                           max_stations in
    Forall (fun g =>
              let d := calculate_distance latitude longitude
                         (ProductionSeismicFetcher.latitude g)
                         (ProductionSeismicFetcher.longitude g) in
              (d <= max_radius_km)%R ->
              {| entry := g; distance_km := d |} ∈ result
              \/ (Z.of_nat (length result) = max_stations
                  /\ Forall (fun s => (distance_km s <= d)%R) result))
           (global_stations self).
Proof.
  intros self lat lon r m Hm result. apply Forall_forall. intros g Hg d Hd.
  subst result. unfold get_nearest_stations, slice_to.
  rewrite (proj2 (Z.leb_le 0 m) Hm).
  match goal with
  | |- context [sort_by_key distance_km ?c] => set (candidates := c)
  end.
  assert (Hin : {| entry := g; distance_km := d |}
                ∈ sort_by_key distance_km candidates).
  { rewrite sort_by_key_perm. unfold candidates.
    apply list_elem_of_omap. exists g. split; [done |].
    fold d. by rewrite bool_decide_eq_true_2. }
  destruct (take_sorted_nearest distance_km _ (Z.to_nat m) _
              (sort_by_key_sorted distance_km candidates) Hin)
    as [Htake | [Hlen Hall]]; [by left | right].
  split; [rewrite Hlen; lia | exact Hall].
Qed.
End ResolverExtras.

(** A run of X2: three stations asked for around the origin. *)
Lemma production_stations_are_nearest_witness :
  let result :=
    ProductionSeismicFetcher.get_nearest_stations production_fetcher
      0 0 4000 3 in
  Forall (fun g =>
            let d := ProductionSeismicFetcher.calculate_distance 0 0
                       (ProductionSeismicFetcher.latitude g)
                       (ProductionSeismicFetcher.longitude g) in
            (d <= 4000)%R ->
            {| ProductionSeismicFetcher.entry := g;
               ProductionSeismicFetcher.distance_km := d |} ∈ result
            \/ (Z.of_nat (length result) = 3%Z
                /\ Forall (fun s =>
                             (ProductionSeismicFetcher.distance_km s <= d)%R)
                          result))
         (ProductionSeismicFetcher.global_stations production_fetcher).
Proof.
  apply (production_stations_are_nearest production_fetcher 0%R 0%R 4000%R 3%Z).
  lia.
Defined.

Section FetcherResolverExtras.
Context `{Environment}.
Import SeismicDataFetcher.

Lemma query_clients_trace (lat lon r : R) (cs : list string)
    (acc : list Station) (w : World) :
  exists pool w',
    query_clients lat lon r cs acc w = (Ok pool, w')
    /\ fs w' = fs w
    /\ clock w' = (clock w + length cs)%nat
    /\ trace w'
       = trace w ++ ((fun c => CallGetStations c lat lon (r / 111.32)) <$> cs)
    /\ ((forall i c, cs !! i = Some c ->
           match fdsn_get_stations (clock w + i) c lat lon (r / 111.32) with
           | Ok inventory => stations_of_inventory lat lon c inventory = []
           | Raise _ => True
           end) -> pool = acc).
Proof.
  revert acc w. induction cs as [| c cs IH]; intros acc w; simpl.
  { eexists _, _. split; [done |]. rewrite app_nil_r.
    split; [done |]. split; [lia |]. done. }
  unfold bind at 1, try_except, bind, client_get_stations.
  destruct (fdsn_get_stations (clock w) c lat lon (r / 111.32))
    as [inventory | e] eqn:Hq; simpl.
  - destruct (IH (acc ++ stations_of_inventory lat lon c inventory)
                 {| fs := fs w; clock := S (clock w);
                    trace := trace w
                      ++ [CallGetStations c lat lon (r / 111.32)] |})
      as (pool & w' & -> & Hfs & Hclock & Htrace & Hnone).
    eexists _, _. split; [done |]. simpl in *.
    split; [done |]. split; [lia |].
    split; [by rewrite Htrace, <- app_assoc |].
    intros Hall. rewrite Hnone.
    + specialize (Hall 0%nat c eq_refl). rewrite Nat.add_0_r, Hq in Hall.
      by rewrite Hall, app_nil_r.
    + intros i c' Hi. specialize (Hall (S i) c' Hi).
      rewrite Nat.add_succ_r in Hall. exact Hall.
  - destruct (IH acc
                 {| fs := fs w; clock := S (clock w);
                    trace := trace w
                      ++ [CallGetStations c lat lon (r / 111.32)] |})
      as (pool & w' & -> & Hfs & Hclock & Htrace & Hnone).
    eexists _, _. split; [done |]. simpl in *.
    split; [done |]. split; [lia |].
    split; [by rewrite Htrace, <- app_assoc |].
    intros Hall. apply Hnone.
    intros i c' Hi. specialize (Hall (S i) c' Hi).
    rewrite Nat.add_succ_r in Hall. exact Hall.
Qed.

(** X3: [SeismicDataFetcher.get_nearest_stations] asks every client of the
    fetcher once, in the order of the client table and with the radius in
    degrees ([max_radius_km / 111.32]), whatever the clients answer: a
    client that raises does not stop the queries to the clients after it.
    The resolver itself never raises and leaves the files alone. *)
Theorem get_nearest_stations_asks_every_client :
  forall (self : t) (latitude longitude max_radius_km : R)
         (max_stations : Z) (w : World),
  exists result w',
    get_nearest_stations self latitude longitude max_radius_km
                         max_stations w = (Ok result, w')
    /\ trace w'
       = trace w
         ++ ((fun c => CallGetStations c latitude longitude
                         (max_radius_km / 111.32))
             <$> clients self)
    /\ clock w' = (clock w + length (clients self))%nat
    /\ fs w' = fs w.
Proof.
  intros self lat lon r m w. unfold get_nearest_stations.
  destruct (query_clients_trace lat lon r (clients self) [] w)
    as (pool & w' & Hq & Hfs & Hclock & Htrace & _).
  eexists _, w'. unfold bind. rewrite Hq. simpl. done.
Qed.

(** X4: when no client delivers a station (each one raises or answers
    with an inventory without stations), [get_nearest_stations] falls
    back on its built-in list; every station it then returns is an entry
    of that list within [max_radius_km] of the query point, tagged with
    the client IRIS, the site name Global Station and the elevation 0. *)
Theorem get_nearest_stations_falls_back :
  forall (self : t) (latitude longitude max_radius_km : R)
         (max_stations : Z) (w : World),
    (forall i c, clients self !! i = Some c ->
       match fdsn_get_stations (clock w + i) c latitude longitude
                               (max_radius_km / 111.32) with
       | Ok inventory =>
           stations_of_inventory latitude longitude c inventory = []
       | Raise _ => True
       end) ->
    exists w',
      get_nearest_stations self latitude longitude max_radius_km
                           max_stations w
      = (Ok (slice_to
               (sort_by_key distance_km
                  (remove_duplicates
                     (get_fallback_stations latitude longitude
                                            max_radius_km) ∅))
               max_stations), w')
      /\ Forall (fun s =>
                   (network s, station s, SeismicDataFetcher.latitude s,
                    SeismicDataFetcher.longitude s)
                   ∈ fallback_global_stations
                   /\ distance_km s
                      = calculate_distance latitude longitude
                          (SeismicDataFetcher.latitude s)
                          (SeismicDataFetcher.longitude s)
                   /\ (distance_km s <= max_radius_km)%R
                   /\ client s = "IRIS"
                   /\ site_name s = "Global Station"
                   /\ elevation s = 0%R)
                (slice_to
                   (sort_by_key distance_km
                      (remove_duplicates
                         (get_fallback_stations latitude longitude
                                                max_radius_km) ∅))
                   max_stations).
Proof.
  intros self lat lon r m w Hnone. unfold get_nearest_stations.
  destruct (query_clients_trace lat lon r (clients self) [] w)
    as (pool & w' & Hq & _ & _ & _ & Hpool).
  rewrite (Hpool Hnone) in Hq.
  exists w'. unfold bind. rewrite Hq. split; [done |].
  apply Forall_forall. intros s Hs.
  apply slice_to_elem_of in Hs. rewrite sort_by_key_perm in Hs.
  apply FetcherResolver.remove_duplicates_first in Hs as [_ (i & Hi & _)].
  apply list_elem_of_lookup_2 in Hi. unfold get_fallback_stations in Hi.
  apply list_elem_of_omap in Hi as ([[[net sta] la] lo] & Hin & Hs).
  case_bool_decide; [| done]. by simplify_eq/=.
Qed.
End FetcherResolverExtras.

(** A run of X4: no service knows a station. *)
Lemma get_nearest_stations_falls_back_witness :
  exists w',
    SeismicDataFetcher.get_nearest_stations (H := broken_disk)
      two_clients 0 0 500 5 empty_world
    = (Ok (slice_to
             (sort_by_key SeismicDataFetcher.distance_km
                (SeismicDataFetcher.remove_duplicates
                   (SeismicDataFetcher.get_fallback_stations 0 0 500) ∅))
             5), w')
    /\ Forall (fun s =>
                 (SeismicDataFetcher.network s, SeismicDataFetcher.station s,
                  SeismicDataFetcher.latitude s,
                  SeismicDataFetcher.longitude s)
                 ∈ SeismicDataFetcher.fallback_global_stations
                 /\ SeismicDataFetcher.distance_km s
                    = SeismicDataFetcher.calculate_distance 0 0
                        (SeismicDataFetcher.latitude s)
                        (SeismicDataFetcher.longitude s)
                 /\ (SeismicDataFetcher.distance_km s <= 500)%R
                 /\ SeismicDataFetcher.client s = "IRIS"
                 /\ SeismicDataFetcher.site_name s = "Global Station"
                 /\ SeismicDataFetcher.elevation s = 0%R)
              (slice_to
                 (sort_by_key SeismicDataFetcher.distance_km
                    (SeismicDataFetcher.remove_duplicates
                       (SeismicDataFetcher.get_fallback_stations 0 0 500) ∅))
                 5).
Proof.
  apply (get_nearest_stations_falls_back (H := broken_disk)
           two_clients 0%R 0%R 500%R 5%Z empty_world).
  intros i c _. exact I.
Defined.

(** ** The text parser and the waveform summary *)

Section TextParser.
Context `{Environment}.
Import SeismicDataFetcher.

Lemma parse_station_lines_invariant (P : TextStation -> Prop)
    (lat lon : R) (lines : list string) (acc : list TextStation) :
  (forall n s la lo,
     P {| ts_network := n; ts_station := s; ts_latitude := la;
          ts_longitude := lo;
          ts_distance_km := calculate_distance lat lon la lo |}) ->
  Forall P acc ->
  Forall P (parse_station_lines lat lon lines acc)
  /\ (length (parse_station_lines lat lon lines acc)
      <= length acc + length lines)%nat.
Proof.
  intros Hnew. revert acc.
  induction lines as [| line lines IH]; intros acc Hacc; simpl.
  { split; [done | lia]. }
  destruct (negb (String.eqb (strip line) "") && negb (startswith "#" line)).
  2: { destruct (IH acc Hacc). split; [done | lia]. }
  destruct (split_on "|" line) as [| p0 [| p1 [| p2 [| p3 [| p4 more]]]]];
    try (destruct (IH acc Hacc); split; [done | lia]).
  destruct (float_of_string (strip p2)) as [la |]; [| split; [done | lia]].
  destruct (float_of_string (strip p3)) as [lo |]; [| split; [done | lia]].
  match goal with
  | |- context [parse_station_lines lat lon lines ?acc'] =>
      destruct (IH acc') as [HP Hlen]
  end.
  { apply Forall_app. split; [done |]. constructor; [apply Hnew | done]. }
  split; [done |]. rewrite length_app in Hlen. simpl in Hlen. lia.
Qed.

(** X5: every station that [parse_station_text] returns carries as
    [distance_km] the haversine distance between the event and the
    coordinates read on its line; the first line of the text is taken for
    a header and never yields a station, so the text yields fewer stations
    than it has lines. *)
Theorem parse_station_text_distances :
  forall (text_content : string) (event_lat event_lon : R),
    let stations := parse_station_text text_content event_lat event_lon in
    Forall (fun s =>
              ts_distance_km s
              = calculate_distance event_lat event_lon
                  (ts_latitude s) (ts_longitude s))
           stations
    /\ (length stations
        <= length (split_on "010" (strip text_content)) - 1)%nat.
Proof.
  intros text lat lon stations. subst stations. unfold parse_station_text.
  destruct (parse_station_lines_invariant
              (fun s => ts_distance_km s
                        = calculate_distance lat lon
                            (ts_latitude s) (ts_longitude s))
              lat lon (drop 1 (split_on "010" (strip text))) [])
    as [HP Hlen]; [done | done |].
  split; [exact HP |]. rewrite length_drop in Hlen. simpl in Hlen. lia.
Qed.

Lemma parse_station_lines_stop (lat lon : R) (pre : list string)
    (bad : string) (post : list string) (acc : list TextStation)
    (p0 p1 p2 p3 p4 : string) (more : list string) :
  strip bad <> "" ->
  startswith "#" bad = false ->
  split_on "|" bad = p0 :: p1 :: p2 :: p3 :: p4 :: more ->
  float_of_string (strip p2) = None \/ float_of_string (strip p3) = None ->
  parse_station_lines lat lon (pre ++ bad :: post) acc
  = parse_station_lines lat lon pre acc.
Proof.
  intros Hblank Hcomment Hparts Hfloat. revert acc.
  induction pre as [| line pre IH]; intros acc; simpl.
  - rewrite Hcomment, Hparts.
    rewrite (proj2 (String.eqb_neq _ _) Hblank). simpl.
    destruct Hfloat as [-> | ->]; [done |].
    by destruct (float_of_string (strip p2)).
  - destruct (negb (String.eqb (strip line) "") && negb (startswith "#" line));
      [| apply IH].
    destruct (split_on "|" line) as [| q0 [| q1 [| q2 [| q3 [| q4 qs]]]]];
      try apply IH.
    destruct (float_of_string (strip q2)); [| done].
    destruct (float_of_string (strip q3)); [| done].
    apply IH.
Qed.

(** X6: a data line whose latitude or longitude is not a number ends the
    parsing: [parse_station_text] returns the stations of the lines before
    it, and the lines after it are not read. *)
Theorem parse_station_text_stops_at_bad_coordinate :
  forall (text_content : string) (event_lat event_lon : R)
         (header : string) (pre : list string) (bad : string)
         (post : list string) (p0 p1 p2 p3 p4 : string) (more : list string),
    split_on "010" (strip text_content) = header :: pre ++ bad :: post ->
    strip bad <> "" ->
    startswith "#" bad = false ->
    split_on "|" bad = p0 :: p1 :: p2 :: p3 :: p4 :: more ->
    float_of_string (strip p2) = None \/ float_of_string (strip p3) = None ->
    parse_station_text text_content event_lat event_lon
    = parse_station_lines event_lat event_lon pre [].
Proof.
  intros text lat lon header pre bad post p0 p1 p2 p3 p4 more
         Hlines Hblank Hcomment Hparts Hfloat.
  unfold parse_station_text. rewrite Hlines. simpl drop.
  by eapply parse_station_lines_stop.
Qed.
End TextParser.

(** A run of X6: the second station has a latitude that is no number; the
    first station is returned and the third one is lost. *)
Lemma parse_station_text_stops_at_bad_coordinate_witness :
  let text :=
    "#Network|Station|Latitude|Longitude|Elevation"
    +:+ String "010" "XX|ONE|0|180|0.0"
    +:+ String "010" "XX|TWO|north|0|0.0"
    +:+ String "010" "XX|THREE|0|0|0.0" in
  SeismicDataFetcher.parse_station_text (H := far_source) text 0 0
  = SeismicDataFetcher.parse_station_lines (H := far_source) 0 0
      ["XX|ONE|0|180|0.0"] [].
Proof.
  apply (parse_station_text_stops_at_bad_coordinate (H := far_source)
           _ 0%R 0%R "#Network|Station|Latitude|Longitude|Elevation"
           ["XX|ONE|0|180|0.0"] "XX|TWO|north|0|0.0" ["XX|THREE|0|0|0.0"]
           "XX" "TWO" "north" "0" "0.0" []).
  - reflexivity.
  - discriminate.
  - reflexivity.
  - reflexivity.
  - left. reflexivity.
Defined.

Section WaveformSummary.
Context `{Environment}.
Import SeismicDataFetcher.

(** X7: the summary that [create_waveform_summary] builds is consistent
    with the stream: [total_traces] is the number of traces, the lists
    [traces], [sampling_rates], [start_times] and [end_times] have one
    entry per trace, [channels] lists every channel of the stream once, and
    [unique_sampling_rates] every sampling rate once. *)
Theorem create_waveform_summary_consistent :
  forall waveforms : Stream,
  exists traces sampling_rates channels start_times end_times unique_rates,
    let summary := create_waveform_summary waveforms in
    json_get "traces" summary = Some (JList traces)
    /\ json_get "total_traces" summary
       = Some (JInt (Z.of_nat (length waveforms)))
    /\ json_get "sampling_rates" summary = Some (JList (JFloat <$> sampling_rates))
    /\ json_get "channels" summary = Some (JList (JStr <$> channels))
    /\ json_get "start_times" summary = Some (JList start_times)
    /\ json_get "end_times" summary = Some (JList end_times)
    /\ json_get "unique_sampling_rates" summary
       = Some (JList (JFloat <$> unique_rates))
    /\ length traces = length waveforms
    /\ sampling_rates = tr_sampling_rate <$> waveforms
    /\ length start_times = length waveforms
    /\ length end_times = length waveforms
    /\ NoDup channels
    /\ (forall c, c ∈ channels <-> exists tr, tr ∈ waveforms /\ tr_channel tr = c)
    /\ NoDup unique_rates
    /\ (forall x, x ∈ unique_rates <-> x ∈ sampling_rates).
Proof.
  intros waveforms.
  eexists _, (map tr_sampling_rate waveforms),
    (remove_dups (map tr_channel waveforms)), _, _,
    (remove_dups (map tr_sampling_rate waveforms)).
  cbv zeta. unfold create_waveform_summary.
  repeat (split; [reflexivity |]).
  split; [apply length_map |]. split; [reflexivity |].
  split; [apply length_map |]. split; [apply length_map |].
  split; [apply NoDup_remove_dups |]. split.
  - intros c. rewrite elem_of_remove_dups.
    change (map tr_channel waveforms) with (tr_channel <$> waveforms).
    rewrite list_elem_of_fmap. split.
    + intros (tr & -> & Htr). by exists tr.
    + intros (tr & Htr & <-). by exists tr.
  - split; [apply NoDup_remove_dups |]. intros x. apply elem_of_remove_dups.
Qed.
End WaveformSummary.

(** ** RetrievalPipeline: the delays between the requests *)

Section PacingProperties.
Context `{Environment}.

Lemma retrieve_paced (network station : string) (t0 t1 : Z)
    (order : list (string * string)) (w : World) :
  exists result w',
    SeismicDataFetcher.retrieve network station t0 t1 order w
    = (Ok result, w')
    /\ (result.1 = None ->
        result.2 = None
        /\ trace w' = trace w ++ paced_attempts network station t0 t1 order)
    /\ (forall waveforms, result.1 = Some waveforms ->
        exists pre source channel post,
          order = pre ++ (source, channel) :: post
          /\ result.2 = Some source
          /\ trace w'
             = trace w ++ paced_attempts network station t0 t1 pre
               ++ [CallGetWaveforms source network station "*" channel t0 t1]).
Proof.
  revert w. induction order as [| [c ch] order IH]; intros w.
  { eexists _, w. split; [reflexivity |]. simpl. split.
    - intros _. by rewrite app_nil_r.
    - intros wf [=]. }
  simpl SeismicDataFetcher.retrieve.
  unfold bind at 1, try_except, bind, client_get_waveforms.
  destruct (fdsn_get_waveforms (clock w) c network station "*" ch t0 t1)
    as [wf | e]; simpl.
  - destruct (stream_truthy wf); simpl.
    + eexists _, _. split; [reflexivity |]. simpl. split; [done |].
      intros wf' _. by exists [], c, ch, order.
    + unfold bind, time_sleep. simpl.
      match goal with
      | |- context [SeismicDataFetcher.retrieve _ _ _ _ order ?w1] =>
          destruct (IH w1) as (result & w' & -> & Hnone & Hsome)
      end.
      exists result, w'. split; [done |]. simpl in *. split.
      * intros Hr. destruct (Hnone Hr) as [? ->].
        split; [done |]. by rewrite <- !app_assoc.
      * intros wf' Hr.
        destruct (Hsome wf' Hr) as (pre & s & c' & post & -> & ? & ->).
        exists ((c, ch) :: pre), s, c', post.
        split; [done |]. split; [done |]. simpl. by rewrite <- !app_assoc.
  - unfold bind, time_sleep. simpl.
    match goal with
    | |- context [SeismicDataFetcher.retrieve _ _ _ _ order ?w1] =>
        destruct (IH w1) as (result & w' & -> & Hnone & Hsome)
    end.
    exists result, w'. split; [done |]. simpl in *. split.
    * intros Hr. destruct (Hnone Hr) as [? ->].
      split; [done |]. by rewrite <- !app_assoc.
    * intros wf' Hr.
      destruct (Hsome wf' Hr) as (pre & s & c' & post & -> & ? & ->).
      exists ((c, ch) :: pre), s, c', post.
      split; [done |]. split; [done |]. simpl. by rewrite <- !app_assoc.
Qed.

(** X8: [SeismicDataFetcher.get_seismic_waveforms] never sends two
    requests in a row: in every run, each fetch that yields nothing
    usable, whether it raised or came back empty, is followed by the
    delay of 0.5 s before the next pair of the fallback order is tried.
    A run without success is one fetch and one delay per pair; a run with
    a success is that for the pairs before the winning one and then the
    winning fetch, after which nothing is done. *)
Theorem get_seismic_waveforms_paces_requests :
  forall (self : SeismicDataFetcher.t) (network station : string)
         (start_time end_time : Z) (channels : list string) (w : World),
  exists result w',
    let order :=
      SeismicDataFetcher.fallback_order
        (SeismicDataFetcher.clients self) channels in
    SeismicDataFetcher.get_seismic_waveforms
      self network station start_time end_time channels w = (Ok result, w')
    /\ (result.1 = None ->
        result.2 = None
        /\ trace w'
           = trace w ++ paced_attempts network station start_time end_time
                          order)
    /\ (forall waveforms, result.1 = Some waveforms ->
        exists pre source channel post,
          order = pre ++ (source, channel) :: post
          /\ result.2 = Some source
          /\ trace w'
             = trace w
               ++ paced_attempts network station start_time end_time pre
               ++ [CallGetWaveforms source network station "*" channel
                                    start_time end_time]).
Proof.
  intros self network station t0 t1 channels w. cbv zeta.
  rewrite get_seismic_waveforms_retrieve. apply retrieve_paced.
Qed.

Lemma production_loop_unpaced (client network station : string)
    (t0 t1 : Z) (order : list string) (w : World) :
  exists result w',
    ProductionSeismicFetcher.get_waveforms_loop
      client network station t0 t1 order w = (Ok result, w')
    /\ (result.1 = None ->
        trace w'
        = trace w
          ++ unpaced_attempts (clock w) client network station t0 t1 order)
    /\ (forall waveforms, result.1 = Some waveforms ->
        exists pre channels post,
          order = pre ++ channels :: post
          /\ result.2 = "IRIS-" +:+ channels
          /\ trace w'
             = trace w
               ++ unpaced_attempts (clock w) client network station t0 t1 pre
               ++ [CallGetWaveforms client network station "*" channels
                                    t0 t1]).
Proof.
  revert w. induction order as [| ch order IH]; intros w.
  { eexists _, w. split; [reflexivity |]. simpl. split.
    - intros _. by rewrite app_nil_r.
    - intros wf [=]. }
  simpl ProductionSeismicFetcher.get_waveforms_loop.
  simpl unpaced_attempts.
  unfold bind at 1, try_except, bind, client_get_waveforms.
  destruct (fdsn_get_waveforms (clock w) client network station "*" ch t0 t1)
    as [wf | e] eqn:Hcall; simpl.
  - rewrite stream_truthy_length. destruct (stream_truthy wf); simpl.
    + eexists _, _. split; [reflexivity |]. simpl. split; [done |].
      intros wf' _. by exists [], ch, order.
    + unfold bind, time_sleep. simpl.
      match goal with
      | |- context [ProductionSeismicFetcher.get_waveforms_loop
                      _ _ _ _ _ order ?w1] =>
          destruct (IH w1) as (result & w' & -> & Hnone & Hsome)
      end.
      exists result, w'. split; [done |]. simpl in *. split.
      * intros Hr. rewrite (Hnone Hr). by rewrite <- !app_assoc.
      * intros wf' Hr.
        destruct (Hsome wf' Hr) as (pre & c' & post & -> & ? & ->).
        exists (ch :: pre), c', post.
        split; [done |]. split; [done |]. simpl.
        rewrite Hcall. simpl. by rewrite <- !app_assoc.
  - match goal with
    | |- context [ProductionSeismicFetcher.get_waveforms_loop
                    _ _ _ _ _ order ?w1] =>
        destruct (IH w1) as (result & w' & -> & Hnone & Hsome)
    end.
    exists result, w'. split; [done |]. simpl in *. split.
    * intros Hr. rewrite (Hnone Hr). by rewrite <- !app_assoc.
    * intros wf' Hr.
      destruct (Hsome wf' Hr) as (pre & c' & post & -> & ? & ->).
      exists (ch :: pre), c', post.
      split; [done |]. split; [done |]. simpl.
      rewrite Hcall. simpl. by rewrite <- !app_assoc.
Qed.

(** X9: [ProductionSeismicFetcher.get_waveforms] delays the next request
    by 0.2 s only after a fetch that returned an empty stream; after a
    fetch that raised, the next channel set is asked for at once, without
    any delay.  Without a client it returns "No client available" and does
    nothing. *)
Theorem production_get_waveforms_pauses_after_empty_only :
  forall (self : ProductionSeismicFetcher.t) (network station : string)
         (start_time end_time : Z) (w : World),
    (ProductionSeismicFetcher.client self = None ->
     ProductionSeismicFetcher.get_waveforms
       self network station start_time end_time w
     = (Ok (None, "No client available"), w))
    /\ (forall client,
          ProductionSeismicFetcher.client self = Some client ->
          exists result w',
            ProductionSeismicFetcher.get_waveforms
              self network station start_time end_time w = (Ok result, w')
            /\ (result.1 = None ->
                trace w'
                = trace w
                  ++ unpaced_attempts (clock w) client network station
                       start_time end_time
                       ProductionSeismicFetcher.channel_sets)
            /\ (forall waveforms, result.1 = Some waveforms ->
                exists pre channels post,
                  ProductionSeismicFetcher.channel_sets
                  = pre ++ channels :: post
                  /\ result.2 = "IRIS-" +:+ channels
                  /\ trace w'
                     = trace w
                       ++ unpaced_attempts (clock w) client network station
                            start_time end_time pre
                       ++ [CallGetWaveforms client network station "*"
                                            channels start_time end_time])).
Proof.
  intros self network station t0 t1 w.
  unfold ProductionSeismicFetcher.get_waveforms. split.
  - by intros ->.
  - intros client ->. apply production_loop_unpaced.
Qed.
End PacingProperties.

(** A run of X9: IRIS raises on every request ([no_data]); the five
    channel sets are asked for one after the other without any delay. *)
Lemma production_get_waveforms_pauses_after_empty_only_witness :
  exists result w',
    ProductionSeismicFetcher.get_waveforms (H := two_sources)
      production_fetcher "IU" "ANMO" 0 3600 empty_world = (Ok result, w')
    /\ (result.1 = None ->
        trace w'
        = trace empty_world
          ++ unpaced_attempts (H := two_sources) (clock empty_world)
               "IRIS" "IU" "ANMO" 0 3600
               ProductionSeismicFetcher.channel_sets)
    /\ unpaced_attempts (H := two_sources) (clock empty_world)
         "IRIS" "IU" "ANMO" 0 3600 ProductionSeismicFetcher.channel_sets
       = (fun c => CallGetWaveforms "IRIS" "IU" "ANMO" "*" c 0 3600)
         <$> ProductionSeismicFetcher.channel_sets.
Proof.
  destruct (proj2 (production_get_waveforms_pauses_after_empty_only
                     (H := two_sources) production_fetcher "IU" "ANMO"
                     0%Z 3600%Z empty_world) "IRIS" eq_refl)
    as (result & w' & Hrun & Hnone & _).
  exists result, w'. split; [exact Hrun |]. split; [exact Hnone |].
  reflexivity.
Defined.

(** ** EventArchiver: the paths a run touches *)

Lemma string_app_assoc (a b c : string) : (a +:+ b) +:+ c = a +:+ (b +:+ c).
Proof.
  induction a as [| x a IH]; [done | exact (f_equal (String x) IH)].
Qed.

Lemma within_refl (dir : string) : within dir dir.
Proof. by left. Qed.

Lemma within_join (dir name : string) : within dir (os_path_join dir name).
Proof. right. by exists name. Qed.

Lemma within_trans (a b c : string) : within a b -> within b c -> within a c.
Proof.
  intros [-> | [r1 ->]]; [done |].
  intros [-> | [r2 ->]]; right; [by exists r1 |].
  exists (r1 +:+ "/" +:+ r2). by rewrite !string_app_assoc.
Qed.

Lemma writes_only_ret {A} (P : string -> Prop) (a : A) : writes_only P (ret a).
Proof. by intros w path. Qed.

Lemma writes_only_bind {A B} (P : string -> Prop) (m : M A) (k : A -> M B) :
  writes_only P m -> (forall a, writes_only P (k a)) ->
  writes_only P (bind m k).
Proof.
  intros Hm Hk w path. destruct (Hm w path) as [Hm1 Hm2]. unfold bind.
  destruct (m w) as [[a | e] w1]; simpl in *; [| done].
  destruct (Hk a w1 path) as [Hk1 Hk2]. split.
  - intros HP. by rewrite Hk1, Hm1.
  - intros Hp. by apply Hk2, Hm2.
Qed.

Lemma writes_only_try_except {A} (P : string -> Prop) (m : M A)
    (h : exn -> M A) :
  writes_only P m -> (forall e, writes_only P (h e)) ->
  writes_only P (try_except m h).
Proof.
  intros Hm Hh w path. destruct (Hm w path) as [Hm1 Hm2]. unfold try_except.
  destruct (m w) as [[a | e] w1]; simpl in *; [done |].
  destruct (Hh e w1 path) as [Hh1 Hh2]. split.
  - intros HP. by rewrite Hh1, Hm1.
  - intros Hp. by apply Hh2, Hm2.
Qed.

Lemma writes_only_mono {A} (P Q : string -> Prop) (m : M A) :
  (forall path, P path -> Q path) -> writes_only P m -> writes_only Q m.
Proof.
  intros HPQ Hm w path. destruct (Hm w path) as [Hm1 Hm2].
  split; [| done]. intros HQ. apply Hm1. intros HP. by apply HQ, HPQ.
Qed.

Lemma writes_only_reads {A} (P : string -> Prop) (m : M A) :
  (forall w, fs (m w).2 = fs w) -> writes_only P m.
Proof. intros Hm w path. by rewrite Hm. Qed.

Section Frame.
Context `{Environment}.
Variable P : string -> Prop.

Lemma writes_only_os_path_exists (path : string) :
  writes_only P (os_path_exists path).
Proof. by apply writes_only_reads. Qed.

Lemma writes_only_now : writes_only P now.
Proof. by apply writes_only_reads. Qed.

Lemma writes_only_time_sleep (ms : Z) : writes_only P (time_sleep ms).
Proof. by apply writes_only_reads. Qed.

Lemma writes_only_client_get_waveforms
    (client network station location channel : string) (t0 t1 : Z) :
  writes_only P (client_get_waveforms client network station location
                   channel t0 t1).
Proof. by apply writes_only_reads. Qed.

Lemma writes_only_client_get_stations (client : string) (lat lon r : R) :
  writes_only P (client_get_stations client lat lon r).
Proof. by apply writes_only_reads. Qed.

Lemma writes_only_os_makedirs (path : string) :
  P path -> writes_only P (os_makedirs path).
Proof.
  intros HP w q. unfold os_makedirs.
  destruct (makedirs_fails path); simpl; [done |].
  destruct (fs w !! path) eqn:Hpath; [done |]. split.
  - intros HQ. apply lookup_insert_ne. by intros ->.
  - intros Hq. destruct (decide (path = q)) as [-> | Hne].
    + rewrite lookup_insert_eq. by eexists.
    + by rewrite lookup_insert_ne.
Qed.

Lemma writes_only_stream_write (waveforms : Stream) (path : string) :
  P path -> writes_only P (stream_write waveforms path).
Proof.
  intros HP w q. unfold stream_write.
  destruct (write_fails path); simpl; [done |]. split.
  - intros HQ. apply lookup_insert_ne. by intros ->.
  - intros Hq. destruct (decide (path = q)) as [-> | Hne].
    + rewrite lookup_insert_eq. by eexists.
    + by rewrite lookup_insert_ne.
Qed.

Lemma writes_only_json_dump_to (content : json) (path : string) :
  P path -> writes_only P (json_dump_to content path).
Proof.
  intros HP w q. unfold json_dump_to.
  destruct (write_fails path); simpl; [done |]. split.
  - intros HQ. apply lookup_insert_ne. by intros ->.
  - intros Hq. destruct (decide (path = q)) as [-> | Hne].
    + rewrite lookup_insert_eq. by eexists.
    + by rewrite lookup_insert_ne.
Qed.

Lemma writes_only_get_waveforms (self : ProductionSeismicFetcher.t)
    (network station : string) (t0 t1 : Z) :
  writes_only P (ProductionSeismicFetcher.get_waveforms
                   self network station t0 t1).
Proof.
  unfold ProductionSeismicFetcher.get_waveforms.
  destruct (ProductionSeismicFetcher.client self) as [client |];
    [| apply writes_only_ret].
  unfold UTCDateTime. cbv zeta.
  induction ProductionSeismicFetcher.channel_sets as [| ch order IH]; simpl.
  { apply writes_only_ret. }
  apply writes_only_bind.
  - apply writes_only_try_except; [| intros e; apply writes_only_ret].
    apply writes_only_bind; [apply writes_only_client_get_waveforms |].
    intros wf. destruct (_ && _); apply writes_only_ret.
  - intros [[result |] |]; [apply writes_only_ret | | exact IH].
    apply writes_only_bind; [apply writes_only_time_sleep | intros _; exact IH].
Qed.

Lemma writes_only_get_seismic_waveforms (self : SeismicDataFetcher.t)
    (network station : string) (t0 t1 : Z) (channels : list string) :
  writes_only P (SeismicDataFetcher.get_seismic_waveforms
                   self network station t0 t1 channels).
Proof.
  unfold SeismicDataFetcher.get_seismic_waveforms, UTCDateTime. cbv zeta.
  assert (Hch : forall c,
            writes_only P
              (SeismicDataFetcher.try_channels c network station t0 t1
                 channels)).
  { intros c. induction channels as [| ch chs IHch]; simpl.
    { apply writes_only_ret. }
    apply writes_only_bind.
    - apply writes_only_try_except.
      + apply writes_only_bind; [apply writes_only_client_get_waveforms |].
        intros wf. destruct (_ && _); apply writes_only_ret.
      + intros e. destruct e; apply writes_only_ret.
    - intros [result |]; [apply writes_only_ret |].
      apply writes_only_bind;
        [apply writes_only_time_sleep | intros _; exact IHch]. }
  induction (SeismicDataFetcher.clients self) as [| c cs IHc]; simpl.
  { apply writes_only_ret. }
  apply writes_only_bind; [apply Hch |].
  intros [[wf name] |]; [apply writes_only_ret | exact IHc].
Qed.

Lemma writes_only_get_nearest_stations (self : SeismicDataFetcher.t)
    (lat lon r : R) (m : Z) :
  writes_only P (SeismicDataFetcher.get_nearest_stations self lat lon r m).
Proof.
  unfold SeismicDataFetcher.get_nearest_stations.
  apply writes_only_bind; [| intros pool; apply writes_only_ret].
  generalize (@nil SeismicDataFetcher.Station).
  induction (SeismicDataFetcher.clients self) as [| c cs IH];
    intros acc; simpl; [apply writes_only_ret |].
  apply writes_only_bind; [| intros acc'; apply IH].
  apply writes_only_try_except; [| intros e; apply writes_only_ret].
  apply writes_only_bind; [apply writes_only_client_get_stations |].
  intros inventory. apply writes_only_ret.
Qed.
End Frame.

Section FrameOfTheArchiver.
Context `{Environment}.

Lemma production_process_stations_writes (P : string -> Prop)
    (self : ProductionSeismicFetcher.t) (before_dir after_dir : string)
    (bs be a_s ae : Z)
    (stations : list ProductionSeismicFetcher.RankedStation)
    (acc : list json) (n : Z) :
  (forall name, P (os_path_join before_dir name)) ->
  (forall name, P (os_path_join after_dir name)) ->
  writes_only P
    (ProductionSeismicFetcher.process_stations self before_dir after_dir
       bs be a_s ae stations acc n).
Proof.
  intros Hb Ha. revert acc n.
  induction stations as [| st l IH]; intros acc n; simpl.
  { apply writes_only_ret. }
  apply writes_only_bind; [apply writes_only_get_waveforms |]. intros before.
  apply writes_only_bind.
  { destruct before.1 as [wf |]; [| apply writes_only_ret].
    destruct (stream_truthy wf); [| apply writes_only_ret].
    apply writes_only_try_except; [| intros e; apply writes_only_ret].
    apply writes_only_bind;
      [by apply writes_only_stream_write | intros _; apply writes_only_ret]. }
  intros before_ok.
  apply writes_only_bind; [apply writes_only_time_sleep | intros _].
  apply writes_only_bind; [apply writes_only_get_waveforms |]. intros after.
  apply writes_only_bind.
  { destruct after.1 as [wf |]; [| apply writes_only_ret].
    destruct (stream_truthy wf); [| apply writes_only_ret].
    apply writes_only_try_except; [| intros e; apply writes_only_ret].
    apply writes_only_bind;
      [by apply writes_only_stream_write | intros _; apply writes_only_ret]. }
  intros after_ok.
  apply writes_only_bind; [apply writes_only_time_sleep | intros _]. apply IH.
Qed.

Lemma fetcher_process_stations_writes (P : string -> Prop)
    (self : SeismicDataFetcher.t) (before_dir after_dir : string)
    (bs be a_s ae : Z) (stations : list SeismicDataFetcher.Station)
    (acc : list json) :
  (forall name, P (os_path_join before_dir name)) ->
  (forall name, P (os_path_join after_dir name)) ->
  writes_only P
    (SeismicDataFetcher.process_stations self before_dir after_dir
       bs be a_s ae stations acc).
Proof.
  intros Hb Ha. revert acc.
  induction stations as [| st l IH]; intros acc; simpl.
  { apply writes_only_ret. }
  apply writes_only_bind; [apply writes_only_get_seismic_waveforms |].
  intros before. apply writes_only_bind.
  { destruct before.1 as [wf |]; [| apply writes_only_ret].
    destruct (stream_truthy wf); [| apply writes_only_ret].
    apply writes_only_bind; [| intros []; apply writes_only_ret].
    apply writes_only_try_except; [| intros e; apply writes_only_ret].
    apply writes_only_bind;
      [by apply writes_only_stream_write | intros _; apply writes_only_ret]. }
  intros before_saved.
  apply writes_only_bind; [apply writes_only_time_sleep | intros _].
  apply writes_only_bind; [apply writes_only_get_seismic_waveforms |].
  intros after. apply writes_only_bind.
  { destruct after.1 as [wf |]; [| apply writes_only_ret].
    destruct (stream_truthy wf); [| apply writes_only_ret].
    apply writes_only_bind; [| intros []; apply writes_only_ret].
    apply writes_only_try_except; [| intros e; apply writes_only_ret].
    apply writes_only_bind;
      [by apply writes_only_stream_write | intros _; apply writes_only_ret]. }
  intros after_saved.
  apply writes_only_bind; [apply writes_only_time_sleep | intros _]. apply IH.
Qed.

Lemma within_subdir (dir sub name : string) :
  within dir (os_path_join (os_path_join dir sub) name).
Proof. eapply within_trans; apply within_join. Qed.

Lemma production_process_earthquake_writes
    (self : ProductionSeismicFetcher.t) (row : Row) (index : Z) (total : nat) :
  writes_only
    (fun path =>
       exists event_time,
         parse_date (row_date_time row) = Some event_time
         /\ within (ProductionSeismicFetcher.event_dir_of self (row_title row)
                      (row_magnitude row) event_time) path)
    (ProductionSeismicFetcher.process_earthquake self row index total).
Proof.
  unfold ProductionSeismicFetcher.process_earthquake.
  apply writes_only_try_except; [| intros e; apply writes_only_ret].
  unfold ProductionSeismicFetcher.process_earthquake_body. cbv zeta.
  destruct (parse_date (row_date_time row)) as [t |]; [| apply writes_only_ret].
  set (event_dir := ProductionSeismicFetcher.event_dir_of _ _ _ _).
  apply (writes_only_mono (within event_dir)).
  { intros path Hp. by exists t. }
  apply writes_only_bind; [apply writes_only_os_path_exists |].
  intros [|]; [apply writes_only_ret |].
  apply writes_only_bind;
    [apply writes_only_os_makedirs, within_refl | intros _].
  do 2 (apply writes_only_bind;
        [apply writes_only_os_makedirs, within_join | intros _]).
  destruct (ProductionSeismicFetcher.get_nearest_stations _ _ _ _ _)
    as [| s stations]; [apply writes_only_ret |].
  apply writes_only_bind.
  - apply production_process_stations_writes; intros name;
      apply within_subdir.
  - intros results. apply writes_only_bind; [apply writes_only_now | intros t'].
    apply writes_only_bind;
      [apply writes_only_json_dump_to, within_join
      | intros _; apply writes_only_ret].
Qed.

Lemma fetcher_process_earthquake_writes
    (self : SeismicDataFetcher.t) (row : Row) (index : Z) (total : nat) :
  writes_only
    (fun path =>
       exists event_time,
         parse_date (row_date_time row) = Some event_time
         /\ within (SeismicDataFetcher.event_dir_of self (row_title row)
                      (row_magnitude row) event_time) path)
    (SeismicDataFetcher.process_earthquake self row index total).
Proof.
  unfold SeismicDataFetcher.process_earthquake.
  apply writes_only_try_except; [| intros e; apply writes_only_ret].
  unfold SeismicDataFetcher.process_earthquake_body. cbv zeta.
  destruct (parse_date (row_date_time row)) as [t |]; [| apply writes_only_ret].
  set (event_dir := SeismicDataFetcher.event_dir_of _ _ _ _).
  apply (writes_only_mono (within event_dir)).
  { intros path Hp. by exists t. }
  apply writes_only_bind; [apply writes_only_os_path_exists |].
  intros [|]; [apply writes_only_ret |].
  apply writes_only_bind;
    [apply writes_only_os_makedirs, within_refl | intros _].
  apply writes_only_bind; [apply writes_only_get_nearest_stations |].
  intros [| s stations].
  { apply writes_only_bind; [apply writes_only_now | intros t'].
    apply writes_only_bind;
      [apply writes_only_json_dump_to, within_join
      | intros _; apply writes_only_ret]. }
  do 2 (apply writes_only_bind;
        [apply writes_only_os_makedirs, within_join | intros _]).
  apply writes_only_bind.
  - apply fetcher_process_stations_writes; intros name; apply within_subdir.
  - intros station_data.
    apply writes_only_bind; [apply writes_only_now | intros t'].
    apply writes_only_bind;
      [apply writes_only_json_dump_to, within_join
      | intros _; apply writes_only_ret].
Qed.

(** X10: a run of [process_earthquake] changes the file system only at the
    directory of the event and below it: every other path keeps what it
    held, and no path is removed.  When the date of the row cannot be read
    no path changes at all. *)
Theorem process_earthquake_writes_within_event_dir :
  forall (production : ProductionSeismicFetcher.t)
         (self : SeismicDataFetcher.t) (row : Row) (index : Z) (total : nat),
    writes_only
      (fun path =>
         exists event_time,
           parse_date (row_date_time row) = Some event_time
           /\ within (ProductionSeismicFetcher.event_dir_of production
                        (row_title row) (row_magnitude row) event_time) path)
      (ProductionSeismicFetcher.process_earthquake production row index total)
    /\ writes_only
         (fun path =>
            exists event_time,
              parse_date (row_date_time row) = Some event_time
              /\ within (SeismicDataFetcher.event_dir_of self
                           (row_title row) (row_magnitude row) event_time)
                        path)
         (SeismicDataFetcher.process_earthquake self row index total).
Proof.
  intros production self row index total. split.
  - apply production_process_earthquake_writes.
  - apply fetcher_process_earthquake_writes.
Qed.

Lemma production_process_rows_writes (self : ProductionSeismicFetcher.t)
    (start_from : Z) (total : nat) (rows : list (Z * Row)) (s f : Z) :
  writes_only (within (ProductionSeismicFetcher.data_dir self))
    (ProductionSeismicFetcher.process_rows self start_from total rows s f).
Proof.
  revert s f. induction rows as [| [index row] rows IH]; intros s f; simpl.
  { apply writes_only_ret. }
  apply writes_only_bind.
  - eapply writes_only_mono; [| apply production_process_earthquake_writes].
    intros path (t & _ & Hp). eapply within_trans; [| exact Hp].
    apply within_join.
  - intros result.
    apply writes_only_bind; [apply writes_only_time_sleep | intros _].
    apply IH.
Qed.

Lemma fetcher_process_rows_writes (self : SeismicDataFetcher.t)
    (start_from : Z) (total : nat) (rows : list (Z * Row)) (s f : Z) :
  writes_only (within (SeismicDataFetcher.data_dir self))
    (SeismicDataFetcher.process_rows self start_from total rows s f).
Proof.
  revert s f. induction rows as [| [index row] rows IH]; intros s f; simpl.
  { apply writes_only_ret. }
  apply writes_only_bind.
  - eapply writes_only_mono; [| apply fetcher_process_earthquake_writes].
    intros path (t & _ & Hp). eapply within_trans; [| exact Hp].
    apply within_join.
  - intros result.
    apply writes_only_bind; [apply writes_only_time_sleep | intros _].
    apply IH.
Qed.

(** X11: a whole batch, [process_all_earthquakes] or
    [fetch_all_earthquake_data], changes the file system only at the data
    directory of the fetcher and below it, and removes no path. *)
Theorem batch_writes_within_data_dir :
  forall (production : ProductionSeismicFetcher.t)
         (self : SeismicDataFetcher.t) (csv : list (Z * CsvRow))
         (max_events : option Z) (start_from : Z),
    writes_only (within (ProductionSeismicFetcher.data_dir production))
      (ProductionSeismicFetcher.process_all_earthquakes
         production csv max_events start_from)
    /\ writes_only (within (SeismicDataFetcher.data_dir self))
         (SeismicDataFetcher.fetch_all_earthquake_data
            self csv max_events start_from).
Proof.
  intros production self csv max_events start_from. split.
  - unfold ProductionSeismicFetcher.process_all_earthquakes.
    destruct (ProductionSeismicFetcher.client production);
      [| apply writes_only_ret].
    cbv zeta.
    apply writes_only_bind; [apply writes_only_now | intros t0].
    apply writes_only_bind; [apply production_process_rows_writes |].
    intros counts.
    apply writes_only_bind; [apply writes_only_now | intros t1].
    destruct (_ =? _)%nat; [by apply writes_only_reads |].
    apply writes_only_bind; [apply writes_only_now | intros t2].
    apply writes_only_bind;
      [apply writes_only_json_dump_to, within_join
      | intros _; apply writes_only_ret].
  - unfold SeismicDataFetcher.fetch_all_earthquake_data. cbv zeta.
    apply writes_only_bind; [apply fetcher_process_rows_writes |].
    intros counts.
    apply writes_only_bind; [apply writes_only_now | intros t2].
    apply writes_only_bind;
      [apply writes_only_json_dump_to, within_join
      | intros _; apply writes_only_ret].
Qed.
End FrameOfTheArchiver.

(** ** EventArchiver: the metadata and the files *)

Lemma keeps_waveform_files_refl (files : gmap string node) :
  keeps_waveform_files files files.
Proof. intros path wf Hp Hwf. by exists wf. Qed.

Lemma keeps_waveform_files_trans (f1 f2 f3 : gmap string node) :
  keeps_waveform_files f1 f2 -> keeps_waveform_files f2 f3 ->
  keeps_waveform_files f1 f3.
Proof.
  intros H12 H23 path wf Hp Hwf.
  destruct (H12 path wf Hp Hwf) as (wf' & Hp' & Hwf'). by eapply H23.
Qed.

Lemma keeps_waveform_files_write (files : gmap string node) (path : string)
    (waveforms : Stream) :
  waveforms <> [] ->
  keeps_waveform_files files (<[path := MseedFile waveforms]> files).
Proof.
  intros Hne q wf Hq Hwf. destruct (decide (path = q)) as [-> | Hpq].
  - exists waveforms. by rewrite lookup_insert_eq.
  - exists wf. by rewrite lookup_insert_ne.
Qed.

Lemma claims_on_disk_kept (f1 f2 : gmap string node) (flags bd ad : string)
    (info : json) :
  keeps_waveform_files f1 f2 ->
  claims_on_disk f1 flags bd ad info -> claims_on_disk f2 flags bd ad info.
Proof.
  intros Hkeep [Hb Ha]. split; intros Hclaim.
  - destruct (Hb Hclaim) as (p & wf & Hfile & Hp & Hwf).
    destruct (Hkeep p wf Hp Hwf) as (wf' & Hp' & Hwf'). by exists p, wf'.
  - destruct (Ha Hclaim) as (p & wf & Hfile & Hp & Hwf).
    destruct (Hkeep p wf Hp Hwf) as (wf' & Hp' & Hwf'). by exists p, wf'.
Qed.

Lemma metadata_is_no_waveform_file (event_dir sub name : string) :
  sub = "before_event" \/ sub = "after_event" ->
  os_path_join (os_path_join event_dir sub) name
  <> os_path_join event_dir "metadata.json".
Proof.
  unfold os_path_join. rewrite string_app_assoc.
  intros [-> | ->] Heq%append_inj; discriminate Heq.
Qed.

Lemma count_claims_app (flags : string) (l1 l2 : list json) :
  count_claims flags (l1 ++ l2)
  = (count_claims flags l1 + count_claims flags l2)%Z.
Proof.
  induction l1 as [| info l1 IH]; simpl; [done |]. rewrite IH. lia.
Qed.

Lemma count_claims_bounds (flags : string) (l : list json) :
  (0 <= count_claims flags l <= 2 * Z.of_nat (length l))%Z.
Proof.
  induction l as [| info l IH]; simpl; [lia |].
  destruct (claims_data flags "before" info),
    (claims_data flags "after" info); lia.
Qed.

Section MetadataAndFiles.
Context `{Environment}.

Lemma reads_only_fs {A} (m : M A) (w : World) :
  writes_only (fun _ => False) m -> fs (m w).2 = fs w.
Proof.
  intros Hm. apply map_eq. intros path.
  destruct (Hm w path) as [Heq _]. apply Heq. tauto.
Qed.

Lemma get_waveforms_reads (self : ProductionSeismicFetcher.t)
    (network station : string) (t0 t1 : Z) (w : World) :
  exists result w',
    ProductionSeismicFetcher.get_waveforms self network station t0 t1 w
    = (Ok result, w')
    /\ fs w' = fs w.
Proof.
  destruct (get_waveforms_returns self network station t0 t1 w)
    as (result & w' & Hrun).
  exists result, w'. split; [done |].
  pose proof (reads_only_fs _ w
                (writes_only_get_waveforms (fun _ => False) self network
                   station t0 t1)) as Hfs.
  by rewrite Hrun in Hfs.
Qed.

Lemma get_seismic_waveforms_reads (self : SeismicDataFetcher.t)
    (network station : string) (t0 t1 : Z) (channels : list string)
    (w : World) :
  exists result w',
    SeismicDataFetcher.get_seismic_waveforms self network station t0 t1
      channels w = (Ok result, w')
    /\ fs w' = fs w.
Proof.
  destruct (get_seismic_waveforms_returns self network station t0 t1
              channels w) as (result & w' & Hrun).
  exists result, w'. split; [done |].
  pose proof (reads_only_fs _ w
                (writes_only_get_seismic_waveforms (fun _ => False) self
                   network station t0 t1 channels)) as Hfs.
  by rewrite Hrun in Hfs.
Qed.

Lemma time_sleep_ok (ms : Z) (w : World) :
  exists w', time_sleep ms w = (Ok tt, w') /\ fs w' = fs w.
Proof. by eexists. Qed.

(** The saving step of [ProductionSeismicFetcher.process_earthquake]:
    the flag it yields is set exactly when the stream was written. *)
Lemma production_save_step (found : option Stream) (file : string)
    (w : World) :
  exists ok w',
    match found with
    | Some waveforms =>
        if stream_truthy waveforms then
          try_except (stream_write waveforms file ;;; ret true)
                     (fun _ => ret false)
        else ret false
    | None => ret false
    end w = (Ok ok, w')
    /\ keeps_waveform_files (fs w) (fs w')
    /\ (ok = true ->
        exists waveforms,
          fs w' !! file = Some (MseedFile waveforms) /\ waveforms <> []).
Proof.
  destruct found as [wf |].
  2: { exists false, w. split; [done |].
       split; [apply keeps_waveform_files_refl | done]. }
  destruct (stream_truthy wf) eqn:Hwf.
  2: { exists false, w. split; [done |].
       split; [apply keeps_waveform_files_refl | done]. }
  apply stream_truthy_nonempty in Hwf.
  unfold try_except, bind, stream_write. destruct (write_fails file).
  - exists false, w. split; [done |].
    split; [apply keeps_waveform_files_refl | done].
  - eexists true, _. split; [reflexivity |]. simpl.
    split; [by apply keeps_waveform_files_write |].
    intros _. exists wf. by rewrite lookup_insert_eq.
Qed.

Lemma production_process_stations_claims (self : ProductionSeismicFetcher.t)
    (bd ad : string) (bs be a_s ae : Z)
    (stations : list ProductionSeismicFetcher.RankedStation)
    (acc : list json) (n : Z) (w : World) :
  exists new w',
    ProductionSeismicFetcher.process_stations self bd ad bs be a_s ae
      stations acc n w
    = (Ok (acc ++ new, (n + count_claims "data_retrieved" new)%Z), w')
    /\ length new = length stations
    /\ keeps_waveform_files (fs w) (fs w')
    /\ Forall (claims_on_disk (fs w') "data_retrieved" bd ad) new.
Proof.
  revert acc n w. induction stations as [| st l IH]; intros acc n w.
  { exists [], w. simpl. rewrite app_nil_r, Z.add_0_r.
    split; [done |]. split; [done |].
    split; [apply keeps_waveform_files_refl | done]. }
  simpl ProductionSeismicFetcher.process_stations.
  set (network := ProductionSeismicFetcher.network
                    (ProductionSeismicFetcher.entry st)).
  set (code := ProductionSeismicFetcher.station
                 (ProductionSeismicFetcher.entry st)).
  destruct (get_waveforms_reads self network code bs be w)
    as (before & w1 & Hr1 & Hfs1).
  rewrite (bind_ok _ _ _ _ _ Hr1).
  destruct (production_save_step before.1
              (os_path_join bd (network +:+ "_" +:+ code +:+ "_before.mseed"))
              w1) as (before_ok & w2 & Hr2 & Hk2 & Hb).
  rewrite (bind_ok _ _ _ _ _ Hr2).
  destruct (time_sleep_ok 1000 w2) as (w3 & Hr3 & Hfs3).
  rewrite (bind_ok _ _ _ _ _ Hr3).
  destruct (get_waveforms_reads self network code a_s ae w3)
    as (after & w4 & Hr4 & Hfs4).
  rewrite (bind_ok _ _ _ _ _ Hr4).
  destruct (production_save_step after.1
              (os_path_join ad (network +:+ "_" +:+ code +:+ "_after.mseed"))
              w4) as (after_ok & w5 & Hr5 & Hk5 & Ha).
  rewrite (bind_ok _ _ _ _ _ Hr5).
  destruct (time_sleep_ok 2000 w5) as (w6 & Hr6 & Hfs6).
  rewrite (bind_ok _ _ _ _ _ Hr6).
  match goal with
  | |- context [ProductionSeismicFetcher.process_stations
                  _ _ _ _ _ _ _ l (acc ++ [?i]) ?n' w6] =>
      destruct (IH (acc ++ [i]) n' w6) as (new & w' & Hrun & Hlen & Hk & Hall);
      exists (i :: new), w'
  end.
  rewrite Hrun. split.
  { rewrite <- app_assoc. do 3 f_equal.
    simpl count_claims. unfold claims_data. simpl.
    destruct before_ok, after_ok; lia. }
  split; [simpl; lia |].
  assert (Hk25 : keeps_waveform_files (fs w2) (fs w')).
  { rewrite Hfs6 in Hk. rewrite Hfs4, Hfs3 in Hk5.
    by eapply keeps_waveform_files_trans. }
  split.
  { rewrite <- Hfs1. by eapply keeps_waveform_files_trans. }
  constructor; [| exact Hall]. split.
  - unfold claims_data. simpl. intros Hclaim.
    destruct before_ok; [| done].
    destruct (Hb eq_refl) as (wf & Hp & Hwf).
    destruct (Hk25 _ wf Hp Hwf) as (wf' & Hp' & Hwf').
    eexists _, wf'. split; [reflexivity |]. done.
  - unfold claims_data. simpl. intros Hclaim.
    destruct after_ok; [| done].
    destruct (Ha eq_refl) as (wf & Hp & Hwf).
    rewrite Hfs6 in Hk.
    destruct (Hk _ wf Hp Hwf) as (wf' & Hp' & Hwf').
    eexists _, wf'. split; [reflexivity |]. done.
Qed.
End MetadataAndFiles.

(** ** Reading a run backwards *)

Lemma bind_inv {A B} (m : M A) (k : A -> M B) (w w' : World) (b : B) :
  bind m k w = (Ok b, w') ->
  exists a w1, m w = (Ok a, w1) /\ k a w1 = (Ok b, w').
Proof.
  unfold bind. destruct (m w) as [[a | e] w1]; [| done].
  intros Hk. by exists a, w1.
Qed.

Lemma try_except_none_inv {A} (m : M (option A)) (w w' : World) (a : A) :
  try_except m (fun _ => ret None) w = (Ok (Some a), w') ->
  m w = (Ok (Some a), w').
Proof. unfold try_except. by destruct (m w) as [[r | e] w1]. Qed.

Lemma station_file_in_dir (dir suffix : string) (info : json) (path : string) :
  station_file dir suffix info = Some path ->
  exists name, path = os_path_join dir name.
Proof.
  unfold station_file.
  destruct (json_get "network" info) as [[| | | | n | |] |]; try done.
  destruct (json_get "station" info) as [[| | | | s | |] |]; try done.
  intros [= <-]. by eexists.
Qed.

Lemma claims_on_disk_metadata (files : gmap string node) (flags : string)
    (event_dir : string) (metadata : json) (info : json) :
  claims_on_disk files flags (os_path_join event_dir "before_event")
    (os_path_join event_dir "after_event") info ->
  claims_on_disk
    (<[os_path_join event_dir "metadata.json" := JsonFile metadata]> files)
    flags (os_path_join event_dir "before_event")
    (os_path_join event_dir "after_event") info.
Proof.
  intros [Hb Ha]. split; intros Hclaim.
  - destruct (Hb Hclaim) as (p & wf & Hfile & Hp & Hwf).
    exists p, wf. split; [done |]. split; [| done].
    apply station_file_in_dir in Hfile as [name ->].
    rewrite lookup_insert_ne; [done |].
    apply not_eq_sym, metadata_is_no_waveform_file. by left.
  - destruct (Ha Hclaim) as (p & wf & Hfile & Hp & Hwf).
    exists p, wf. split; [done |]. split; [| done].
    apply station_file_in_dir in Hfile as [name ->].
    rewrite lookup_insert_ne; [done |].
    apply not_eq_sym, metadata_is_no_waveform_file. by right.
Qed.

Section MetadataTheorems.
Context `{Environment}.

Lemma json_dump_to_inv (content : json) (path : string) (w w' : World) :
  json_dump_to content path w = (Ok tt, w') ->
  fs w' = <[path := JsonFile content]> (fs w).
Proof.
  unfold json_dump_to. destruct (write_fails path); [done |].
  by intros [= <-].
Qed.

(** X12: when [ProductionSeismicFetcher.process_earthquake] archives an
    event whose directory was not there and returns its path, the metadata
    file it has written agrees with the files on disk: it has one entry
    per station of the resolver (one to three), every entry whose flag
    [data_retrieved] is set for a period has its waveform file in the
    directory of that period, holding a stream with at least one trace,
    [successful_retrievals] is the number of flags set and [total_possible]
    is twice the number of stations. *)
Theorem production_metadata_matches_files :
  forall (self : ProductionSeismicFetcher.t) (row : Row) (index : Z)
         (total : nat) (event_time : Z) (w w' : World) (returned : string),
    let event_dir :=
      ProductionSeismicFetcher.event_dir_of self (row_title row)
        (row_magnitude row) event_time in
    parse_date (row_date_time row) = Some event_time ->
    fs w !! event_dir = None ->
    ProductionSeismicFetcher.process_earthquake self row index total w
    = (Ok (Some returned), w') ->
    returned = event_dir
    /\ exists metadata stations,
         fs w' !! os_path_join event_dir "metadata.json"
         = Some (JsonFile metadata)
         /\ json_get "stations" metadata = Some (JList stations)
         /\ length stations
            = length (ProductionSeismicFetcher.get_nearest_stations self
                        (row_latitude row) (row_longitude row) 4000 3)
         /\ (1 <= length stations <= 3)%nat
         /\ json_get "successful_retrievals" metadata
            = Some (JInt (count_claims "data_retrieved" stations))
         /\ json_get "total_possible" metadata
            = Some (JInt (Z.of_nat (length stations) * 2))
         /\ (0 <= count_claims "data_retrieved" stations
             <= Z.of_nat (length stations) * 2)%Z
         /\ Forall (claims_on_disk (fs w') "data_retrieved"
                      (os_path_join event_dir "before_event")
                      (os_path_join event_dir "after_event"))
                   stations.
Proof.
  intros self row index total t w w' returned event_dir Hdate Hdir Hrun.
  unfold ProductionSeismicFetcher.process_earthquake in Hrun.
  apply try_except_none_inv in Hrun.
  unfold ProductionSeismicFetcher.process_earthquake_body in Hrun.
  cbv zeta in Hrun. rewrite Hdate in Hrun. fold event_dir in Hrun.
  rewrite (bind_ok _ _ _ _ _ (os_path_exists_false _ _ Hdir)) in Hrun.
  apply bind_inv in Hrun as ([] & w1 & _ & Hrun).
  apply bind_inv in Hrun as ([] & w2 & _ & Hrun).
  apply bind_inv in Hrun as ([] & w3 & _ & Hrun).
  pose proof (ProductionResolver.at_most self (row_latitude row)
                (row_longitude row) 4000 3 ltac:(lia)) as Hmost.
  destruct (ProductionSeismicFetcher.get_nearest_stations self
              (row_latitude row) (row_longitude row) 4000 3)
    as [| s stations] eqn:Hstations; [done |].
  apply bind_inv in Hrun as (results & w4 & Hloop & Hrun).
  apply bind_inv in Hrun as (now_ & w5 & Hnow & Hrun).
  apply bind_inv in Hrun as ([] & w6 & Hdump & Hrun).
  injection Hrun as <- <-.
  unfold now in Hnow. injection Hnow as _ <-.
  apply json_dump_to_inv in Hdump.
  destruct (production_process_stations_claims self
              (os_path_join event_dir "before_event")
              (os_path_join event_dir "after_event")
              (before_start (ProductionSeismicFetcher.data_periods t))
              (before_end (ProductionSeismicFetcher.data_periods t))
              (after_start (ProductionSeismicFetcher.data_periods t))
              (after_end (ProductionSeismicFetcher.data_periods t))
              (s :: stations) [] 0 w3)
    as (new & w4' & Hloop' & Hlen & _ & Hall).
  rewrite Hloop' in Hloop. injection Hloop as <- <-.
  split; [done |]. eexists _, new. rewrite Hdump.
  split; [apply lookup_insert_eq |].
  split; [reflexivity |]. split; [done |].
  split; [rewrite Hlen; simpl in *; lia |].
  split; [reflexivity |].
  split; [simpl json_get; rewrite Hlen; reflexivity |].
  split; [pose proof (count_claims_bounds "data_retrieved" new); lia |].
  eapply Forall_impl; [exact Hall |].
  intros info. apply claims_on_disk_metadata.
Qed.
End MetadataTheorems.

Lemma epicentre_station_found :
  ProductionSeismicFetcher.get_nearest_stations epicentre_fetcher
    (row_latitude turkey_row) (row_longitude turkey_row) 4000 3 <> [].
Proof.
  unfold ProductionSeismicFetcher.get_nearest_stations, epicentre_fetcher.
  simpl omap.
  rewrite calculate_distance_formula, haversine_formula_refl.
  rewrite bool_decide_eq_true_2 by lra. done.
Qed.

(** A run of X12: the test event with a station at its epicentre, IRIS
    having data on the HH channels. *)
Lemma production_metadata_matches_files_witness :
  exists w' metadata stations,
    ProductionSeismicFetcher.process_earthquake (H := hh_only)
      epicentre_fetcher turkey_row 1 1 empty_world
    = (Ok (Some turkey_dir), w')
    /\ fs w' !! os_path_join turkey_dir "metadata.json"
       = Some (JsonFile metadata)
    /\ json_get "stations" metadata = Some (JList stations)
    /\ Forall (claims_on_disk (fs w') "data_retrieved"
                 (os_path_join turkey_dir "before_event")
                 (os_path_join turkey_dir "after_event"))
              stations.
Proof.
  destruct (production_writes_metadata (H := hh_only) epicentre_fetcher
              turkey_row 1 1 (datetime 2023 2 6 1 17 0) empty_world
              eq_refl eq_refl (fun _ => eq_refl) eq_refl
              epicentre_station_found)
    as (metadata0 & w' & Hrun & _).
  destruct (production_metadata_matches_files (H := hh_only)
              epicentre_fetcher turkey_row 1 1 (datetime 2023 2 6 1 17 0)
              empty_world w' _ eq_refl eq_refl Hrun)
    as (_ & metadata & stations & Hfile & Hstations & _ & _ & _ & _ & _ & Hall).
  exists w', metadata, stations.
  split; [exact Hrun |]. split; [exact Hfile |].
  split; [exact Hstations | exact Hall].
Defined.

Section FetcherMetadata.
Context `{Environment}.

(** The saving step of [SeismicDataFetcher.process_earthquake]: it yields
    a summary exactly when the stream was written. *)
Lemma fetcher_save_step (found : option Stream) (file : string) (w : World) :
  exists saved w',
    match found with
    | Some waveforms =>
        if stream_truthy waveforms then
          saved <- SeismicDataFetcher.save_waveform_data waveforms file ;;
          if saved : bool
          then ret (Some (SeismicDataFetcher.create_waveform_summary
                            waveforms))
          else ret None
        else ret None
    | None => ret None
    end w = (Ok saved, w')
    /\ keeps_waveform_files (fs w) (fs w')
    /\ (is_Some saved ->
        exists waveforms,
          fs w' !! file = Some (MseedFile waveforms) /\ waveforms <> []).
Proof.
  destruct found as [wf |].
  2: { exists None, w. split; [done |].
       split; [apply keeps_waveform_files_refl | by intros [? ?]]. }
  destruct (stream_truthy wf) eqn:Hwf.
  2: { exists None, w. split; [done |].
       split; [apply keeps_waveform_files_refl | by intros [? ?]]. }
  apply stream_truthy_nonempty in Hwf.
  unfold SeismicDataFetcher.save_waveform_data, try_except, bind, stream_write.
  destruct (write_fails file).
  - exists None, w. split; [done |].
    split; [apply keeps_waveform_files_refl | by intros [? ?]].
  - eexists (Some _), _. split; [reflexivity |]. simpl.
    split; [by apply keeps_waveform_files_write |].
    intros _. exists wf. by rewrite lookup_insert_eq.
Qed.

Lemma fetcher_process_stations_claims (self : SeismicDataFetcher.t)
    (bd ad : string) (bs be a_s ae : Z)
    (stations : list SeismicDataFetcher.Station)
    (acc : list json) (w : World) :
  exists new w',
    SeismicDataFetcher.process_stations self bd ad bs be a_s ae
      stations acc w = (Ok (acc ++ new), w')
    /\ length new = length stations
    /\ keeps_waveform_files (fs w) (fs w')
    /\ Forall (claims_on_disk (fs w') "data_available" bd ad) new.
Proof.
  revert acc w. induction stations as [| st l IH]; intros acc w.
  { exists [], w. simpl. rewrite app_nil_r.
    split; [done |]. split; [done |].
    split; [apply keeps_waveform_files_refl | done]. }
  simpl SeismicDataFetcher.process_stations.
  set (network := SeismicDataFetcher.network st).
  set (code := SeismicDataFetcher.station st).
  destruct (get_seismic_waveforms_reads self network code bs be
              SeismicDataFetcher.default_channels w)
    as (before & w1 & Hr1 & Hfs1).
  rewrite (bind_ok _ _ _ _ _ Hr1).
  destruct (fetcher_save_step before.1
              (os_path_join bd (network +:+ "_" +:+ code +:+ "_before.mseed"))
              w1) as (before_saved & w2 & Hr2 & Hk2 & Hb).
  rewrite (bind_ok _ _ _ _ _ Hr2).
  destruct (time_sleep_ok 2000 w2) as (w3 & Hr3 & Hfs3).
  rewrite (bind_ok _ _ _ _ _ Hr3).
  destruct (get_seismic_waveforms_reads self network code a_s ae
              SeismicDataFetcher.default_channels w3)
    as (after & w4 & Hr4 & Hfs4).
  rewrite (bind_ok _ _ _ _ _ Hr4).
  destruct (fetcher_save_step after.1
              (os_path_join ad (network +:+ "_" +:+ code +:+ "_after.mseed"))
              w4) as (after_saved & w5 & Hr5 & Hk5 & Ha).
  rewrite (bind_ok _ _ _ _ _ Hr5).
  destruct (time_sleep_ok 3000 w5) as (w6 & Hr6 & Hfs6).
  rewrite (bind_ok _ _ _ _ _ Hr6).
  match goal with
  | |- context [SeismicDataFetcher.process_stations
                  _ _ _ _ _ _ _ l (acc ++ [?i]) w6] =>
      destruct (IH (acc ++ [i]) w6) as (new & w' & Hrun & Hlen & Hk & Hall);
      exists (i :: new), w'
  end.
  rewrite Hrun. rewrite Hfs6 in Hk. split.
  { by rewrite <- app_assoc. }
  split; [simpl; lia |].
  assert (Hk25 : keeps_waveform_files (fs w2) (fs w')).
  { rewrite Hfs4, Hfs3 in Hk5. by eapply keeps_waveform_files_trans. }
  split.
  { rewrite <- Hfs1. by eapply keeps_waveform_files_trans. }
  constructor; [| exact Hall]. split.
  - unfold claims_data. simpl. intros Hclaim.
    destruct before_saved as [summary |]; [| done].
    destruct Hb as (wf & Hp & Hwf); [by eexists |].
    destruct (Hk25 _ wf Hp Hwf) as (wf' & Hp' & Hwf').
    eexists _, wf'. split; [reflexivity |]. done.
  - unfold claims_data. simpl. intros Hclaim.
    destruct after_saved as [summary |]; [| done].
    destruct Ha as (wf & Hp & Hwf); [by eexists |].
    destruct (Hk _ wf Hp Hwf) as (wf' & Hp' & Hwf').
    eexists _, wf'. split; [reflexivity |]. done.
Qed.

(** X13: when [SeismicDataFetcher.process_earthquake] archives an event
    whose directory was not there and returns its path, the metadata file
    it has written agrees with what it did: with no station from the
    resolver the status is "no_stations_found" and the station list is
    empty; otherwise the status is "completed", the list has one entry
    for each of the first three stations of the resolver, and every entry
    whose flag [data_available] is set for a period has its waveform file
    in the directory of that period, holding a stream with at least one
    trace. *)
Theorem fetcher_metadata_matches_files :
  forall (self : SeismicDataFetcher.t) (row : Row) (index : Z)
         (total : nat) (event_time : Z) (w w' : World) (returned : string),
    let event_dir :=
      SeismicDataFetcher.event_dir_of self (row_title row)
        (row_magnitude row) event_time in
    parse_date (row_date_time row) = Some event_time ->
    fs w !! event_dir = None ->
    SeismicDataFetcher.process_earthquake self row index total w
    = (Ok (Some returned), w') ->
    returned = event_dir
    /\ exists metadata stations,
         fs w' !! os_path_join event_dir "metadata.json"
         = Some (JsonFile metadata)
         /\ json_get "stations" metadata = Some (JList stations)
         /\ (length stations <= 3)%nat
         /\ json_get "status" metadata
            = Some (JStr (match stations with
                          | [] => "no_stations_found"
                          | _ => "completed"
                          end))
         /\ Forall (claims_on_disk (fs w') "data_available"
                      (os_path_join event_dir "before_event")
                      (os_path_join event_dir "after_event"))
                   stations.
Proof.
  intros self row index total t w w' returned event_dir Hdate Hdir Hrun.
  unfold SeismicDataFetcher.process_earthquake in Hrun.
  apply try_except_none_inv in Hrun.
  unfold SeismicDataFetcher.process_earthquake_body in Hrun.
  cbv zeta in Hrun. rewrite Hdate in Hrun. fold event_dir in Hrun.
  rewrite (bind_ok _ _ _ _ _ (os_path_exists_false _ _ Hdir)) in Hrun.
  apply bind_inv in Hrun as ([] & w1 & _ & Hrun).
  apply bind_inv in Hrun as (resolved & w2 & _ & Hrun).
  destruct resolved as [| s resolved].
  { apply bind_inv in Hrun as (now_ & w3 & Hnow & Hrun).
    apply bind_inv in Hrun as ([] & w4 & Hdump & Hrun).
    injection Hrun as <- <-. apply json_dump_to_inv in Hdump.
    split; [done |]. eexists _, []. rewrite Hdump.
    split; [apply lookup_insert_eq |].
    split; [reflexivity |]. split; [simpl; lia |]. split; [reflexivity |].
    constructor. }
  apply bind_inv in Hrun as ([] & w3 & _ & Hrun).
  apply bind_inv in Hrun as ([] & w4 & _ & Hrun).
  apply bind_inv in Hrun as (station_data & w5 & Hloop & Hrun).
  apply bind_inv in Hrun as (now_ & w6 & Hnow & Hrun).
  apply bind_inv in Hrun as ([] & w7 & Hdump & Hrun).
  injection Hrun as <- <-.
  unfold now in Hnow. injection Hnow as _ <-.
  apply json_dump_to_inv in Hdump.
  destruct (fetcher_process_stations_claims self
              (os_path_join event_dir "before_event")
              (os_path_join event_dir "after_event")
              (before_start (SeismicDataFetcher.data_periods t))
              (before_end (SeismicDataFetcher.data_periods t))
              (after_start (SeismicDataFetcher.data_periods t))
              (after_end (SeismicDataFetcher.data_periods t))
              (slice_to (s :: resolved) 3) [] w4)
    as (new & w5' & Hloop' & Hlen & _ & Hall).
  rewrite Hloop' in Hloop. injection Hloop as <- <-.
  split; [done |]. eexists _, new. rewrite Hdump.
  split; [apply lookup_insert_eq |].
  split; [reflexivity |].
  split.
  { rewrite Hlen. pose proof (slice_to_length (s :: resolved) 3). lia. }
  split.
  { destruct new; [done | reflexivity]. }
  eapply Forall_impl; [exact Hall |].
  intros info. apply claims_on_disk_metadata.
Qed.
End FetcherMetadata.

(** A run of X13: the test event, IRIS knowing a station and having data
    for it on the HH channels. *)
Lemma fetcher_metadata_matches_files_witness :
  exists w' metadata stations,
    SeismicDataFetcher.process_earthquake (H := hh_only)
      two_clients turkey_row 1 1 empty_world
    = (Ok (Some turkey_dir), w')
    /\ fs w' !! os_path_join turkey_dir "metadata.json"
       = Some (JsonFile metadata)
    /\ json_get "stations" metadata = Some (JList stations)
    /\ Forall (claims_on_disk (fs w') "data_available"
                 (os_path_join turkey_dir "before_event")
                 (os_path_join turkey_dir "after_event"))
              stations.
Proof.
  destruct (fetcher_writes_metadata (H := hh_only) two_clients
              turkey_row 1 1 (datetime 2023 2 6 1 17 0) empty_world
              eq_refl eq_refl (fun _ => eq_refl) eq_refl)
    as (resolved & w1 & w2 & metadata0 & w' & _ & _ & Hrun & _).
  destruct (fetcher_metadata_matches_files (H := hh_only)
              two_clients turkey_row 1 1 (datetime 2023 2 6 1 17 0)
              empty_world w' _ eq_refl eq_refl Hrun)
    as (_ & metadata & stations & Hfile & Hstations & _ & _ & Hall).
  exists w', metadata, stations.
  split; [exact Hrun |]. split; [exact Hfile |].
  split; [exact Hstations | exact Hall].
Defined.

(** ** BatchRunner: the rows selected, the counters and the summary *)

Lemma slice_length_le {A} (l : list A) (a n : Z) :
  (0 <= a)%Z -> (0 < n)%Z -> (Z.of_nat (length (slice l a (a + n))) <= n)%Z.
Proof.
  intros Ha Hn. unfold slice, slice_index.
  destruct (Z.ltb_spec a 0); [lia |].
  destruct (Z.ltb_spec (a + n) 0); [lia |].
  rewrite length_take, length_drop. lia.
Qed.

Lemma slice_sublist {A} (l : list A) (a b : Z) : slice l a b `sublist_of` l.
Proof.
  unfold slice. etrans; [apply sublist_take | apply sublist_drop].
Qed.

Lemma slice_from_sublist {A} (l : list A) (a : Z) :
  slice_from l a `sublist_of` l.
Proof. unfold slice_from. apply sublist_drop. Qed.

Lemma selected_rows_sublist (csv : list (Z * CsvRow)) (max_events : option Z)
    (start_from : Z) :
  selected_rows csv max_events start_from `sublist_of` dropna csv.
Proof.
  unfold selected_rows. destruct max_events as [n |].
  - destruct (n =? 0)%Z; [apply slice_from_sublist | apply slice_sublist].
  - apply slice_from_sublist.
Qed.

Lemma os_path_join_nonempty (a b : string) : os_path_join a b <> "".
Proof. unfold os_path_join. by destruct a. Qed.

Lemma result_truthy_join (a b : string) :
  result_truthy (Some (os_path_join a b)) = true.
Proof.
  unfold result_truthy. apply negb_true_iff, String.eqb_neq.
  apply os_path_join_nonempty.
Qed.

Section BatchCounters.
Context `{Environment}.

(** X14: [fetch_all_earthquake_data] goes through the rows it has
    selected and counts each of them once, as a success or as a failure;
    with a positive [max_events] and a [start_from] that is not negative
    it processes at most [max_events] events, all of them rows of the
    catalog that have both coordinates.  When the summary can be written
    it holds these counters; when it cannot, the batch raises at its very
    end. *)
Theorem fetch_all_earthquake_data_counts :
  forall (self : SeismicDataFetcher.t) (csv : list (Z * CsvRow))
         (max_events : option Z) (start_from : Z) (w : World),
    let rows := selected_rows csv max_events start_from in
    let summary_file :=
      os_path_join (SeismicDataFetcher.data_dir self)
                   "processing_summary.json" in
    exists successful failed w1,
      SeismicDataFetcher.process_rows self start_from (length rows) rows
        0 0 w = (Ok (successful, failed), w1)
      /\ (successful + failed = Z.of_nat (length rows))%Z
      /\ (0 <= successful)%Z /\ (0 <= failed)%Z
      /\ rows `sublist_of` dropna csv
      /\ (forall n, max_events = Some n -> (0 < n)%Z -> (0 <= start_from)%Z ->
          (successful + failed <= n)%Z)
      /\ (write_fails summary_file = true ->
          SeismicDataFetcher.fetch_all_earthquake_data
            self csv max_events start_from w
          = (Raise (OSError summary_file), w1))
      /\ (write_fails summary_file = false ->
          exists summary w',
            SeismicDataFetcher.fetch_all_earthquake_data
              self csv max_events start_from w
            = (Ok (successful, failed), w')
            /\ fs w' = <[summary_file := JsonFile summary]> (fs w1)
            /\ json_get "total_events" summary
               = Some (JInt (Z.of_nat (length rows)))
            /\ json_get "successful" summary = Some (JInt successful)
            /\ json_get "failed" summary = Some (JInt failed)).
Proof.
  intros self csv max_events start_from w rows summary_file.
  destruct (fetcher_process_rows_counts self start_from (length rows) rows
              0 0 w) as (s & f & w1 & Hrun & Hsum & Hs & Hf).
  exists s, f, w1. split; [exact Hrun |]. split; [lia |].
  split; [done |]. split; [done |].
  split; [apply selected_rows_sublist |]. split.
  { intros n -> Hn Hstart. rewrite Hsum. subst rows. unfold selected_rows.
    rewrite (proj2 (Z.eqb_neq n 0)) by lia.
    pose proof (slice_length_le (dropna csv) start_from n Hstart Hn). lia. }
  unfold SeismicDataFetcher.fetch_all_earthquake_data. cbv zeta.
  fold (selected_rows csv max_events start_from). fold rows.
  rewrite (bind_ok _ _ _ _ _ Hrun). fold summary_file. split.
  - intros Hfail. unfold bind, now, json_dump_to. simpl. by rewrite Hfail.
  - intros Hok. unfold bind, now, json_dump_to. simpl. rewrite Hok.
    eexists _, _. split; [reflexivity |]. simpl. done.
Qed.

End BatchCounters.

(** A run of X14: the catalog of the test event, limited to one event. *)
Lemma fetch_all_earthquake_data_counts_witness :
  exists successful failed w',
    SeismicDataFetcher.fetch_all_earthquake_data (H := hh_only)
      two_clients turkey_csv (Some 1%Z) 0 archived_world
    = (Ok (successful, failed), w')
    /\ (successful + failed = 1)%Z.
Proof.
  destruct (fetch_all_earthquake_data_counts (H := hh_only)
              two_clients turkey_csv (Some 1%Z) 0%Z archived_world)
    as (s & f & w1 & _ & Hsum & _ & _ & _ & _ & _ & Hwritten).
  destruct (Hwritten eq_refl) as (summary & w' & Hrun & _).
  exists s, f, w'. split; [exact Hrun | exact Hsum].
Defined.


(** ** BatchRunner: a batch over events already archived *)

Section BatchRerun.
Context `{Environment}.

Lemma dated_rows_cons_dated (index : Z) (row : Row) (rows : list (Z * Row))
    (event_time : Z) :
  parse_date (row_date_time row) = Some event_time ->
  dated_rows ((index, row) :: rows) = (index, row) :: dated_rows rows.
Proof.
  intros Hdate. unfold dated_rows. rewrite filter_cons_True; [done |].
  simpl. rewrite Hdate. by rewrite bool_decide_eq_true_2.
Qed.

Lemma dated_rows_cons_undated (index : Z) (row : Row) (rows : list (Z * Row)) :
  parse_date (row_date_time row) = None ->
  dated_rows ((index, row) :: rows) = dated_rows rows.
Proof.
  intros Hdate. unfold dated_rows. rewrite filter_cons_False; [done |].
  simpl. rewrite Hdate. rewrite bool_decide_eq_false_2; [tauto |].
  by intros [? ?].
Qed.

Lemma dated_rows_length (rows : list (Z * Row)) :
  (length (dated_rows rows) <= length rows)%nat.
Proof. unfold dated_rows. apply length_filter. Qed.

Lemma fetcher_undated_returns_none (self : SeismicDataFetcher.t) (row : Row)
    (index : Z) (total : nat) (w : World) :
  parse_date (row_date_time row) = None ->
  SeismicDataFetcher.process_earthquake self row index total w = (Ok None, w).
Proof.
  intros Hdate.
  unfold SeismicDataFetcher.process_earthquake,
    SeismicDataFetcher.process_earthquake_body.
  cbv zeta. by rewrite Hdate.
Qed.

Lemma production_undated_returns_none (self : ProductionSeismicFetcher.t)
    (row : Row) (index : Z) (total : nat) (w : World) :
  parse_date (row_date_time row) = None ->
  ProductionSeismicFetcher.process_earthquake self row index total w
  = (Ok None, w).
Proof.
  intros Hdate.
  unfold ProductionSeismicFetcher.process_earthquake,
    ProductionSeismicFetcher.process_earthquake_body.
  cbv zeta. by rewrite Hdate.
Qed.

Lemma fetcher_process_rows_archived (self : SeismicDataFetcher.t)
    (start_from : Z) (total : nat) (rows : list (Z * Row))
    (successful failed : Z) (w : World) :
  (forall r event_time,
     r ∈ rows -> parse_date (row_date_time r.2) = Some event_time ->
     is_Some (fs w !! SeismicDataFetcher.event_dir_of self
                        (row_title r.2) (row_magnitude r.2) event_time)) ->
  SeismicDataFetcher.process_rows self start_from total rows
    successful failed w
  = (Ok ((successful + Z.of_nat (length (dated_rows rows)))%Z,
         (failed + Z.of_nat (length rows - length (dated_rows rows)))%Z),
     {| fs := fs w; clock := clock w;
        trace := trace w ++ replicate (length rows) (Sleep 3000) |}).
Proof.
  revert successful failed w.
  induction rows as [| [index row] rows IH]; intros s f w Hdirs.
  { simpl. unfold ret. rewrite !Z.add_0_r, app_nil_r. by destruct w. }
  pose proof (dated_rows_length rows) as Hlen.
  simpl SeismicDataFetcher.process_rows.
  destruct (parse_date (row_date_time row)) as [event_time |] eqn:Hdate.
  - rewrite (bind_ok _ _ _ _ _
               (fetcher_skips_existing self row _ total event_time w Hdate
                  (Hdirs (index, row) event_time
                     ltac:(left) Hdate))).
    unfold SeismicDataFetcher.event_dir_of at 1 2. cbv zeta.
    rewrite result_truthy_join.
    unfold bind at 1. unfold time_sleep at 1.
    rewrite IH.
    2: { intros r t Hr Ht. simpl. apply Hdirs; [by right | done]. }
    rewrite (dated_rows_cons_dated _ _ _ _ Hdate). simpl.
    rewrite <- app_assoc. simpl.
    do 2 f_equal. f_equal; lia.
  - rewrite (bind_ok _ _ _ _ _
               (fetcher_undated_returns_none self row _ total w Hdate)).
    simpl result_truthy. cbv iota.
    unfold bind at 1. unfold time_sleep at 1.
    rewrite IH.
    2: { intros r t Hr Ht. simpl. apply Hdirs; [by right | done]. }
    rewrite (dated_rows_cons_undated _ _ _ Hdate). simpl.
    rewrite <- app_assoc. simpl.
    do 2 f_equal. f_equal; lia.
Qed.

Lemma production_process_rows_archived (self : ProductionSeismicFetcher.t)
    (start_from : Z) (total : nat) (rows : list (Z * Row))
    (successful failed : Z) (w : World) :
  (forall r event_time,
     r ∈ rows -> parse_date (row_date_time r.2) = Some event_time ->
     is_Some (fs w !! ProductionSeismicFetcher.event_dir_of self
                        (row_title r.2) (row_magnitude r.2) event_time)) ->
  ProductionSeismicFetcher.process_rows self start_from total rows
    successful failed w
  = (Ok ((successful + Z.of_nat (length (dated_rows rows)))%Z,
         (failed + Z.of_nat (length rows - length (dated_rows rows)))%Z),
     {| fs := fs w; clock := clock w;
        trace := trace w ++ replicate (length rows) (Sleep 5000) |}).
Proof.
  revert successful failed w.
  induction rows as [| [index row] rows IH]; intros s f w Hdirs.
  { simpl. unfold ret. rewrite !Z.add_0_r, app_nil_r. by destruct w. }
  pose proof (dated_rows_length rows) as Hlen.
  simpl ProductionSeismicFetcher.process_rows.
  destruct (parse_date (row_date_time row)) as [event_time |] eqn:Hdate.
  - rewrite (bind_ok _ _ _ _ _
               (production_skips_existing self row _ total event_time w Hdate
                  (Hdirs (index, row) event_time
                     ltac:(left) Hdate))).
    unfold ProductionSeismicFetcher.event_dir_of at 1 2. cbv zeta.
    rewrite result_truthy_join.
    unfold bind at 1. unfold time_sleep at 1.
    rewrite IH.
    2: { intros r t Hr Ht. simpl. apply Hdirs; [by right | done]. }
    rewrite (dated_rows_cons_dated _ _ _ _ Hdate). simpl.
    rewrite <- app_assoc. simpl.
    do 2 f_equal. f_equal; lia.
  - rewrite (bind_ok _ _ _ _ _
               (production_undated_returns_none self row _ total w Hdate)).
    simpl result_truthy. cbv iota.
    unfold bind at 1. unfold time_sleep at 1.
    rewrite IH.
    2: { intros r t Hr Ht. simpl. apply Hdirs; [by right | done]. }
    rewrite (dated_rows_cons_undated _ _ _ Hdate). simpl.
    rewrite <- app_assoc. simpl.
    do 2 f_equal. f_equal; lia.
Qed.

(** X16: a batch of [fetch_all_earthquake_data] over events that are all
    archived already (every selected row whose date can be read has its
    event directory) contacts no service: all it does is sleep 3 seconds
    per row and write the summary file.  The rows whose date can be read
    are counted as successes, the others as failures. *)
Theorem fetch_all_earthquake_data_rerun :
  forall (self : SeismicDataFetcher.t) (csv : list (Z * CsvRow))
         (max_events : option Z) (start_from : Z) (w : World),
    let rows := selected_rows csv max_events start_from in
    let summary_file :=
      os_path_join (SeismicDataFetcher.data_dir self)
                   "processing_summary.json" in
    (forall r event_time,
       r ∈ rows -> parse_date (row_date_time r.2) = Some event_time ->
       is_Some (fs w !! SeismicDataFetcher.event_dir_of self
                          (row_title r.2) (row_magnitude r.2) event_time)) ->
    write_fails summary_file = false ->
    exists summary w',
      SeismicDataFetcher.fetch_all_earthquake_data
        self csv max_events start_from w
      = (Ok (Z.of_nat (length (dated_rows rows)),
             Z.of_nat (length rows - length (dated_rows rows))), w')
      /\ trace w' = trace w ++ replicate (length rows) (Sleep 3000)
      /\ clock w' = clock w
      /\ fs w' = <[summary_file := JsonFile summary]> (fs w).
Proof.
  intros self csv max_events start_from w rows summary_file Hdirs Hwrite.
  unfold SeismicDataFetcher.fetch_all_earthquake_data. cbv zeta.
  fold (selected_rows csv max_events start_from). fold rows.
  rewrite (bind_ok _ _ _ _ _
             (fetcher_process_rows_archived self start_from (length rows)
                rows 0 0 w Hdirs)).
  fold summary_file. unfold bind, now, json_dump_to. simpl.
  rewrite Hwrite. eexists _, _. split; [reflexivity |]. simpl. done.
Qed.

(** X17: the same batch with [process_all_earthquakes], when at least
    one row is selected: no service is contacted, the run sleeps 5
    seconds per row and only writes the summary file, whose success rate
    is the share of the rows whose date can be read. *)
Theorem process_all_earthquakes_rerun :
  forall (self : ProductionSeismicFetcher.t) (client : string)
         (csv : list (Z * CsvRow)) (max_events : option Z) (start_from : Z)
         (w : World),
    let rows := selected_rows csv max_events start_from in
    let summary_file :=
      os_path_join (ProductionSeismicFetcher.data_dir self)
                   "processing_summary.json" in
    ProductionSeismicFetcher.client self = Some client ->
    rows <> [] ->
    (forall r event_time,
       r ∈ rows -> parse_date (row_date_time r.2) = Some event_time ->
       is_Some (fs w !! ProductionSeismicFetcher.event_dir_of self
                          (row_title r.2) (row_magnitude r.2) event_time)) ->
    write_fails summary_file = false ->
    exists summary w',
      ProductionSeismicFetcher.process_all_earthquakes
        self csv max_events start_from w
      = (Ok (Some (Z.of_nat (length (dated_rows rows)),
                   Z.of_nat (length rows - length (dated_rows rows)))), w')
      /\ trace w' = trace w ++ replicate (length rows) (Sleep 5000)
      /\ clock w' = clock w
      /\ fs w' = <[summary_file := JsonFile summary]> (fs w)
      /\ json_get "success_rate" summary
         = Some (JFloat (IZR (Z.of_nat (length (dated_rows rows)))
                         / INR (length rows) * 100)).
Proof.
  intros self client csv max_events start_from w rows summary_file
         Hclient Hrows Hdirs Hwrite.
  unfold ProductionSeismicFetcher.process_all_earthquakes.
  rewrite Hclient. cbv zeta.
  fold (selected_rows csv max_events start_from). fold rows.
  unfold bind at 1. unfold now at 1.
  rewrite (bind_ok _ _ _ _ _
             (production_process_rows_archived self start_from (length rows)
                rows 0 0 w Hdirs)).
  fold summary_file. unfold bind at 1. unfold now at 1.
  destruct (length rows =? 0)%nat eqn:Hlen.
  { apply Nat.eqb_eq, nil_length_inv in Hlen. contradiction. }
  unfold bind, now, json_dump_to. simpl.
  rewrite Hwrite. eexists _, _. split; [reflexivity |]. simpl. done.
Qed.
End BatchRerun.

Lemma turkey_csv_rows : selected_rows turkey_csv None 0 = [(0%Z, turkey_row)].
Proof. reflexivity. Qed.

(** A run of X16: the catalog of the test event, its directory being
    there. *)
Lemma fetch_all_earthquake_data_rerun_witness :
  exists summary w',
    SeismicDataFetcher.fetch_all_earthquake_data (H := hh_only)
      two_clients turkey_csv None 0 archived_world = (Ok (1%Z, 0%Z), w')
    /\ trace w' = [Sleep 3000]
    /\ fs w' = <["seismic_station_data/processing_summary.json"
                 := JsonFile summary]> {[ turkey_dir := Dir ]}.
Proof.
  destruct (fetch_all_earthquake_data_rerun (H := hh_only)
              two_clients turkey_csv None 0%Z archived_world)
    as (summary & w' & Hrun & Htrace & _ & Hfs).
  - intros r event_time Hr Hdate. rewrite turkey_csv_rows in Hr.
    apply list_elem_of_singleton in Hr. subst r.
    injection Hdate as <-. exists Dir. apply lookup_singleton_eq.
  - reflexivity.
  - exists summary, w'. split; [exact Hrun |]. split; [exact Htrace |].
    exact Hfs.
Defined.

(** A run of X17 on the same catalog *)
Lemma process_all_earthquakes_rerun_witness :
  exists summary w',
    ProductionSeismicFetcher.process_all_earthquakes (H := hh_only)
      production_fetcher turkey_csv None 0 archived_world
    = (Ok (Some (1%Z, 0%Z)), w')
    /\ trace w' = [Sleep 5000]
    /\ fs w' = <["seismic_station_data/processing_summary.json"
                 := JsonFile summary]> {[ turkey_dir := Dir ]}.
Proof.
  destruct (process_all_earthquakes_rerun (H := hh_only)
              production_fetcher "IRIS" turkey_csv None 0%Z archived_world)
    as (summary & w' & Hrun & Htrace & _ & Hfs & _).
  - reflexivity.
  - discriminate.
  - intros r event_time Hr Hdate. rewrite turkey_csv_rows in Hr.
    apply list_elem_of_singleton in Hr. subst r.
    injection Hdate as <-. exists Dir. apply lookup_singleton_eq.
  - reflexivity.
  - exists summary, w'. split; [exact Hrun |]. split; [exact Htrace |].
    exact Hfs.
Defined.

(** ** The name of an event directory *)










(** ** The constructors *)

Section Constructors.
Context `{Environment}.

End Constructors.


(** ** BatchRunner: what [max_events] and [start_from] select *)

Lemma slice_take_drop {A} (l : list A) (a n : Z) :
  (0 <= a)%Z -> (0 < n)%Z ->
  slice l a (a + n) = take (Z.to_nat n) (drop (Z.to_nat a) l).
Proof.
  intros Ha Hn. unfold slice, slice_index.
  destruct (Z.ltb_spec a 0); [lia |].
  destruct (Z.ltb_spec (a + n) 0); [lia |].
  destruct (decide (Z.to_nat a <= length l)%nat) as [Hle | Hgt].
  - rewrite (Nat.min_l (Z.to_nat a)) by done.
    destruct (decide (Z.to_nat (a + n) <= length l)%nat) as [Hle' | Hgt'].
    + rewrite Nat.min_l by done. f_equal. lia.
    + rewrite Nat.min_r by lia.
      rewrite !take_ge; [done | |]; rewrite length_drop; lia.
  - rewrite (Nat.min_r (Z.to_nat a)) by lia.
    rewrite !drop_ge by lia. by rewrite !take_nil.
Qed.

Section Selection.
Context `{Environment}.

(** X20: what a batch selects.  [max_events = 0] is no limit at all:
    the batch then behaves as one without [max_events].  With
    [0 <= start_from] the batch skips the first [start_from] rows that
    have coordinates and, for [max_events > 0], takes the next
    [max_events] of them (fewer when the catalog ends before).  A negative
    [max_events] with [start_from = 0] selects all rows but the last
    [-max_events], and a negative [start_from] without [max_events] the
    last [-start_from] rows. *)
Theorem batch_selection :
  forall (self : SeismicDataFetcher.t)
         (production : ProductionSeismicFetcher.t)
         (csv : list (Z * CsvRow)) (start_from : Z),
    let df := dropna csv in
    SeismicDataFetcher.fetch_all_earthquake_data self csv (Some 0%Z) start_from
    = SeismicDataFetcher.fetch_all_earthquake_data self csv None start_from
    /\ ProductionSeismicFetcher.process_all_earthquakes
         production csv (Some 0%Z) start_from
       = ProductionSeismicFetcher.process_all_earthquakes
           production csv None start_from
    /\ ((0 <= start_from)%Z ->
        selected_rows csv None start_from = drop (Z.to_nat start_from) df
        /\ forall n, (0 < n)%Z ->
             selected_rows csv (Some n) start_from
             = take (Z.to_nat n) (drop (Z.to_nat start_from) df))
    /\ (forall n, (n < 0)%Z ->
          selected_rows csv (Some n) 0
          = take (length df - Z.to_nat (- n)) df)
    /\ ((start_from < 0)%Z ->
        selected_rows csv None start_from
        = drop (length df - Z.to_nat (- start_from)) df).
Proof.
  intros self production csv start_from df.
  split; [reflexivity |]. split; [reflexivity |]. split; [| split].
  - intros Hstart. split.
    + unfold selected_rows, slice_from, slice_index. fold df.
      destruct (Z.ltb_spec start_from 0); [lia |].
      destruct (decide (Z.to_nat start_from <= length df)%nat).
      * by rewrite Nat.min_l.
      * rewrite Nat.min_r by lia. by rewrite !drop_ge by lia.
    + intros n Hn. unfold selected_rows. fold df.
      rewrite (proj2 (Z.eqb_neq n 0)) by lia.
      by apply slice_take_drop.
  - intros n Hn. unfold selected_rows. fold df.
    rewrite (proj2 (Z.eqb_neq n 0)) by lia.
    unfold slice, slice_index. rewrite Z.ltb_irrefl.
    change (0 + n)%Z with n.
    destruct (Z.ltb_spec n 0); [| lia].
    rewrite Nat.min_0_l, drop_0. f_equal.
    generalize (length df). intros len. lia.
  - intros Hstart. unfold selected_rows, slice_from, slice_index. fold df.
    destruct (Z.ltb_spec start_from 0); [| lia]. f_equal.
    generalize (length df). intros len. lia.
Qed.
End Selection.

(** A run of X20: five events asked for from a catalog of one *)
Lemma batch_selection_witness :
  selected_rows turkey_csv (Some 5%Z) 0 = [(0%Z, turkey_row)]
  /\ selected_rows turkey_csv (Some (-1)%Z) 0 = []
  /\ selected_rows turkey_csv None 1 = [].
Proof.
  destruct (batch_selection (H := hh_only) two_clients production_fetcher
              turkey_csv 0%Z) as (_ & _ & Hfrom & Hneg & _).
  destruct (Hfrom ltac:(done)) as [_ Htake].
  split; [exact (Htake 5%Z eq_refl) |].
  split; [exact (Hneg (-1)%Z eq_refl) |].
  destruct (batch_selection (H := hh_only) two_clients production_fetcher
              turkey_csv 1%Z) as (_ & _ & Hfrom1 & _).
  destruct (Hfrom1 ltac:(done)) as [Hdrop _]. exact Hdrop.
Defined.

(** ** The methods that go through [self.session] *)

Section SessionMethodsNeverAsk.
Context `{Environment}.
Import SessionMethods.

(** X21: [get_stations_iris_text], [get_stations_usgs] and
    [get_earthquake_catalog_data] read [self.base_url_iris],
    [self.base_url_usgs] and [self.session], attributes that no
    constructor or method ever sets.  Whatever a request would answer, on
    an instance of the class they send none: the AttributeError is caught,
    the methods return [[]], [[]] and None, and the world is left as it
    was. *)
Theorem session_methods_never_send_a_request :
  forall (session_get :
            attribute -> string -> list (string * json) -> M Response)
         (extract_stations_from_events :
            json -> R -> R -> M (list SeismicDataFetcher.TextStation))
         (strftime_ymd : Z -> string)
         (self : SeismicDataFetcher.t)
         (latitude longitude radius_km : R) (start_time end_time : Z)
         (w : World),
    instance_dict self !! "session" = None
    /\ get_stations_iris_text session_get self latitude longitude radius_km w
       = (Ok [], w)
    /\ get_stations_usgs session_get extract_stations_from_events
         self latitude longitude radius_km w
       = (Ok [], w)
    /\ get_earthquake_catalog_data session_get strftime_ymd
         self latitude longitude start_time end_time radius_km w
       = (Ok None, w).
Proof.
  intros session_get extract strftime_ymd self latitude longitude radius_km
         start_time end_time w.
  assert (forall name, name <> "data_dir" -> name <> "clients" ->
          instance_dict self !! name = None) as Hmissing.
  { intros name Hdir Hclients. unfold instance_dict.
    rewrite lookup_insert_ne by done. by rewrite lookup_singleton_ne. }
  assert (forall name, name <> "data_dir" -> name <> "clients" ->
          exists e, getattr self name w = (Raise e, w)) as Hraise.
  { intros name Hdir Hclients. unfold getattr.
    rewrite (Hmissing name Hdir Hclients). by eexists. }
  split; [by apply Hmissing |].
  destruct (Hraise "base_url_iris") as [e1 Hiris]; [done | done |].
  destruct (Hraise "session") as [e2 Hsession]; [done | done |].
  destruct (Hraise "base_url_usgs") as [e3 Husgs]; [done | done |].
  split; [| split].
  - unfold get_stations_iris_text, try_except, bind. by rewrite Hiris.
  - unfold get_stations_usgs, try_except, bind. by rewrite Hsession.
  - unfold get_earthquake_catalog_data, try_except, bind. by rewrite Husgs.
Qed.
End SessionMethodsNeverAsk.
